(** * Verification of the multi-page extraction pipeline of [Ollama/processor.py]

    The development embeds [merge_page_results] and the response handling of
    [extract_structured_data_with_ollama] and proves properties of the
    embedding.

    Python values are the values [json.loads] can produce.  Numbers are
    integers (the data model gives confidences as integers); strings are
    sequences of characters with code points below 256, one [ascii] each.
    Python dictionaries are insertion-ordered association lists.  A raised
    exception is the [Raise] case of the [result] monad. *)

From Stdlib Require Import List String Ascii ZArith Lia Bool DecimalString.
Import ListNotations.

Set Warnings "-register-all".

Local Open Scope string_scope.
Local Open Scope Z_scope.

(** ** Values *)

Inductive json : Type :=
| JNull
| JBool (b : bool)
| JNum (z : Z)
| JStr (s : string)
| JArr (xs : list json)
| JObj (kvs : list (string * json)).

Definition dict : Type := list (string * json).

(** ** Exceptions *)

Inductive exn : Type :=
| TypeError (msg : string)
| AttributeError (msg : string)
| IndexError (msg : string)
| Exception (msg : string).

(** [str(e)] *)
Definition str_exn (e : exn) : string :=
  match e with
  | TypeError m | AttributeError m | IndexError m | Exception m => m
  end.

Inductive result (A : Type) : Type :=
| Ok (a : A)
| Raise (e : exn).

Arguments Ok {A} a.
Arguments Raise {A} e.

Definition bind {A B : Type} (r : result A) (k : A -> result B) : result B :=
  match r with
  | Ok a => k a
  | Raise e => Raise e
  end.

Notation "x <- c ;; k" := (bind c (fun x => k))
  (at level 61, c at next level, right associativity).

(** ** Dictionaries *)

Module Dict.

Fixpoint get (k : string) (d : dict) : option json :=
  match d with
  | [] => None
  | (k', v) :: d' => if String.eqb k k' then Some v else get k d'
  end.

Definition mem (k : string) (d : dict) : bool :=
  match get k d with Some _ => true | None => false end.

(** [d[k] = v]: an existing key keeps its position, a new key goes last. *)
Fixpoint set (k : string) (v : json) (d : dict) : dict :=
  match d with
  | [] => [(k, v)]
  | (k', v') :: d' =>
      if String.eqb k k' then (k', v) :: d' else (k', v') :: set k v d'
  end.

Definition keys (d : dict) : list string := map fst d.

Definition values (d : dict) : list json := map snd d.

End Dict.

(** ** Python primitives on decoded values *)

Definition type_name (v : json) : string :=
  match v with
  | JNull => "NoneType"
  | JBool _ => "bool"
  | JNum _ => "int"
  | JStr _ => "str"
  | JArr _ => "list"
  | JObj _ => "dict"
  end.

(** [bool] is a subclass of [int]. *)
Definition as_number (v : json) : option Z :=
  match v with
  | JNum z => Some z
  | JBool true => Some 1
  | JBool false => Some 0
  | _ => None
  end.

(** Truth value, as tested by [if v] and [not v]. *)
Definition truthy (v : json) : bool :=
  match v with
  | JNull => false
  | JBool b => b
  | JNum z => negb (z =? 0)
  | JStr s => negb (String.eqb s "")
  | JArr xs => match xs with [] => false | _ => true end
  | JObj kvs => match kvs with [] => false | _ => true end
  end.

(** [a == b] *)
Fixpoint py_eq (a b : json) {struct a} : bool :=
  match a, b with
  | JNull, JNull => true
  | JStr s, JStr t => String.eqb s t
  | JArr xs, JArr ys =>
      (fix all2 (xs ys : list json) {struct xs} : bool :=
         match xs, ys with
         | [], [] => true
         | x :: xs', y :: ys' => py_eq x y && all2 xs' ys'
         | _, _ => false
         end) xs ys
  | JObj kvs, JObj kws =>
      Nat.eqb (List.length kvs) (List.length kws) &&
      (fix sub (kvs : dict) {struct kvs} : bool :=
         match kvs with
         | [] => true
         | (k, v) :: kvs' =>
             match Dict.get k kws with
             | Some w => py_eq v w && sub kvs'
             | None => false
             end
         end) kvs
  | _, _ =>
      match as_number a, as_number b with
      | Some x, Some y => x =? y
      | _, _ => false
      end
  end.

Definition not_supported (op : string) (a b : json) : exn :=
  TypeError ("'" ++ op ++ "' not supported between instances of '"
             ++ type_name a ++ "' and '" ++ type_name b ++ "'").

(** Ordering of two values for the operator written [op]: numbers by value,
    strings by code point, lists by their first differing elements and then
    by length; every other pairing raises [TypeError]. *)
Fixpoint py_compare (op : string) (a b : json) {struct a} : result comparison :=
  match a, b with
  | JStr s, JStr t => Ok (String.compare s t)
  | JArr xs, JArr ys =>
      (fix lex (xs ys : list json) {struct xs} : result comparison :=
         match xs, ys with
         | [], [] => Ok Eq
         | [], _ :: _ => Ok Lt
         | _ :: _, [] => Ok Gt
         | x :: xs', y :: ys' =>
             if py_eq x y then lex xs' ys' else py_compare op x y
         end) xs ys
  | _, _ =>
      match as_number a, as_number b with
      | Some x, Some y => Ok (x ?= y)
      | _, _ => Raise (not_supported op a b)
      end
  end.

(** [a > b] *)
Definition py_gt (a b : json) : result bool :=
  c <- py_compare ">" a b ;;
  Ok (match c with Gt => true | _ => false end).

(** [a < b] *)
Definition py_lt (a b : json) : result bool :=
  c <- py_compare "<" a b ;;
  Ok (match c with Lt => true | _ => false end).

(** [o.get(k, default)]; only dictionaries have the method. *)
Definition py_get (o : json) (k : string) (default : json) : result json :=
  match o with
  | JObj d =>
      Ok (match Dict.get k d with Some v => v | None => default end)
  | _ => Raise (AttributeError
                  ("'" ++ type_name o ++ "' object has no attribute 'get'"))
  end.

(** Substring test, [s in t] on two strings. *)
Fixpoint str_contains (s t : string) {struct t} : bool :=
  String.prefix s t ||
  match t with
  | EmptyString => false
  | String _ t' => str_contains s t'
  end.

(** [k in o] for a string [k]. *)
Definition py_in (k : string) (o : json) : result bool :=
  match o with
  | JObj d => Ok (Dict.mem k d)
  | JArr xs => Ok (existsb (py_eq (JStr k)) xs)
  | JStr t => Ok (str_contains k t)
  | _ => Raise (TypeError
                  ("argument of type '" ++ type_name o ++ "' is not iterable"))
  end.

(** [isinstance(v, dict) and "value" in v] *)
Definition has_value_key (v : json) : bool :=
  match v with
  | JObj d => Dict.mem "value" d
  | _ => false
  end.

Definition str_of_Z (z : Z) : string := NilZero.string_of_int (Z.to_int z).

Definition str_of_nat (n : nat) : string := str_of_Z (Z.of_nat n).

(** [c.lower()] on one character: A-Z, and the upper-case letters of the
    Latin-1 block. *)
Definition lower_ascii (c : ascii) : ascii :=
  let n := nat_of_ascii c in
  if ((65 <=? n) && (n <=? 90))%nat then ascii_of_nat (n + 32)
  else if ((192 <=? n) && (n <=? 222) && negb (n =? 215))%nat
       then ascii_of_nat (n + 32)
       else c.

Fixpoint lower (s : string) : string :=
  match s with
  | EmptyString => EmptyString
  | String c s' => String (lower_ascii c) (lower s')
  end.

(** [str(v)].  Inside a list or a dictionary a string is shown between
    single quotes without the escapes [repr] would add. *)
Fixpoint py_str_in (v : json) : string :=
  match v with
  | JNull => "None"
  | JBool true => "True"
  | JBool false => "False"
  | JNum z => str_of_Z z
  | JStr s => "'" ++ s ++ "'"
  | JArr xs => "[" ++ String.concat ", " (map py_str_in xs) ++ "]"
  | JObj kvs =>
      "{" ++ String.concat ", "
               (map (fun kv => "'" ++ fst kv ++ "': " ++ py_str_in (snd kv)) kvs)
          ++ "}"
  end.

Definition py_str (v : json) : string :=
  match v with
  | JStr s => s
  | _ => py_str_in v
  end.

(** [sum(vs)], starting from the integer 0. *)
Fixpoint py_sum_from (acc : Z) (vs : list json) : result Z :=
  match vs with
  | [] => Ok acc
  | v :: vs' =>
      match as_number v with
      | Some z => py_sum_from (acc + z) vs'
      | None => Raise (TypeError
                         ("unsupported operand type(s) for +: 'int' and '"
                          ++ type_name v ++ "'"))
      end
  end.

Definition py_sum (vs : list json) : result Z := py_sum_from 0 vs.

(** [int(total / count)]: true division followed by truncation towards
    zero, exact for totals below 2^53. *)
Definition int_mean (total : Z) (count : nat) : Z :=
  Z.quot total (Z.of_nat count).

(** ** Monadic iteration *)

Fixpoint foldM {A S : Type} (f : S -> A -> result S) (xs : list A) (s : S)
  : result S :=
  match xs with
  | [] => Ok s
  | x :: xs' => s' <- f s x ;; foldM f xs' s'
  end.

(** ** The page merger: [merge_page_results] *)

Record merge_state : Type := MergeState {
  merged_data : dict;
  field_confidences : dict;
  all_reasonings : list json
}.

Definition merge_init : merge_state :=
  {| merged_data := []; field_confidences := []; all_reasonings := [] |}.

(** The value and the confidence one page offers for one field: the scored
    form carries its own confidence, every other form takes the page's. *)
Definition field_candidate (page_data page_confidence : json)
    (field_key : string) : result (json * json) :=
  field_data <- py_get page_data field_key JNull ;;
  if has_value_key field_data then
    value <- py_get field_data "value" JNull ;;
    confidence <- py_get field_data "confidence" (JNum 0) ;;
    Ok (value, confidence)
  else Ok (field_data, page_confidence).

(** [value and value != "null" and
     str(value).lower() not in ["not found", "none"]] *)
Definition is_found (value : json) : bool :=
  truthy value
  && negb (py_eq value (JStr "null"))
  && negb (existsb (String.eqb (lower (py_str value))) ["not found"; "none"]).

Definition adopt (st : merge_state) (field_key : string)
    (value confidence : json) : merge_state :=
  {| merged_data := Dict.set field_key value (merged_data st);
     field_confidences := Dict.set field_key confidence (field_confidences st);
     all_reasonings := all_reasonings st |}.

(** [field_confidences.get(field_key, 0)] *)
Definition adopted_confidence (st : merge_state) (field_key : string) : json :=
  match Dict.get field_key (field_confidences st) with
  | Some c => c
  | None => JNum 0
  end.

(** Body of the loop over the fields of one page. *)
Definition merge_field (page_data page_confidence : json)
    (st : merge_state) (field_key : string) : result merge_state :=
  vc <- field_candidate page_data page_confidence field_key ;;
  let '(value, confidence) := vc in
  if is_found value then
    better <- (if negb (Dict.mem field_key (merged_data st)) then Ok true
               else py_gt confidence (adopted_confidence st field_key)) ;;
    if better : bool then Ok (adopt st field_key value confidence) else Ok st
  else Ok st.

(** Body of the loop over the pages. *)
Definition merge_page (fields_to_extract : dict)
    (st : merge_state) (page_result : json) : result merge_state :=
  extraction_results <- py_get page_result "extraction_results" (JObj []) ;;
  page_data <- py_get extraction_results "data" (JObj []) ;;
  page_confidence <- py_get extraction_results "confidence_score" (JNum 0) ;;
  page_reasoning <- py_get extraction_results "reasoning" (JStr "") ;;
  let st1 :=
    if truthy page_reasoning
    then {| merged_data := merged_data st;
            field_confidences := field_confidences st;
            all_reasonings := all_reasonings st ++ [page_reasoning] |}
    else st in
  foldM (merge_field page_data page_confidence)
        (Dict.keys fields_to_extract) st1.

Definition merge_loop (page_extractions : list json) (fields_to_extract : dict)
  : result merge_state :=
  foldM (merge_page fields_to_extract) page_extractions merge_init.

(** Fields no page supplied are set to [None]. *)
Fixpoint fill_missing (field_keys : list string) (merged : dict) : dict :=
  match field_keys with
  | [] => merged
  | k :: ks =>
      fill_missing ks (if Dict.mem k merged then merged
                       else Dict.set k JNull merged)
  end.

(** [sum(field_confidences.values()) / len(field_confidences)
     if field_confidences else 0], then [int(...)] *)
Definition average_confidence (confidences : dict) : result Z :=
  match confidences with
  | [] => Ok 0
  | _ :: _ =>
      total <- py_sum (Dict.values confidences) ;;
      Ok (int_mean total (List.length confidences))
  end.

Definition is_str (v : json) : bool :=
  match v with JStr _ => true | _ => false end.

Definition hashable (v : json) : bool :=
  match v with JArr _ | JObj _ => false | _ => true end.

Fixpoint join_items (index : nat) (items : list json) : result (list string) :=
  match items with
  | [] => Ok []
  | JStr s :: rest => ss <- join_items (S index) rest ;; Ok (s :: ss)
  | v :: _ =>
      Raise (TypeError ("sequence item " ++ str_of_nat index
                        ++ ": expected str instance, " ++ type_name v
                        ++ " found"))
  end.

Section Merger.

(** The order in which a [set] built from a list yields its distinct
    elements; the interpreter fixes it, the program does not. *)
Variable set_iteration : list json -> list json.

(** [" | ".join(set(all_reasonings)) if all_reasonings
     else "Multi-page extraction"] *)
Definition combine_reasonings (reasonings : list json) : result string :=
  match reasonings with
  | [] => Ok "Multi-page extraction"
  | _ :: _ =>
      match find (fun v => negb (hashable v)) reasonings with
      | Some v =>
          Raise (TypeError ("unhashable type: '" ++ type_name v ++ "'"))
      | None =>
          ss <- join_items 0 (set_iteration reasonings) ;;
          Ok (String.concat " | " ss)
      end
  end.

Definition merge_page_results (page_extractions : list json)
    (fields_to_extract : dict) : result json :=
  st <- merge_loop page_extractions fields_to_extract ;;
  let merged := fill_missing (Dict.keys fields_to_extract) (merged_data st) in
  avg_confidence <- average_confidence (field_confidences st) ;;
  combined_reasoning <- combine_reasonings (all_reasonings st) ;;
  first <- match page_extractions with
           | p :: _ => Ok p
           | [] => Raise (IndexError "list index out of range")
           end ;;
  first_results <- py_get first "extraction_results" (JObj []) ;;
  additional <- py_get first_results "additional_request_result" JNull ;;
  Ok (JObj
        [("extraction_results",
          JObj [("confidence_score", JNum avg_confidence);
                ("reasoning",
                 JStr ("Merged from "
                       ++ str_of_nat (List.length page_extractions)
                       ++ " pages: " ++ combined_reasoning));
                ("data", JObj merged);
                ("additional_request_result", additional)])]).

End Merger.

(** ** Decoding and normalising a model response *)

(** The text from the first opening brace on. *)
Fixpoint from_first_open (s : string) : option string :=
  match s with
  | EmptyString => None
  | String c s' => if Ascii.eqb c "{" then Some s else from_first_open s'
  end.

(** The longest prefix that ends with a closing brace. *)
Fixpoint to_last_close (s : string) : option string :=
  match s with
  | EmptyString => None
  | String c s' =>
      match to_last_close s' with
      | Some t => Some (String c t)
      | None => if Ascii.eqb c "}" then Some (String c EmptyString) else None
      end
  end.

(** [re.search(r'\{.*\}', response, re.DOTALL)]: the leftmost match of a
    greedy pattern, from the first opening brace to the last closing one. *)
Definition search_braces (response : string) : option string :=
  match from_first_open response with
  | Some t => to_last_close t
  | None => None
  end.

(** [o[k] = v] *)
Definition py_setitem (o : json) (k : string) (v : json) : result json :=
  match o with
  | JObj d => Ok (JObj (Dict.set k v d))
  | _ => Raise (TypeError ("'" ++ type_name o
                           ++ "' object does not support item assignment"))
  end.

(** [{key: None for key in fields_to_extract.keys()}] *)
Definition null_record (field_keys : list string) : dict :=
  fold_left (fun d k => Dict.set k JNull d) field_keys [].

Definition is_dict (v : json) : bool :=
  match v with JObj _ => true | _ => false end.

(** Body of the loop resolving each schema field of a decoded response:
    the scored form yields its value and confidence, every other form
    (a bare value, a missing field) yields the value and confidence 50.
    The test [confidence < 50] only selects a log line, but it raises on a
    confidence that is not a number. *)
Definition resolve_field (data : json) (acc : dict * list json)
    (field_key : string) : result (dict * list json) :=
  let '(processed_data, confidences) := acc in
  field_data <- py_get data field_key JNull ;;
  if has_value_key field_data then
    value <- py_get field_data "value" JNull ;;
    confidence <- py_get field_data "confidence" (JNum 0) ;;
    low_confidence <- py_lt confidence (JNum 50) ;;
    Ok (Dict.set field_key value processed_data,
        (confidences ++ [confidence])%list)
  else
    Ok (Dict.set field_key field_data processed_data,
        (confidences ++ [JNum 50])%list).

Definition resolve_fields (data : json) (fields_to_extract : dict)
  : result (dict * list json) :=
  foldM (resolve_field data) (Dict.keys fields_to_extract) ([], []).

(** [int(sum(cs) / len(cs)) if cs else 0] *)
Definition mean_confidence (confidences : list json) : result Z :=
  match confidences with
  | [] => Ok 0
  | _ :: _ =>
      total <- py_sum confidences ;;
      Ok (int_mean total (List.length confidences))
  end.

(** The structure check and the field loop that follow the decoding.  The
    dictionary bound to [extraction_results] is the one stored in
    [result], so the item assignments show in the returned [result]. *)
Definition normalise_result (decoded : json) (fields_to_extract : dict)
  : result json :=
  present <- py_in "extraction_results" decoded ;;
  let result :=
    if present : bool then decoded
    else JObj [("extraction_results",
                JObj [("overall_confidence", JNum 0);
                      ("reasoning", JStr "Response format was unexpected");
                      ("data", if is_dict decoded then decoded else JObj []);
                      ("additional_request_result", JNull)])] in
  extraction_results <- py_get result "extraction_results" (JObj []) ;;
  data <- py_get extraction_results "data" (JObj []) ;;
  resolved <- resolve_fields data fields_to_extract ;;
  let '(processed_data, confidences) := resolved in
  overall_confidence <- mean_confidence confidences ;;
  reported <- py_in "overall_confidence" extraction_results ;;
  er1 <- (if reported : bool then Ok extraction_results
          else py_setitem extraction_results "overall_confidence"
                          (JNum overall_confidence)) ;;
  score <- py_get er1 "overall_confidence" (JNum overall_confidence) ;;
  er2 <- py_setitem er1 "confidence_score" score ;;
  er3 <- py_setitem er2 "data" (JObj processed_data) ;;
  py_setitem result "extraction_results" er3.

(** ** The orchestrator: [extract_structured_data_with_ollama] *)

Inductive document_content : Type :=
| Image (data : string)
| Pdf (pages : list string).

Definition newline : string := String "010"%char EmptyString.

Section Orchestrator.

(** [json.loads]; [None] stands for [JSONDecodeError]. *)
Variable json_loads : string -> option json.
(** [json.dumps] *)
Variable json_dumps : json -> string.
(** The model server behind [call_ollama_vision]: a prompt and the images
    give the response text, or the call raises. *)
Variable call_ollama_vision : string -> list string -> result string.
Variable set_iteration : list json -> list json.
(** The prompt built from the schema and the additional request. *)
Variable build_instruction : dict -> option string -> string.

(** Direct decoding, then decoding of the brace-delimited match. *)
Definition decode_response (response : string) : result json :=
  match json_loads response with
  | Some v => Ok v
  | None =>
      match search_braces response with
      | Some found =>
          match json_loads found with
          | Some v => Ok v
          | None =>
              Raise (Exception ("Could not parse JSON response. Raw: "
                                ++ substring 0 200 response))
          end
      | None =>
          Raise (Exception ("No JSON found in response. Raw: "
                            ++ substring 0 200 response))
      end
  end.

Definition page_instruction (instruction : string) (i num_pages : nat)
  : string :=
  instruction ++ newline ++ newline ++ "Note: This is page "
  ++ str_of_nat (S i) ++ " of " ++ str_of_nat num_pages
  ++ " from the document.".

(** The loop over the pages of a document: a page whose call raises or
    whose response does not decode adds nothing. *)
Fixpoint collect_pages (instruction : string) (num_pages i : nat)
    (pages : list string) : list json :=
  match pages with
  | [] => []
  | page_image :: rest =>
      let later := collect_pages instruction num_pages (S i) rest in
      match call_ollama_vision (page_instruction instruction i num_pages)
                               [page_image] with
      | Ok page_response =>
          match json_loads page_response with
          | Some page_result => page_result :: later
          | None => later
          end
      | Raise _ => later
      end
  end.

(** The response text of the three flows. *)
Definition obtain_response (instruction : string)
    (document : document_content) (fields_to_extract : dict)
  : result string :=
  match document with
  | Image data => call_ollama_vision instruction [data]
  | Pdf pages =>
      match pages with
      | [page] => call_ollama_vision instruction [page]
      | _ =>
          match collect_pages instruction (List.length pages) 0 pages with
          | [] => Raise (Exception
                           "Failed to process any page of the document")
          | page_extractions =>
              merged_result <- merge_page_results set_iteration
                                 page_extractions fields_to_extract ;;
              Ok (json_dumps merged_result)
          end
      end
  end.

(** The [try] block. *)
Definition extract_body (document : document_content)
    (fields_to_extract : dict) (additional_request : option string)
  : result json :=
  let instruction := build_instruction fields_to_extract additional_request in
  response <- obtain_response instruction document fields_to_extract ;;
  decoded <- decode_response response ;;
  normalise_result decoded fields_to_extract.

(** The [except Exception] handler. *)
Definition degraded_result (e : exn) (fields_to_extract : dict) : json :=
  JObj [("error", JStr ("Error calling Ollama: " ++ str_exn e));
        ("extraction_results",
         JObj [("confidence_score", JNum 0);
               ("reasoning", JStr ("Error: " ++ str_exn e));
               ("data", JObj (null_record (Dict.keys fields_to_extract)));
               ("additional_request_result", JNull)])].

Definition extract_structured_data_with_ollama
    (document : document_content) (fields_to_extract : dict)
    (additional_request : option string) : json :=
  match fields_to_extract with
  | [] =>
      JObj [("error",
             JStr "fields_to_extract is required and must be a dictionary {field: description}")]
  | _ :: _ =>
      match extract_body document fields_to_extract additional_request with
      | Ok result => result
      | Raise e => degraded_result e fields_to_extract
      end
  end.

End Orchestrator.


(** ** Reading a returned record *)

Definition extraction_results_of (out : json) : option dict :=
  match out with
  | JObj d =>
      match Dict.get "extraction_results" d with
      | Some (JObj er) => Some er
      | _ => None
      end
  | _ => None
  end.

(** [out["extraction_results"][name]] *)
Definition result_entry (name : string) (out : json) : option json :=
  match extraction_results_of out with
  | Some er => Dict.get name er
  | None => None
  end.

Definition result_data (out : json) : option dict :=
  match result_entry "data" out with
  | Some (JObj d) => Some d
  | _ => None
  end.

(** [out["extraction_results"]["data"][field_key]] *)
Definition result_field (field_key : string) (out : json) : option json :=
  match result_data out with
  | Some d => Dict.get field_key d
  | None => None
  end.

(** [out["error"]] *)
Definition result_error (out : json) : option json :=
  match out with
  | JObj d => Dict.get "error" d
  | _ => None
  end.

(** ** Candidates of a page *)

(** What the loop of [merge_page_results] reads from one page for one
    field: the lookups at the head of [merge_page], then
    [field_candidate]. *)
Definition page_candidate (page_result : json) (field_key : string)
  : result (json * json) :=
  extraction_results <- py_get page_result "extraction_results" (JObj []) ;;
  page_data <- py_get extraction_results "data" (JObj []) ;;
  page_confidence <- py_get extraction_results "confidence_score" (JNum 0) ;;
  field_candidate page_data page_confidence field_key.

(** A page extraction in the sense of the data model: a dictionary whose
    results hold a dictionary of fields and a reasoning string, every
    field of the schema having an integer confidence. *)
Definition well_formed_page (fields_to_extract : dict) (page_result : json)
  : bool :=
  match py_get page_result "extraction_results" (JObj []) with
  | Ok extraction_results =>
      match py_get extraction_results "data" (JObj []),
            py_get extraction_results "reasoning" (JStr "") with
      | Ok (JObj _), Ok (JStr _) =>
          forallb (fun k => match page_candidate page_result k with
                            | Ok (_, JNum _) => true
                            | _ => false
                            end)
                  (Dict.keys fields_to_extract)
      | _, _ => false
      end
  | Raise _ => false
  end.

(** The candidate a page contributes to the scan of one field, if its
    value passes [is_found]. *)
Definition found_candidate (page_result : json) (field_key : string)
  : option (json * Z) :=
  match page_candidate page_result field_key with
  | Ok (v, JNum c) => if is_found v then Some (v, c) else None
  | _ => None
  end.

(** The value and confidence adopted so far for a field. *)
Definition slot_of (st : merge_state) (field_key : string)
  : option (json * Z) :=
  match Dict.get field_key (merged_data st),
        Dict.get field_key (field_confidences st) with
  | Some w, Some (JNum d) => Some (w, d)
  | _, _ => None
  end.

(** The effect of one candidate on a slot. *)
Definition slot_step (slot : option (json * Z)) (cand : option (json * Z))
  : option (json * Z) :=
  match cand, slot with
  | None, _ => slot
  | Some vc, None => Some vc
  | Some (v, c), Some (w, d) => if d <? c then Some (v, c) else Some (w, d)
  end.

(** ** A reference codec for examples

    A decoder and an encoder for the fragment of JSON without string
    escapes, fractions and exponents, on which they agree with [json.loads]
    and [json.dumps].  The examples instantiate the codec of the
    orchestrator with them. *)

Module RefCodec.

Definition quote : ascii := "034"%char.

Definition is_space (c : ascii) : bool :=
  Ascii.eqb c " " || Ascii.eqb c "009" || Ascii.eqb c "010"
  || Ascii.eqb c "013".

Definition is_digit (c : ascii) : bool :=
  let n := nat_of_ascii c in ((48 <=? n) && (n <=? 57))%nat.

Fixpoint skip_space (s : string) : string :=
  match s with
  | String c s' => if is_space c then skip_space s' else s
  | EmptyString => EmptyString
  end.

(** The characters up to the closing quote. *)
Fixpoint read_string (s : string) : option (string * string) :=
  match s with
  | EmptyString => None
  | String c s' =>
      if Ascii.eqb c quote then Some (EmptyString, s')
      else if Ascii.eqb c "\" || (nat_of_ascii c <? 32)%nat then None
      else match read_string s' with
           | Some (t, rest) => Some (String c t, rest)
           | None => None
           end
  end.

Fixpoint read_digits (acc : Z) (s : string) : Z * string :=
  match s with
  | String c s' =>
      if is_digit c
      then read_digits (10 * acc + Z.of_nat (nat_of_ascii c - 48)) s'
      else (acc, s)
  | EmptyString => (acc, s)
  end.

Definition ends_number (s : string) : bool :=
  match s with
  | String c _ =>
      negb (Ascii.eqb c "." || Ascii.eqb c "e" || Ascii.eqb c "E")
  | EmptyString => true
  end.

Definition read_natural (s : string) : option (Z * string) :=
  match s with
  | String c s' =>
      if Ascii.eqb c "0" then
        match s' with
        | String c' _ => if is_digit c' then None
                         else if ends_number s' then Some (0, s') else None
        | EmptyString => Some (0, s')
        end
      else if is_digit c then
        let '(z, rest) := read_digits 0 s in
        if ends_number rest then Some (z, rest) else None
      else None
  | EmptyString => None
  end.

Fixpoint read_elements (value : string -> option (json * string))
    (fuel : nat) (acc : list json) (s : string)
  : option (list json * string) :=
  match fuel with
  | O => None
  | S fuel' =>
      match value s with
      | Some (v, rest) =>
          match skip_space rest with
          | String c rest' =>
              if Ascii.eqb c "," then
                read_elements value fuel' (acc ++ [v])%list rest'
              else if Ascii.eqb c "]" then Some ((acc ++ [v])%list, rest')
              else None
          | EmptyString => None
          end
      | None => None
      end
  end.

Fixpoint read_members (value : string -> option (json * string))
    (fuel : nat) (acc : dict) (s : string) : option (dict * string) :=
  match fuel with
  | O => None
  | S fuel' =>
      match skip_space s with
      | String c s1 =>
          if Ascii.eqb c quote then
            match read_string s1 with
            | Some (k, s2) =>
                match skip_space s2 with
                | String c2 s3 =>
                    if Ascii.eqb c2 ":" then
                      match value s3 with
                      | Some (v, s4) =>
                          match skip_space s4 with
                          | String c4 s5 =>
                              if Ascii.eqb c4 "," then
                                read_members value fuel' (Dict.set k v acc) s5
                              else if Ascii.eqb c4 "}" then
                                Some (Dict.set k v acc, s5)
                              else None
                          | EmptyString => None
                          end
                      | None => None
                      end
                    else None
                | EmptyString => None
                end
            | None => None
            end
          else None
      | EmptyString => None
      end
  end.

Fixpoint read_value (fuel : nat) (s : string) : option (json * string) :=
  match fuel with
  | O => None
  | S fuel' =>
      match skip_space s with
      | EmptyString => None
      | String c rest =>
          if Ascii.eqb c "{" then
            match skip_space rest with
            | String c' rest' =>
                if Ascii.eqb c' "}" then Some (JObj [], rest')
                else match read_members (read_value fuel') fuel' [] rest with
                     | Some (d, rest'') => Some (JObj d, rest'')
                     | None => None
                     end
            | EmptyString => None
            end
          else if Ascii.eqb c "[" then
            match skip_space rest with
            | String c' rest' =>
                if Ascii.eqb c' "]" then Some (JArr [], rest')
                else match read_elements (read_value fuel') fuel' [] rest with
                     | Some (xs, rest'') => Some (JArr xs, rest'')
                     | None => None
                     end
            | EmptyString => None
            end
          else if Ascii.eqb c quote then
            match read_string rest with
            | Some (t, rest') => Some (JStr t, rest')
            | None => None
            end
          else if Ascii.eqb c "-" then
            match read_natural rest with
            | Some (z, rest') => Some (JNum (- z), rest')
            | None => None
            end
          else if is_digit c then
            match read_natural (String c rest) with
            | Some (z, rest') => Some (JNum z, rest')
            | None => None
            end
          else if String.prefix "null" (String c rest) then
            Some (JNull, substring 4 (String.length rest) (String c rest))
          else if String.prefix "true" (String c rest) then
            Some (JBool true, substring 4 (String.length rest) (String c rest))
          else if String.prefix "false" (String c rest) then
            Some (JBool false,
                  substring 5 (String.length rest) (String c rest))
          else None
      end
  end.

Definition json_loads (s : string) : option json :=
  match read_value (S (String.length s)) s with
  | Some (v, rest) =>
      match skip_space rest with
      | EmptyString => Some v
      | String _ _ => None
      end
  | None => None
  end.

Definition quoted (s : string) : string :=
  String quote s ++ String quote EmptyString.

Fixpoint json_dumps (v : json) : string :=
  match v with
  | JNull => "null"
  | JBool true => "true"
  | JBool false => "false"
  | JNum z => str_of_Z z
  | JStr s => quoted s
  | JArr xs => "[" ++ String.concat ", " (map json_dumps xs) ++ "]"
  | JObj kvs =>
      "{" ++ String.concat ", "
               (map (fun kv => quoted (fst kv) ++ ": " ++ json_dumps (snd kv))
                    kvs)
          ++ "}"
  end.

(** A [set] that yields its distinct elements in first-seen order. *)
Fixpoint set_iteration (xs : list json) : list json :=
  match xs with
  | [] => []
  | x :: xs' =>
      x :: filter (fun y => negb (py_eq x y)) (set_iteration xs')
  end.

End RefCodec.

(** ** Concrete inputs *)

Module Samples.

Definition scored (value : json) (confidence : Z) : json :=
  JObj [("value", value); ("confidence", JNum confidence)].

Definition page_of (reasoning : string) (data : dict) (additional : json)
  : json :=
  JObj [("extraction_results",
         JObj [("reasoning", JStr reasoning);
               ("data", JObj data);
               ("additional_request_result", additional)])].

Definition invoice_schema : dict :=
  [("invoice_id", JStr "Invoice number"); ("total", JStr "Total amount")].

(** A three-page document: the invoice number is read with confidence 40
    on page 1, with confidence 90 on page 2 and not at all on page 3. *)
Definition three_pages : list json :=
  [page_of "blurred scan"
     [("invoice_id", scored (JStr "INV-7") 40);
      ("total", scored (JStr "12.50") 70)]
     (JStr "first answer");
   page_of "sharp scan"
     [("invoice_id", scored (JStr "INV-1") 90);
      ("total", scored JNull 0)]
     (JStr "second answer");
   page_of "blurred scan"
     [("invoice_id", scored (JStr "") 99);
      ("total", scored (JStr "not found") 95)]
     JNull].

(** One page whose total is reported as the word none. *)
Definition page_with_none : json :=
  page_of "sharp scan"
    [("invoice_id", scored (JStr "INV-1") 90);
     ("total", scored (JStr "none") 80)]
    JNull.

(** Two pages without reasoning: an upper-case NULL read with confidence
    90, then a real value read with confidence 50. *)
Definition pages_with_upper_null : list json :=
  [JObj [("extraction_results",
          JObj [("data", JObj [("invoice_id", scored (JStr "NULL") 90)])])];
   JObj [("extraction_results",
          JObj [("data", JObj [("invoice_id", scored (JStr "INV-1") 50)])])]].

(** A schema of three fields, for means that do not divide evenly. *)
Definition dated_schema : dict :=
  [("invoice_id", JStr "Invoice number");
   ("total", JStr "Total amount");
   ("date", JStr "Invoice date")].

End Samples.

(** ** Vocabulary of the statements on responses *)

(** [extraction_results.get("data", {})] on a dictionary. *)
Definition data_of (extraction_results : dict) : json :=
  match Dict.get "data" extraction_results with
  | Some v => v
  | None => JObj []
  end.

(** The aggregate confidence a normalised result carries: the one the
    response reported, else the mean computed from the fields. *)
Definition aggregate_confidence (extraction_results : dict) (mean : Z) : json :=
  match Dict.get "overall_confidence" extraction_results with
  | Some reported => reported
  | None => JNum mean
  end.

Fixpoint has_char (c : ascii) (s : string) : bool :=
  match s with
  | EmptyString => false
  | String c' s' => Ascii.eqb c' c || has_char c s'
  end.

Definition braced (mid : string) : string :=
  String "{" (mid ++ String "}" EmptyString).

Module Responses.

(** A response in the documented envelope that reports an overall
    confidence of 99 over fields read with confidences 10 and 30. *)
Definition reported_results : dict :=
  [("overall_confidence", JNum 99);
   ("reasoning", JStr "blurred scan");
   ("data",
    JObj [("invoice_id", Samples.scored (JStr "INV-1") 10);
          ("total", Samples.scored (JStr "12.50") 30)]);
   ("additional_request_result", JNull)].

Definition reported_response : dict :=
  [("extraction_results", JObj reported_results)].

(** A response that reports no overall confidence and omits the total. *)
Definition partial_data : dict :=
  [("invoice_id", Samples.scored (JStr "INV-1") 90)].

Definition partial_results : dict :=
  [("reasoning", JStr "sharp scan"); ("data", JObj partial_data)].

Definition partial_response : dict :=
  [("extraction_results", JObj partial_results)].

(** A response that reports no overall confidence over three fields read
    with confidences 90, 60 and 31. *)
Definition unreported_results : dict :=
  [("reasoning", JStr "sharp scan");
   ("data",
    JObj [("invoice_id", Samples.scored (JStr "INV-1") 90);
          ("total", Samples.scored (JStr "12.50") 60);
          ("date", Samples.scored (JStr "2024-05-01") 31)])].

Definition unreported_response : dict :=
  [("extraction_results", JObj unreported_results)].

(** A response that reports an overall confidence of 99 over three fields
    read with confidences 10, 30 and 21. *)
Definition overruled_results : dict :=
  [("overall_confidence", JNum 99);
   ("reasoning", JStr "blurred scan");
   ("data",
    JObj [("invoice_id", Samples.scored (JStr "INV-1") 10);
          ("total", Samples.scored (JStr "12.50") 30);
          ("date", Samples.scored (JStr "2024-05-01") 21)]);
   ("additional_request_result", JNull)].

Definition overruled_response : dict :=
  [("extraction_results", JObj overruled_results)].

End Responses.

(** ** Vocabulary of the statements on the orchestrator *)

(** The decoded response of one page of a multi-page document, if the call
    returned and its text decoded. *)
Definition page_attempt (json_loads : string -> option json)
    (call_ollama_vision : string -> list string -> result string)
    (instruction : string) (num_pages i : nat) (page_image : string)
  : option json :=
  match call_ollama_vision (page_instruction instruction i num_pages)
                           [page_image] with
  | Ok page_response => json_loads page_response
  | Raise _ => None
  end.

Definition option_list {A : Type} (o : option A) : list A :=
  match o with
  | Some a => [a]
  | None => []
  end.

Module Servers.

Definition timed_out : exn :=
  Exception
    "Ollama request timed out. Try with a smaller document or faster model.".

(** A model server that never answers in time. *)
Definition always_times_out (prompt : string) (images : list string)
  : result string :=
  Raise timed_out.

(** A model server that answers with the text printed on the page, and
    times out on a page marked unreadable. *)
Definition reads_page (prompt : string) (images : list string)
  : result string :=
  match images with
  | [image] =>
      if String.eqb image "unreadable" then Raise timed_out else Ok image
  | _ => Raise (Exception "Bad Request to Ollama.")
  end.

Definition prompt (fields_to_extract : dict)
    (additional_request : option string) : string :=
  "Extract information from this document image.".

(** Five pages, the second and the fourth unreadable. *)
Definition five_pages : list string :=
  [RefCodec.json_dumps (nth 0 Samples.three_pages JNull);
   "unreadable";
   RefCodec.json_dumps (nth 1 Samples.three_pages JNull);
   "unreadable";
   RefCodec.json_dumps (nth 2 Samples.three_pages JNull)].

End Servers.

(** ** Vocabulary of the proofs *)

Definition keys_within (field_keys : list string) (st : merge_state) : Prop :=
  incl (Dict.keys (merged_data st)) field_keys
  /\ NoDup (Dict.keys (merged_data st)).

Definition merged_record (avg : Z) (reasoning : string) (merged : dict)
    (additional : json) : json :=
  JObj [("extraction_results",
         JObj [("confidence_score", JNum avg);
               ("reasoning", JStr reasoning);
               ("data", JObj merged);
               ("additional_request_result", additional)])].

Definition is_int (v : json) : Prop := exists z, v = JNum z.

Definition is_string (v : json) : Prop := exists s, v = JStr s.

Record state_ok (st : merge_state) : Prop := StateOk {
  ok_synced : forall k,
    Dict.mem k (merged_data st) = Dict.mem k (field_confidences st);
  ok_confidences : Forall is_int (Dict.values (field_confidences st));
  ok_reasonings : Forall is_string (all_reasonings st)
}.

(** The candidate a field reads from the data and confidence of a page. *)
Definition found_in (page_data page_confidence : json) (k : string)
  : option (json * Z) :=
  match field_candidate page_data page_confidence k with
  | Ok (v, JNum c) => if is_found v then Some (v, c) else None
  | _ => None
  end.

(** The scan of one field over the pages. *)
Definition scan (pages : list json) (k : string) (slot : option (json * Z))
  : option (json * Z) :=
  fold_left (fun s p => slot_step s (found_candidate p k)) pages slot.

(** [(w, d)], read on page [j], is the leftmost candidate of greatest
    confidence among the candidates of [pages] for [k]. *)
Definition leftmost_best (pages : list json) (k : string) (w : json) (d : Z)
    (j : nat) : Prop :=
  (exists pj, nth_error pages j = Some pj
              /\ found_candidate pj k = Some (w, d))
  /\ forall i p v c,
       nth_error pages i = Some p -> found_candidate p k = Some (v, c) ->
       c <= d /\ (c = d -> (j <= i)%nat).

Definition is_number (v : json) : Prop := exists z, as_number v = Some z.

(** The record [normalise_result] returns for a response in the documented
    envelope. *)
Definition normalised (d er processed : dict) (mean : Z) : json :=
  JObj (Dict.set "extraction_results"
          (JObj (Dict.set "data" (JObj processed)
                   (Dict.set "confidence_score" (aggregate_confidence er mean)
                      (if Dict.mem "overall_confidence" er then er
                       else Dict.set "overall_confidence" (JNum mean) er))))
          d).

(** * The rest of the program

    The loader and the model client of [Ollama/processor.py], the model
    catalogue of [Ollama/models_config.py] and the file-name filter of
    [Ollama/app.py]. *)

From Stdlib Require Import Permutation.

(** ** Vocabulary of the further properties of the merger *)

(** Every adopted confidence is an integer between [lo] and [hi]. *)
Definition confidences_within (lo hi : Z) (st : merge_state) : Prop :=
  Forall (fun v => exists z, v = JNum z /\ lo <= z <= hi)
         (Dict.values (field_confidences st)).

(** ** Vocabulary of the further properties of the normaliser *)

(** The record that replaces a decoded response without the key
    [extraction_results] (the structure check of the orchestrator). *)
Definition wrapped_response (decoded : json) : dict :=
  [("overall_confidence", JNum 0);
   ("reasoning", JStr "Response format was unexpected");
   ("data", if is_dict decoded then decoded else JObj []);
   ("additional_request_result", JNull)].

(** [field_data.get("confidence", 0)] of a field in the scored form. *)
Definition scored_confidence (field_data : dict) : json :=
  match Dict.get "confidence" field_data with
  | Some c => c
  | None => JNum 0
  end.

(** [data.get(field_key)] on a dictionary. *)
Definition value_or_null (data : dict) (field_key : string) : json :=
  match Dict.get field_key data with
  | Some v => v
  | None => JNull
  end.

(** ** The model server: [is_vision_model] and [call_ollama_vision] *)

Record http_response : Type := HttpResponse {
  status_code : Z;
  text : string
}.

(** What a request comes to: a response, or an exception of [requests]
    ([Timeout], another [RequestException] with the response it may carry),
    or any other exception. *)
Inductive request_outcome : Type :=
| Responded (response : http_response)
| TimedOut (msg : string)
| RequestFailed (msg : string) (response : option http_response)
| Crashed (e : exn).

(** [v.lower()]; only strings have the method. *)
Definition py_lower (v : json) : result string :=
  match v with
  | JStr s => Ok (lower s)
  | _ => Raise (AttributeError
                  ("'" ++ type_name v ++ "' object has no attribute 'lower'"))
  end.

(** The elements a [for] loop draws from a value: the items of a list, the
    keys of a dictionary, the characters of a string. *)
Definition py_iter (v : json) : result (list json) :=
  match v with
  | JArr xs => Ok xs
  | JObj d => Ok (map JStr (Dict.keys d))
  | JStr s =>
      Ok (map (fun c => JStr (String c EmptyString)) (list_ascii_of_string s))
  | _ => Raise (TypeError ("'" ++ type_name v ++ "' object is not iterable"))
  end.

(** [len(v)], taken for a log line only: the length itself is not kept,
    but numbers and booleans have none. *)
Definition py_len (v : json) : result unit :=
  match v with
  | JStr _ | JArr _ | JObj _ => Ok tt
  | _ => Raise (TypeError
                  ("object of type '" ++ type_name v ++ "' has no len()"))
  end.

Definition vision_families : list string :=
  ["mllama"; "llava"; "bakllava"; "gemma3"; "gemma2"].

Definition vision_keywords : list string := ["vision"; "llava"; "bakllava"].

(** [any(keyword in model_name.lower() for keyword in [...])] *)
Definition has_vision_keyword (model_name : string) : bool :=
  existsb (fun keyword => str_contains keyword (lower model_name))
          vision_keywords.

(** The checks on the entry of the model in the list of [/api/tags]. *)
Definition judge_listed (model_name : string) (m : json) : result bool :=
  details <- py_get m "details" (JObj []) ;;
  family_value <- py_get details "family" (JStr "") ;;
  family <- py_lower family_value ;;
  families <- py_get details "families" (JArr []) ;;
  clip <- py_in "clip" families ;;
  if clip : bool then Ok true
  else
    known <- (if existsb (String.eqb family) vision_families then Ok true
              else items <- py_iter families ;;
                   Ok (existsb (fun f => existsb (fun x => py_eq (JStr x) f)
                                                 vision_families)
                               items)) ;;
    if known : bool then Ok true
    else if has_vision_keyword model_name then Ok true
    else Ok false.

(** The loop over the listed models; a model that is not listed is taken
    to support vision. *)
Fixpoint scan_models (model_name : string) (models : list json)
  : result bool :=
  match models with
  | [] => Ok true
  | m :: rest =>
      name <- py_get m "name" JNull ;;
      if py_eq name (JStr model_name) then judge_listed model_name m
      else scan_models model_name rest
  end.

Section Client.

(** [response.json()]; [None] stands for its decoding error. *)
Variable json_loads : string -> option json.
(** The message of that decoding error. *)
Variable decode_error : string -> string.
(** The message of the [HTTPError] that [raise_for_status] raises. *)
Variable http_error : http_response -> string.
(** The server: the answers to [/api/show] for a model name, to
    [/api/tags], and to [/api/generate] for a model, a prompt and images. *)
Variable show : string -> request_outcome.
Variable tags : request_outcome.
Variable generate : string -> string -> list string -> request_outcome.

Definition received (outcome : request_outcome) : result http_response :=
  match outcome with
  | Responded response => Ok response
  | TimedOut msg => Raise (Exception msg)
  | RequestFailed msg _ => Raise (Exception msg)
  | Crashed e => Raise e
  end.

Definition response_json (response : http_response) : result json :=
  match json_loads (text response) with
  | Some v => Ok v
  | None => Raise (Exception (decode_error (text response)))
  end.

(** The checks on the answer of [/api/show]: the vision encoder among the
    families, then the projector. *)
Definition probe_show (show_response : http_response) : result bool :=
  if status_code show_response =? 200 then
    show_data <- response_json show_response ;;
    details <- py_get show_data "details" (JObj []) ;;
    families <- py_get details "families" (JArr []) ;;
    clip <- py_in "clip" families ;;
    if clip : bool then Ok true else py_in "projector_info" show_data
  else Ok false.

(** The [try] block of [is_vision_model]. *)
Definition is_vision_model_body (model_name : string) : result bool :=
  show_response <- received (show model_name) ;;
  marked <- probe_show show_response ;;
  if marked : bool then Ok true
  else
    tags_response <- received tags ;;
    if negb (status_code tags_response =? 200) then Ok true
    else
      data <- response_json tags_response ;;
      models <- py_get data "models" (JArr []) ;;
      listed <- py_iter models ;;
      scan_models model_name listed.

(** Any exception counts as support. *)
Definition is_vision_model (model_name : string) : bool :=
  match is_vision_model_body model_name with
  | Ok b => b
  | Raise _ => true
  end.

(** The cross mark that opens the message is kept as the three bytes of
    its UTF-8 encoding. *)
Definition not_vision_message (model : string) : string :=
  "❌ Model '" ++ model
  ++ "' does not support vision/image input. Please select a vision-capable model like: llama3.2-vision, llava, or bakllava.".

Definition timeout_message : string :=
  "Ollama request timed out. Try with a smaller document or faster model.".

Definition bad_request_message : string :=
  "Bad Request to Ollama. Possible causes: image too large, too many images, or invalid format. Try with a smaller/simpler document.".

Definition payload_message : string :=
  "Payload too large for Ollama. The document images are too big. Try with a smaller document.".

Definition server_error_message : string :=
  "Ollama internal error. The model might have crashed. Try restarting Ollama: ollama serve".

(** The handler of a [RequestException] that carries a response; [msg] is
    the message of the exception, raised again for the other statuses. *)
Definition explain_failure (model msg : string) (response : http_response)
  : exn :=
  if status_code response =? 400 then
    if str_contains "does not support images" (lower (text response))
       || str_contains "vision" (lower (text response))
    then Exception (not_vision_message model)
    else Exception bad_request_message
  else if status_code response =? 413 then Exception payload_message
  else if status_code response =? 500 then Exception server_error_message
  else Exception msg.

(** [raise_for_status] raises for the statuses from 400 to 599. *)
Definition is_error_status (status : Z) : bool :=
  (400 <=? status) && (status <? 600).

(** What [call_ollama_vision] makes of the outcome of its request. *)
Definition read_generation (model : string) (outcome : request_outcome)
  : result json :=
  match outcome with
  | TimedOut _ => Raise (Exception timeout_message)
  | RequestFailed msg None => Raise (Exception msg)
  | RequestFailed msg (Some response) =>
      Raise (explain_failure model msg response)
  | Crashed e => Raise e
  | Responded response =>
      if is_error_status (status_code response)
      then Raise (explain_failure model (http_error response) response)
      else
        result <- response_json response ;;
        response_text <- py_get result "response" (JStr "") ;;
        if truthy response_text
        then _ <- py_len response_text ;; Ok response_text
        else Ok (JStr "{}")
  end.

Definition call_ollama_vision (model prompt : string)
    (images_base64 : list string) : result json :=
  if negb (is_vision_model model)
  then Raise (Exception (not_vision_message model))
  else read_generation model (generate model prompt images_base64).

(** The text the orchestrator decodes: [json.loads] accepts a string and
    raises [TypeError] on any other value. *)
Definition response_text_of (returned : result json) : result string :=
  match returned with
  | Ok (JStr s) => Ok s
  | Ok v => Raise (TypeError
                     ("the JSON object must be str, bytes or bytearray, not "
                      ++ type_name v))
  | Raise e => Raise e
  end.

(** The client of the orchestrator for the configured model. *)
Definition ollama_client (model prompt : string) (images : list string)
  : result string :=
  response_text_of (call_ollama_vision model prompt images).

End Client.

(** ** Concrete servers *)

Module Probes.

Definition no_text (body : string) : string := "".

Definition status_line (response : http_response) : string :=
  str_of_Z (status_code response) ++ " Error".

Definition not_found : http_response :=
  {| status_code := 404; text := "model not found" |}.

Definition show_unknown (model_name : string) : request_outcome :=
  Responded not_found.

Definition show_projector (model_name : string) : request_outcome :=
  Responded {| status_code := 200;
               text := RefCodec.json_dumps
                         (JObj [("details", JObj [("family", JStr "gemma3")]);
                                ("projector_info", JObj [])]) |}.

(** A list of installed models with the one text-only model mistral:7b. *)
Definition tags_text_only : request_outcome :=
  Responded
    {| status_code := 200;
       text := RefCodec.json_dumps
                 (JObj [("models",
                         JArr [JObj [("name", JStr "mistral:7b");
                                     ("details",
                                      JObj [("family", JStr "llama");
                                            ("families",
                                             JArr [JStr "llama"])])]])]) |}.

Definition tags_down : request_outcome :=
  RequestFailed "Connection refused" None.

(** A generation that answers with an empty response text. *)
Definition generate_nothing (model prompt : string) (images : list string)
  : request_outcome :=
  Responded {| status_code := 200;
               text := RefCodec.json_dumps (JObj [("response", JStr "")]) |}.

(** A generation refused because the payload is too large. *)
Definition generate_too_large (model prompt : string) (images : list string)
  : request_outcome :=
  Responded {| status_code := 413; text := "request body too large" |}.

End Probes.

(** ** The file-name filter of the upload route: [allowed_file] *)

Definition ALLOWED_EXTENSIONS : list string := ["png"; "jpg"; "jpeg"; "pdf"].

(** The two parts around the last dot, when there is a dot. *)
Fixpoint split_last_dot (s : string) : option (string * string) :=
  match s with
  | EmptyString => None
  | String c s' =>
      match split_last_dot s' with
      | Some (head, tail) => Some (String c head, tail)
      | None => if Ascii.eqb c "." then Some (EmptyString, s') else None
      end
  end.

(** [s.rsplit('.', 1)] *)
Definition rsplit_dot (s : string) : list string :=
  match split_last_dot s with
  | Some (head, tail) => [head; tail]
  | None => [s]
  end.

(** ['.' in filename and
     filename.rsplit('.', 1)[1].lower() in ALLOWED_EXTENSIONS]; the index is
    in range whenever the first test holds. *)
Definition allowed_file (filename : string) : bool :=
  has_char "." filename
  && match nth_error (rsplit_dot filename) 1 with
     | Some extension =>
         existsb (String.eqb (lower extension)) ALLOWED_EXTENSIONS
     | None => false
     end.

(** ** The model catalogue of [models_config.py] *)

Module Catalogue.

(** One entry of a list of models; [recommended] is present only when it
    is true. *)
Definition entry (name display_name size vram speed accuracy description
                  use_case : string) (recommended : bool) : json :=
  JObj ([("name", JStr name);
         ("display_name", JStr display_name);
         ("size", JStr size);
         ("vram", JStr vram);
         ("speed", JStr speed);
         ("accuracy", JStr accuracy);
         ("description", JStr description);
         ("use_case", JStr use_case)]
        ++ (if recommended then [("recommended", JBool true)] else []))%list.

Definition category (description : string) (models : list json) : json :=
  JObj [("description", JStr description); ("models", JArr models)].

Definition VISION_MODELS : dict :=
  [("lightweight",
    category
      "Best for CPU-only or systems with very limited GPU memory (< 4GB VRAM)"
      [entry "gemma3:270m" "Gemma3 270M" "~400MB" "~1GB" "Very Fast" "Basic"
         "Ultra-lightweight Gemma3. Good for basic text extraction and very simple forms."
         "Simple invoices and receipts on low-end hardware" false]);
   ("medium",
    category "Best for systems with moderate GPU memory (6-8GB VRAM)"
      [entry "gemma3:4b" "Gemma3 4B" "~3GB" "5-6GB" "Fast" "Good"
         "Balanced Gemma3 model. Good compromise of speed and quality."
         "General document extraction on mid-range GPUs" true;
       entry "llava-phi3:3.8b" "LLaVA-Phi3 3.8B" "~2.3GB" "4-5GB" "Fast"
         "Good" "LLaVA fine-tuned from Phi 3. OCR-friendly and balanced."
         "Entry-level OCR and document extraction" false;
       entry "llava:7b" "LLaVA 7B" "~4.7GB" "6-7GB" "Medium" "Good"
         "Classic LLaVA, well-tested for documents and OCR-like tasks."
         "General document extraction" false]);
   ("large",
    category "Best for systems with high-end GPU (12-16GB VRAM)"
      [entry "llama3.2-vision:11b" "Llama 3.2 Vision 11B" "~7.9GB" "10-12GB"
         "Medium-Slow" "Excellent"
         "Meta's instruction-tuned image reasoning model."
         "High-accuracy extraction, complex reasoning" true;
       entry "gemma3:12b" "Gemma3 12B" "~8GB" "11-13GB" "Medium-Slow"
         "Excellent" "Most capable Gemma3 single-GPU model."
         "High-quality document extraction (user-recommended)" false;
       entry "llava:13b" "LLaVA 13B" "~8GB" "11-13GB" "Slow" "Very Good"
         "Larger LLaVA for better OCR/document accuracy."
         "Complex document analysis" false]);
   ("professional",
    category
      "Best for high-end workstations (24GB+ VRAM) or multi-GPU setups"
      [entry "gemma3:27b" "Gemma3 27B" "~17GB" "22-26GB" "Slow" "Excellent"
         "Largest Gemma3 model for maximum quality on a single high-memory GPU."
         "Maximum accuracy for critical documents" false;
       entry "llama3.2-vision:90b" "Llama 3.2 Vision 90B" "~55GB" "70-80GB"
         "Very Slow" "Outstanding"
         "Meta's largest vision model with exceptional reasoning."
         "Enterprise: complex legal/financial documents" false])].

Definition recommendation (category_name : string) (models : list string)
    (note : string) : json :=
  JObj [("category", JStr category_name);
        ("recommended_models", JArr (map JStr models));
        ("note", JStr note)].

Definition HARDWARE_RECOMMENDATIONS : dict :=
  [("cpu_only",
    recommendation "lightweight" ["gemma3:270m"]
      "CPU-only processing will be slow. Consider at least 16GB RAM.");
   ("gpu_4gb",
    recommendation "lightweight" ["gemma3:270m"]
      "Limited VRAM. Stick to lightweight Gemma3.");
   ("gpu_6gb",
    recommendation "medium" ["gemma3:4b"; "llava-phi3:3.8b"]
      "Good balance of speed and accuracy for most documents.");
   ("gpu_8gb",
    recommendation "medium" ["gemma3:4b"; "llava:7b"]
      "Optimal for general document extraction tasks.");
   ("gpu_12gb",
    recommendation "large" ["llama3.2-vision:11b"; "gemma3:12b"; "llava:13b"]
      "High accuracy for professional use.");
   ("gpu_16gb",
    recommendation "large" ["llama3.2-vision:11b"; "gemma3:12b"]
      "Excellent performance for complex documents.");
   ("gpu_24gb",
    recommendation "professional" ["gemma3:27b"]
      "Professional-grade accuracy and capabilities.");
   ("gpu_48gb_plus",
    recommendation "professional" ["llama3.2-vision:90b"]
      "Enterprise-grade, maximum accuracy for critical applications.")].

(** [VISION_MODELS.get(category, {}).get("models", [])] *)
Definition get_models_by_category (category_name : string) : result json :=
  found <- py_get (JObj VISION_MODELS) category_name (JObj []) ;;
  py_get found "models" (JArr []).

(** [HARDWARE_RECOMMENDATIONS[key]]; [None] stands for [KeyError]. *)
Definition hardware (key : string) : option json :=
  Dict.get key HARDWARE_RECOMMENDATIONS.

Definition get_recommended_models_by_vram (vram_gb : Z) : option json :=
  if vram_gb =? 0 then hardware "cpu_only"
  else if vram_gb <=? 4 then hardware "gpu_4gb"
  else if vram_gb <=? 6 then hardware "gpu_6gb"
  else if vram_gb <=? 8 then hardware "gpu_8gb"
  else if vram_gb <=? 12 then hardware "gpu_12gb"
  else if vram_gb <=? 16 then hardware "gpu_16gb"
  else if vram_gb <=? 24 then hardware "gpu_24gb"
  else hardware "gpu_48gb_plus".

(** The names of the models of one list, as the inner loop of
    [get_all_model_names] collects them; [None] stands for the [KeyError]
    of an entry without name. *)
Fixpoint model_names (models : list json) : option (list json) :=
  match models with
  | [] => Some []
  | JObj m :: rest =>
      match Dict.get "name" m, model_names rest with
      | Some name, Some names => Some (name :: names)
      | _, _ => None
      end
  | _ :: _ => None
  end.

(** The rank of a category in the order of the catalogue. *)
Definition category_rank (category_name : json) : nat :=
  if py_eq category_name (JStr "lightweight") then 0
  else if py_eq category_name (JStr "medium") then 1
  else if py_eq category_name (JStr "large") then 2
  else 3.

End Catalogue.

(** ** The document loader: [process_document], [process_image],
    [process_pdf] *)

(** [ValueError] for a media type the loader does not know, or the
    exception of a file or image operation. *)
Inductive load_error : Type :=
| UnsupportedFileType (msg : string)
| LoadFailed (e : exn).

Definition MAX_PAGES : nat := 10.

Definition MAX_WIDTH : Z := 1344.

Section Loader.

(** Page images, with the operations of the imaging library. *)
Variable picture : Type.
Variable picture_width : picture -> Z.
Variable picture_height : picture -> Z.
(** [image.resize((width, height), Image.LANCZOS)] *)
Variable resize : picture -> Z -> Z -> picture.
(** [int(image.height * (MAX_WIDTH / image.width))], computed in floating
    point. *)
Variable scaled_height : picture -> Z.
(** [convert_from_path(pdf_path, dpi=250)] *)
Variable convert_from_path : string -> result (list picture).
(** Saving page [i] as a temporary JPEG file, reading it back as base64
    and removing the file. *)
Variable encode_page : string -> nat -> picture -> result string.
(** Reading an image file as base64. *)
Variable read_base64 : string -> result string.

Definition process_image (image_path : string) : result document_content :=
  data <- read_base64 image_path ;;
  Ok (Image data).

(** The page as it is saved: scaled down to [MAX_WIDTH] when wider. *)
Definition fit_width (image : picture) : picture :=
  if MAX_WIDTH <? picture_width image
  then resize image MAX_WIDTH (scaled_height image)
  else image.

(** The loop over the pages, from index [i] on. *)
Fixpoint encode_pages (pdf_path : string) (i : nat) (images : list picture)
  : result (list string) :=
  match images with
  | [] => Ok []
  | image :: rest =>
      page <- encode_page pdf_path i (fit_width image) ;;
      pages <- encode_pages pdf_path (S i) rest ;;
      Ok (page :: pages)
  end.

Definition process_pdf (pdf_path : string) : result document_content :=
  images <- convert_from_path pdf_path ;;
  let images :=
    if (MAX_PAGES <? List.length images)%nat then firstn MAX_PAGES images
    else images in
  pages <- encode_pages pdf_path 0 images ;;
  Ok (Pdf pages).

Definition loaded (r : result document_content)
  : load_error + document_content :=
  match r with
  | Ok document => inr document
  | Raise e => inl (LoadFailed e)
  end.

Definition process_document (filepath mime_type : string)
  : load_error + document_content :=
  if String.prefix "image/" mime_type then loaded (process_image filepath)
  else if String.eqb mime_type "application/pdf"
       then loaded (process_pdf filepath)
       else inl (UnsupportedFileType
                   ("Unsupported file type: " ++ mime_type)).

End Loader.

(** A conversion of twelve pages, every second one wider than the limit,
    for the examples of the loader. *)
Module Scans.

(** A picture by its width and height. *)
Definition picture : Type := (Z * Z)%type.

Definition resize (image : picture) (width height : Z) : picture :=
  (width, height).

Definition scaled_height (image : picture) : Z :=
  snd image * MAX_WIDTH / fst image.

Definition sheets : list picture :=
  [(2067, 2923); (1240, 1754); (2067, 2923); (1240, 1754);
   (2067, 2923); (1240, 1754); (2067, 2923); (1240, 1754);
   (2067, 2923); (1240, 1754); (2067, 2923); (1240, 1754)].

Definition convert_from_path (pdf_path : string) : result (list picture) :=
  Ok sheets.

(** The page number as a letter, then [w] for a page of the maximal
    width and [n] for a narrower one. *)
Definition encode_page (pdf_path : string) (i : nat) (image : picture)
  : result string :=
  Ok (String (Ascii.ascii_of_nat (65 + i))
        (if fst image =? MAX_WIDTH then "w" else "n")).

Definition read_base64 (image_path : string) : result string := Ok "aGk=".

Definition encoded : list string :=
  ["Aw"; "Bn"; "Cw"; "Dn"; "Ew"; "Fn"; "Gw"; "Hn"; "Iw"; "Jn"].

End Scans.
(** * Properties *)

(** ** Dictionaries *)

Module DictFacts.

Lemma get_set_same (k : string) (v : json) (d : dict) :
  Dict.get k (Dict.set k v d) = Some v.
Proof.
  induction d as [|[k' v'] d IH]; simpl.
  - now rewrite String.eqb_refl.
  - destruct (String.eqb k k') eqn:E; simpl; rewrite E; auto.
Qed.

Lemma get_set_other (k k' : string) (v : json) (d : dict) :
  k <> k' -> Dict.get k' (Dict.set k v d) = Dict.get k' d.
Proof.
  intros Hne. induction d as [|[k0 v0] d IH]; simpl.
  - destruct (String.eqb_spec k' k); congruence.
  - destruct (String.eqb_spec k k0) as [->|Hk]; simpl.
    + destruct (String.eqb_spec k' k0); congruence.
    + now rewrite IH.
Qed.

Lemma mem_set_same (k : string) (v : json) (d : dict) :
  Dict.mem k (Dict.set k v d) = true.
Proof. unfold Dict.mem. now rewrite get_set_same. Qed.

Lemma mem_set_other (k k' : string) (v : json) (d : dict) :
  k <> k' -> Dict.mem k' (Dict.set k v d) = Dict.mem k' d.
Proof. intros H. unfold Dict.mem. now rewrite get_set_other. Qed.

Lemma get_in_keys (k : string) (d : dict) :
  Dict.get k d <> None <-> In k (Dict.keys d).
Proof.
  induction d as [|[k' v'] d IH]; simpl.
  - split; [congruence | tauto].
  - destruct (String.eqb_spec k k') as [->|Hk].
    + split; [auto | congruence].
    + rewrite IH. split; [auto | intros [H|H]; congruence].
Qed.

Lemma mem_in_keys (k : string) (d : dict) :
  Dict.mem k d = true <-> In k (Dict.keys d).
Proof.
  rewrite <- get_in_keys. unfold Dict.mem.
  destruct (Dict.get k d); split; congruence.
Qed.

Lemma mem_false_get (k : string) (d : dict) :
  Dict.mem k d = false <-> Dict.get k d = None.
Proof. unfold Dict.mem. destruct (Dict.get k d); split; congruence. Qed.

Lemma keys_set (k x : string) (v : json) (d : dict) :
  In x (Dict.keys (Dict.set k v d)) <-> x = k \/ In x (Dict.keys d).
Proof.
  rewrite <- !get_in_keys.
  destruct (String.eqb_spec k x) as [->|Hk].
  - rewrite get_set_same. split; [auto | congruence].
  - rewrite get_set_other by auto. split; [auto | intros [H|H]; congruence].
Qed.

Lemma keys_set_present (k : string) (v : json) (d : dict) :
  In k (Dict.keys d) -> Dict.keys (Dict.set k v d) = Dict.keys d.
Proof.
  induction d as [|[k' v'] d IH]; simpl; [tauto|].
  intros H. destruct (String.eqb_spec k k') as [->|Hk]; simpl; auto.
  f_equal. apply IH. destruct H; congruence.
Qed.

Lemma keys_set_absent (k : string) (v : json) (d : dict) :
  ~ In k (Dict.keys d) -> Dict.keys (Dict.set k v d) = (Dict.keys d ++ [k])%list.
Proof.
  induction d as [|[k' v'] d IH]; simpl; auto.
  intros H. destruct (String.eqb_spec k k') as [->|Hk]; simpl.
  - tauto.
  - f_equal. apply IH. tauto.
Qed.

Lemma NoDup_keys_set (k : string) (v : json) (d : dict) :
  NoDup (Dict.keys d) -> NoDup (Dict.keys (Dict.set k v d)).
Proof.
  intros Hd. destruct (in_dec string_dec k (Dict.keys d)) as [Hin|Hout].
  - now rewrite keys_set_present.
  - rewrite keys_set_absent by auto.
    apply NoDup_app; auto.
    + repeat constructor. simpl. tauto.
    + intros x Hx [<-|[]]. auto.
Qed.

End DictFacts.

(** ** The error monad and monadic folds *)

Lemma bind_Ok {A B : Type} (r : result A) (k : A -> result B) (b : B) :
  bind r k = Ok b -> exists a, r = Ok a /\ k a = Ok b.
Proof. destruct r as [a|e]; simpl; [eauto | discriminate]. Qed.

Lemma foldM_app {A S : Type} (f : S -> A -> result S) (xs ys : list A) (s : S) :
  foldM f (xs ++ ys) s = (s' <- foldM f xs s ;; foldM f ys s').
Proof.
  revert s. induction xs as [|x xs IH]; intros s; simpl; auto.
  destruct (f s x); simpl; auto.
Qed.

Lemma foldM_invariant {A S : Type} (P : S -> Prop) (f : S -> A -> result S)
    (xs : list A) :
  (forall s x s', In x xs -> P s -> f s x = Ok s' -> P s') ->
  forall s s', P s -> foldM f xs s = Ok s' -> P s'.
Proof.
  induction xs as [|x xs IH]; intros Hstep s s' Hs Hrun; simpl in Hrun.
  - now inversion Hrun; subst.
  - apply bind_Ok in Hrun as (s1 & Hf & Hrest).
    apply (IH (fun s0 y s0' Hy => Hstep s0 y s0' (or_intror Hy)) s1 s'); auto.
    apply (Hstep s x s1); simpl; auto.
Qed.

Ltac bind_inv H :=
  let a := fresh "a" in
  let Ha := fresh "Ha" in
  apply bind_Ok in H as (a & Ha & H).

(** ** Keys of the merged record *)

Lemma keys_within_adopt (ks : list string) (st : merge_state) (k : string)
    (v c : json) :
  In k ks -> keys_within ks st -> keys_within ks (adopt st k v c).
Proof.
  intros Hk [Hincl Hnd]. split; simpl.
  - intros x Hx. apply DictFacts.keys_set in Hx as [->|Hx]; auto.
  - now apply DictFacts.NoDup_keys_set.
Qed.

Lemma merge_field_keys (ks : list string) (page_data page_confidence : json)
    (st st' : merge_state) (k : string) :
  In k ks -> keys_within ks st ->
  merge_field page_data page_confidence st k = Ok st' ->
  keys_within ks st'.
Proof.
  intros Hk Hst Hrun. unfold merge_field in Hrun.
  bind_inv Hrun. destruct a as [value confidence].
  destruct (is_found value).
  - bind_inv Hrun. destruct a; inversion Hrun; subst; auto.
    now apply keys_within_adopt.
  - now inversion Hrun; subst.
Qed.

Lemma merge_page_keys (fields : dict) (st st' : merge_state) (page : json) :
  keys_within (Dict.keys fields) st ->
  merge_page fields st page = Ok st' ->
  keys_within (Dict.keys fields) st'.
Proof.
  intros Hst Hrun. unfold merge_page in Hrun.
  do 4 bind_inv Hrun.
  eapply foldM_invariant; [| |exact Hrun].
  - intros s x s' Hx Hs Hf. eapply merge_field_keys; eauto.
  - destruct (truthy _); exact Hst.
Qed.

Lemma merge_loop_keys (pages : list json) (fields : dict) (st : merge_state) :
  merge_loop pages fields = Ok st -> keys_within (Dict.keys fields) st.
Proof.
  intros Hrun. unfold merge_loop in Hrun.
  eapply foldM_invariant; [| |exact Hrun].
  - intros s x s' _ Hs Hf. eapply merge_page_keys; eauto.
  - split; simpl; [intros x [] | constructor].
Qed.

Lemma fill_missing_keys (ks : list string) (merged : dict) :
  NoDup (Dict.keys merged) ->
  NoDup (Dict.keys (fill_missing ks merged))
  /\ forall x, In x (Dict.keys (fill_missing ks merged))
               <-> In x (Dict.keys merged) \/ In x ks.
Proof.
  revert merged. induction ks as [|k ks IH]; intros merged Hnd; simpl.
  - split; auto. intros x; tauto.
  - destruct (Dict.mem k merged) eqn:Hmem.
    + destruct (IH merged Hnd) as [H1 H2]. split; auto.
      intros x. rewrite H2. apply DictFacts.mem_in_keys in Hmem.
      split; [tauto|]. intros [H|[<-|H]]; auto.
    + destruct (IH (Dict.set k JNull merged)) as [H1 H2].
      { now apply DictFacts.NoDup_keys_set. }
      split; auto. intros x. rewrite H2, DictFacts.keys_set.
      split; [intros [[->|H]|H] | intros [H|[<-|H]]]; auto.
Qed.

Lemma fill_missing_get (ks : list string) (merged : dict) (k : string) :
  Dict.get k (fill_missing ks merged)
  = match Dict.get k merged with
    | Some v => Some v
    | None => if in_dec string_dec k ks then Some JNull else None
    end.
Proof.
  revert merged. induction ks as [|k0 ks IH]; intros merged; simpl.
  - now destruct (Dict.get k merged).
  - rewrite IH. destruct (Dict.mem k0 merged) eqn:Hmem.
    + destruct (Dict.get k merged) eqn:Hget; auto.
      destruct (string_dec k0 k) as [->|Hne].
      * apply DictFacts.mem_false_get in Hget. congruence.
      * destruct (in_dec string_dec k ks); auto.
    + destruct (string_dec k0 k) as [->|Hne].
      * rewrite DictFacts.get_set_same.
        apply DictFacts.mem_false_get in Hmem. now rewrite Hmem.
      * rewrite DictFacts.get_set_other by auto.
        destruct (Dict.get k merged); auto.
        destruct (in_dec string_dec k ks); auto.
Qed.

(** ** Shape of the merged record *)

Lemma merge_page_results_inv (set_iteration : list json -> list json)
    (pages : list json) (fields : dict) (out : json) :
  merge_page_results set_iteration pages fields = Ok out ->
  exists st avg reasoning first rest first_results additional,
    merge_loop pages fields = Ok st
    /\ average_confidence (field_confidences st) = Ok avg
    /\ pages = first :: rest
    /\ py_get first "extraction_results" (JObj []) = Ok first_results
    /\ py_get first_results "additional_request_result" JNull = Ok additional
    /\ out = merged_record avg reasoning
               (fill_missing (Dict.keys fields) (merged_data st)) additional.
Proof.
  intros Hrun. unfold merge_page_results in Hrun.
  bind_inv Hrun. rename a into st.
  bind_inv Hrun. rename a into avg.
  bind_inv Hrun. rename a into combined.
  bind_inv Hrun. rename a into first.
  bind_inv Hrun. rename a into first_results.
  bind_inv Hrun. rename a into additional.
  destruct pages as [|p rest]; [discriminate|].
  inversion Ha2; subst first. inversion Hrun; subst out.
  exists st, avg. eexists. exists p, rest, first_results, additional.
  repeat split; auto.
Qed.

Lemma result_data_merged_record (avg : Z) (reasoning : string) (merged : dict)
    (additional : json) :
  result_data (merged_record avg reasoning merged additional) = Some merged.
Proof. reflexivity. Qed.

Lemma result_entry_additional (avg : Z) (reasoning : string) (merged : dict)
    (additional : json) :
  result_entry "additional_request_result"
    (merged_record avg reasoning merged additional) = Some additional.
Proof. reflexivity. Qed.

(** ** States reached on well-formed pages *)

Lemma state_ok_init : state_ok merge_init.
Proof. split; simpl; auto. Qed.

Lemma get_in_values (k : string) (d : dict) (v : json) :
  Dict.get k d = Some v -> In v (Dict.values d).
Proof.
  induction d as [|[k' v'] d IH]; simpl; [discriminate|].
  destruct (String.eqb k k'); [intros [= ->]; auto | auto].
Qed.

Lemma values_set_Forall (P : json -> Prop) (k : string) (v : json) (d : dict) :
  P v -> Forall P (Dict.values d) -> Forall P (Dict.values (Dict.set k v d)).
Proof.
  intros Hv. induction d as [|[k' v'] d IH]; simpl; intros Hd.
  - auto.
  - inversion Hd; subst. destruct (String.eqb k k'); simpl; auto.
Qed.

Lemma state_ok_adopt (st : merge_state) (k : string) (v : json) (c : Z) :
  state_ok st -> state_ok (adopt st k v (JNum c)).
Proof.
  intros [Hs Hc Hr]. split; simpl; auto.
  - intros k'. destruct (string_dec k k') as [->|Hne].
    + now rewrite !DictFacts.mem_set_same.
    + now rewrite !DictFacts.mem_set_other.
  - apply values_set_Forall; auto. now exists c.
Qed.

Lemma slot_of_adopt_same (st : merge_state) (k : string) (v : json) (c : Z) :
  slot_of (adopt st k v (JNum c)) k = Some (v, c).
Proof. unfold slot_of; simpl. now rewrite !DictFacts.get_set_same. Qed.

Lemma slot_of_adopt_other (st : merge_state) (k k' : string) (v c : json) :
  k <> k' -> slot_of (adopt st k v c) k' = slot_of st k'.
Proof.
  intros Hne. unfold slot_of; simpl.
  now rewrite !DictFacts.get_set_other.
Qed.

Lemma slot_of_absent (st : merge_state) (k : string) :
  Dict.mem k (merged_data st) = false -> slot_of st k = None.
Proof.
  intros H. apply DictFacts.mem_false_get in H. unfold slot_of. now rewrite H.
Qed.

Lemma slot_of_present (st : merge_state) (k : string) :
  state_ok st -> Dict.mem k (merged_data st) = true ->
  exists w d, Dict.get k (merged_data st) = Some w
              /\ Dict.get k (field_confidences st) = Some (JNum d)
              /\ slot_of st k = Some (w, d).
Proof.
  intros [Hs Hc _] Hmem. pose proof Hmem as Hmem'. rewrite Hs in Hmem'.
  unfold Dict.mem in Hmem, Hmem'. unfold slot_of.
  destruct (Dict.get k (merged_data st)) as [w|] eqn:Hw; [|discriminate].
  destruct (Dict.get k (field_confidences st)) as [c|] eqn:Hcf; [|discriminate].
  apply get_in_values in Hcf as Hin.
  rewrite Forall_forall in Hc. destruct (Hc c Hin) as [d ->].
  now exists w, d.
Qed.

Lemma py_gt_int (c d : Z) : py_gt (JNum c) (JNum d) = Ok (d <? c).
Proof.
  unfold py_gt; simpl. rewrite Z.ltb_compare, (Z.compare_antisym d c).
  now destruct (d ?= c).
Qed.

Lemma slot_step_idem (s c : option (json * Z)) :
  slot_step (slot_step s c) c = slot_step s c.
Proof.
  destruct c as [[v c]|], s as [[w d]|]; simpl; auto.
  - destruct (d <? c) eqn:E; simpl; [now rewrite Z.ltb_irrefl | now rewrite E].
  - now rewrite Z.ltb_irrefl.
Qed.

Lemma merge_field_slot (page_data page_confidence : json) (st : merge_state)
    (k : string) (v : json) (c : Z) :
  state_ok st ->
  field_candidate page_data page_confidence k = Ok (v, JNum c) ->
  exists st',
    merge_field page_data page_confidence st k = Ok st'
    /\ state_ok st'
    /\ all_reasonings st' = all_reasonings st
    /\ slot_of st' k
       = slot_step (slot_of st k) (found_in page_data page_confidence k)
    /\ forall k', k <> k' -> slot_of st' k' = slot_of st k'.
Proof.
  intros Hok Hcand. unfold merge_field, found_in. rewrite Hcand. simpl.
  assert (Hadopt :
    state_ok (adopt st k v (JNum c))
    /\ all_reasonings (adopt st k v (JNum c)) = all_reasonings st
    /\ slot_of (adopt st k v (JNum c)) k = Some (v, c)
    /\ forall k', k <> k' -> slot_of (adopt st k v (JNum c)) k' = slot_of st k').
  { split; [now apply state_ok_adopt|]. split; [reflexivity|].
    split; [apply slot_of_adopt_same|].
    intros k' Hne. now apply slot_of_adopt_other. }
  destruct Hadopt as (A1 & A2 & A3 & A4).
  destruct (is_found v) eqn:Hfound.
  - destruct (Dict.mem k (merged_data st)) eqn:Hmem; simpl.
    + destruct (slot_of_present st k Hok Hmem) as (w & d & Hw & Hd & Hslot).
      unfold adopted_confidence. rewrite Hd, py_gt_int, Hslot. simpl.
      destruct (d <? c).
      * exists (adopt st k v (JNum c)). auto.
      * exists st. auto.
    + rewrite (slot_of_absent st k Hmem). simpl.
      exists (adopt st k v (JNum c)). auto.
  - exists st. auto.
Qed.

Lemma merge_fields_slot (page_data page_confidence : json) (ks : list string) :
  (forall k, In k ks ->
     exists v c, field_candidate page_data page_confidence k = Ok (v, JNum c)) ->
  forall st, state_ok st ->
  exists st',
    foldM (merge_field page_data page_confidence) ks st = Ok st'
    /\ state_ok st'
    /\ all_reasonings st' = all_reasonings st
    /\ forall k,
         slot_of st' k
         = if in_dec string_dec k ks
           then slot_step (slot_of st k) (found_in page_data page_confidence k)
           else slot_of st k.
Proof.
  induction ks as [|k0 ks IH]; intros Hcand st Hok.
  - exists st. simpl. auto.
  - destruct (Hcand k0 (or_introl eq_refl)) as (v & c & Hk0).
    destruct (merge_field_slot _ _ st k0 v c Hok Hk0)
      as (st1 & Hrun1 & Hok1 & Hr1 & Hsame & Hother).
    destruct (IH (fun k Hk => Hcand k (or_intror Hk)) st1 Hok1)
      as (st' & Hrun & Hok' & Hr' & Hslots).
    exists st'. simpl foldM. rewrite Hrun1. simpl.
    split; [exact Hrun|]. split; [exact Hok'|]. split; [congruence|].
    intros k. rewrite Hslots.
    destruct (string_dec k0 k) as [->|Hne].
    + rewrite Hsame.
      destruct (in_dec string_dec k (k :: ks)) as [_|Hout];
        [|exfalso; apply Hout; simpl; auto].
      destruct (in_dec string_dec k ks); auto using slot_step_idem.
    + rewrite (Hother k Hne).
      destruct (in_dec string_dec k ks) as [Hin|Hout];
        destruct (in_dec string_dec k (k0 :: ks)) as [Hin'|Hout'];
        try reflexivity; exfalso; simpl in *; intuition congruence.
Qed.

Lemma well_formed_page_inv (fields : dict) (page : json) :
  well_formed_page fields page = true ->
  exists er dd conf r,
    py_get page "extraction_results" (JObj []) = Ok er
    /\ py_get er "data" (JObj []) = Ok (JObj dd)
    /\ py_get er "confidence_score" (JNum 0) = Ok conf
    /\ py_get er "reasoning" (JStr "") = Ok (JStr r)
    /\ (forall k, page_candidate page k = field_candidate (JObj dd) conf k)
    /\ forall k, In k (Dict.keys fields) ->
         exists v c, field_candidate (JObj dd) conf k = Ok (v, JNum c).
Proof.
  intros Hwf. unfold well_formed_page in Hwf.
  destruct (py_get page "extraction_results" (JObj [])) as [er|] eqn:Her;
    [|discriminate].
  destruct (py_get er "data" (JObj [])) as [[| | | | |dd]|] eqn:Hdata;
    try discriminate.
  destruct (py_get er "reasoning" (JStr "")) as [[| | |r| |]|] eqn:Hreason;
    try discriminate.
  assert (Hconf : exists conf, py_get er "confidence_score" (JNum 0) = Ok conf).
  { destruct er; try discriminate. simpl. eauto. }
  destruct Hconf as [conf Hconf].
  assert (Hpc : forall k,
             page_candidate page k = field_candidate (JObj dd) conf k).
  { intros k. unfold page_candidate. rewrite Her. simpl.
    rewrite Hdata. simpl. rewrite Hconf. reflexivity. }
  exists er, dd, conf, r.
  split; [reflexivity|]. split; [exact Hdata|]. split; [exact Hconf|].
  split; [exact Hreason|]. split; [exact Hpc|].
  intros k Hk. rewrite forallb_forall in Hwf. specialize (Hwf k Hk).
  rewrite Hpc in Hwf.
  destruct (field_candidate (JObj dd) conf k) as [[v [| |c| | |]]|];
    try discriminate.
  now exists v, c.
Qed.

Lemma found_candidate_found_in (page er : json) (dd : dict) (conf : json)
    (k : string) :
  page_candidate page k = field_candidate (JObj dd) conf k ->
  found_candidate page k = found_in (JObj dd) conf k.
Proof. intros H. unfold found_candidate, found_in. now rewrite H. Qed.

Lemma merge_page_slot (fields : dict) (st : merge_state) (page : json) :
  state_ok st -> well_formed_page fields page = true ->
  exists st',
    merge_page fields st page = Ok st'
    /\ state_ok st'
    /\ forall k,
         slot_of st' k
         = if in_dec string_dec k (Dict.keys fields)
           then slot_step (slot_of st k) (found_candidate page k)
           else slot_of st k.
Proof.
  intros Hok Hwf.
  destruct (well_formed_page_inv fields page Hwf)
    as (er & dd & conf & r & Her & Hdata & Hconf & Hreason & Hpc & Hcands).
  unfold merge_page. rewrite Her. simpl. rewrite Hdata. simpl.
  rewrite Hconf. simpl. rewrite Hreason. simpl.
  set (st1 := if negb (String.eqb r "")
              then {| merged_data := merged_data st;
                      field_confidences := field_confidences st;
                      all_reasonings := (all_reasonings st ++ [JStr r])%list |}
              else st).
  assert (Hok1 : state_ok st1).
  { subst st1. destruct (negb (String.eqb r "")); auto.
    destruct Hok as [Hs Hc Hr]. split; simpl; auto.
    apply Forall_app. split; auto. constructor; auto. now exists r. }
  assert (Hslot1 : forall k, slot_of st1 k = slot_of st k).
  { intros k. subst st1. now destruct (negb (String.eqb r "")). }
  destruct (merge_fields_slot (JObj dd) conf (Dict.keys fields) Hcands st1 Hok1)
    as (st' & Hrun & Hok' & _ & Hslots).
  exists st'. split; [exact Hrun|]. split; [exact Hok'|].
  intros k. rewrite Hslots, Hslot1.
  now rewrite (found_candidate_found_in page er dd conf k (Hpc k)).
Qed.

Lemma merge_pages_slot (fields : dict) (pages : list json) :
  Forall (fun p => well_formed_page fields p = true) pages ->
  forall st, state_ok st ->
  exists st',
    foldM (merge_page fields) pages st = Ok st'
    /\ state_ok st'
    /\ forall k,
         slot_of st' k
         = if in_dec string_dec k (Dict.keys fields)
           then scan pages k (slot_of st k)
           else slot_of st k.
Proof.
  induction 1 as [|p pages Hp Hps IH]; intros st Hok.
  - exists st. split; [reflexivity|]. split; [exact Hok|].
    intros k. now destruct (in_dec string_dec k (Dict.keys fields)).
  - destruct (merge_page_slot fields st p Hok Hp) as (st1 & Hrun1 & Hok1 & Hs1).
    destruct (IH st1 Hok1) as (st' & Hrun & Hok' & Hs).
    exists st'. simpl foldM. rewrite Hrun1. simpl.
    split; [exact Hrun|]. split; [exact Hok'|].
    intros k. rewrite Hs, Hs1. unfold scan. simpl.
    now destruct (in_dec string_dec k (Dict.keys fields)).
Qed.

Lemma merge_loop_slot (fields : dict) (pages : list json) :
  Forall (fun p => well_formed_page fields p = true) pages ->
  exists st,
    merge_loop pages fields = Ok st
    /\ state_ok st
    /\ forall k, In k (Dict.keys fields) -> slot_of st k = scan pages k None.
Proof.
  intros Hwf.
  destruct (merge_pages_slot fields pages Hwf merge_init state_ok_init)
    as (st & Hrun & Hok & Hs).
  exists st. split; [exact Hrun|]. split; [exact Hok|].
  intros k Hk. rewrite Hs.
  destruct (in_dec string_dec k (Dict.keys fields)); [reflexivity|contradiction].
Qed.

(** ** The scan adopts the leftmost candidate of greatest confidence *)

Lemma nth_error_snoc_inv {A : Type} (l : list A) (x y : A) (i : nat) :
  nth_error (l ++ [x]) i = Some y ->
  ((i < List.length l)%nat /\ nth_error l i = Some y)
  \/ (i = List.length l /\ y = x).
Proof.
  intros H. destruct (Nat.lt_ge_cases i (List.length l)) as [Hlt|Hge].
  - left. split; auto. now rewrite nth_error_app1 in H.
  - right. rewrite nth_error_app2 in H by auto.
    destruct (i - List.length l)%nat as [|n] eqn:E; simpl in H.
    + inversion H; subst. split; auto. lia.
    + destruct n; discriminate.
Qed.

Lemma nth_error_snoc_last {A : Type} (l : list A) (x : A) :
  nth_error (l ++ [x]) (List.length l) = Some x.
Proof. rewrite nth_error_app2 by lia. now rewrite Nat.sub_diag. Qed.

Lemma nth_error_snoc_old {A : Type} (l : list A) (x y : A) (i : nat) :
  nth_error l i = Some y -> nth_error (l ++ [x]) i = Some y.
Proof.
  intros H. rewrite nth_error_app1; auto.
  apply nth_error_Some. congruence.
Qed.

Lemma scan_snoc (pages : list json) (p : json) (k : string)
    (s : option (json * Z)) :
  scan (pages ++ [p]) k s = slot_step (scan pages k s) (found_candidate p k).
Proof. unfold scan. now rewrite fold_left_app. Qed.

Lemma scan_spec (pages : list json) (k : string) :
  match scan pages k None with
  | Some (w, d) => exists j, leftmost_best pages k w d j
  | None =>
      forall i p, nth_error pages i = Some p -> found_candidate p k = None
  end.
Proof.
  induction pages as [|p pages IH] using rev_ind.
  - simpl. intros [|i] p H; discriminate.
  - rewrite scan_snoc.
    destruct (scan pages k None) as [[w d]|] eqn:Hscan;
      destruct (found_candidate p k) as [[v c]|] eqn:Hcand; simpl.
    + destruct IH as (j & (pj & Hj & Hpj) & Hbest).
      assert (Hjlt : (j < List.length pages)%nat).
      { apply nth_error_Some. congruence. }
      destruct (d <? c) eqn:Hlt.
      * apply Z.ltb_lt in Hlt. exists (List.length pages). split.
        -- exists p. split; [apply nth_error_snoc_last | exact Hcand].
        -- intros i q v' c' Hi Hq.
           apply nth_error_snoc_inv in Hi as [[Hi Hnth]|[-> ->]].
           ++ destruct (Hbest i q v' c' Hnth Hq). lia.
           ++ rewrite Hcand in Hq. inversion Hq; subst. lia.
      * apply Z.ltb_ge in Hlt. exists j. split.
        -- exists pj. split; [now apply nth_error_snoc_old | exact Hpj].
        -- intros i q v' c' Hi Hq.
           apply nth_error_snoc_inv in Hi as [[Hi Hnth]|[-> ->]].
           ++ exact (Hbest i q v' c' Hnth Hq).
           ++ rewrite Hcand in Hq. inversion Hq; subst. lia.
    + destruct IH as (j & (pj & Hj & Hpj) & Hbest).
      exists j. split.
      * exists pj. split; [now apply nth_error_snoc_old | exact Hpj].
      * intros i q v' c' Hi Hq.
        apply nth_error_snoc_inv in Hi as [[Hi Hnth]|[-> ->]].
        -- exact (Hbest i q v' c' Hnth Hq).
        -- congruence.
    + exists (List.length pages). split.
      * exists p. split; [apply nth_error_snoc_last | exact Hcand].
      * intros i q v' c' Hi Hq.
        apply nth_error_snoc_inv in Hi as [[Hi Hnth]|[-> ->]].
        -- rewrite (IH i q Hnth) in Hq. discriminate.
        -- rewrite Hcand in Hq. inversion Hq; subst. lia.
    + intros i q Hi.
      apply nth_error_snoc_inv in Hi as [[Hi Hnth]|[-> ->]]; eauto.
Qed.

(** ** The merger returns on well-formed pages *)

Lemma py_sum_from_ints (vs : list json) (acc : Z) :
  Forall is_int vs -> exists total, py_sum_from acc vs = Ok total.
Proof.
  intros H. revert acc. induction H as [|v vs [z ->] _ IH]; intros acc; simpl.
  - eauto.
  - apply IH.
Qed.

Lemma average_confidence_ints (confidences : dict) :
  Forall is_int (Dict.values confidences) ->
  exists avg, average_confidence confidences = Ok avg.
Proof.
  intros H. destruct confidences as [|kv rest]; [simpl; eauto|].
  destruct (py_sum_from_ints _ 0 H) as [total Ht].
  unfold average_confidence, py_sum. rewrite Ht. simpl. eauto.
Qed.

Lemma join_items_strings (items : list json) (index : nat) :
  Forall is_string items -> exists ss, join_items index items = Ok ss.
Proof.
  intros H. revert index.
  induction H as [|v vs [s ->] _ IH]; intros index; simpl.
  - eauto.
  - destruct (IH (S index)) as [ss Hss]. rewrite Hss. simpl. eauto.
Qed.

Lemma find_unhashable_strings (items : list json) :
  Forall is_string items -> find (fun v => negb (hashable v)) items = None.
Proof.
  induction 1 as [|v vs [s ->] _ IH]; simpl; auto.
Qed.

Section MergerReturns.

Variable set_iteration : list json -> list json.
Hypothesis set_iteration_members :
  forall xs x, In x (set_iteration xs) -> In x xs.

Lemma combine_reasonings_strings (reasonings : list json) :
  Forall is_string reasonings ->
  exists text, combine_reasonings set_iteration reasonings = Ok text.
Proof.
  intros H. unfold combine_reasonings.
  destruct reasonings as [|r rest]; [eauto|].
  rewrite find_unhashable_strings by exact H.
  destruct (join_items_strings (set_iteration (r :: rest)) 0) as [ss Hss].
  - rewrite Forall_forall in *. intros x Hx.
    apply H. now apply set_iteration_members.
  - rewrite Hss. simpl. eauto.
Qed.

Lemma merge_page_results_returns (first : json) (rest : list json)
    (fields : dict) :
  Forall (fun p => well_formed_page fields p = true) (first :: rest) ->
  exists out, merge_page_results set_iteration (first :: rest) fields = Ok out.
Proof.
  intros Hwf.
  destruct (merge_loop_slot fields (first :: rest) Hwf)
    as (st & Hrun & [Hs Hc Hr] & _).
  destruct (average_confidence_ints _ Hc) as [avg Havg].
  destruct (combine_reasonings_strings _ Hr) as [text Htext].
  inversion Hwf as [|? ? Hfirst _]; subst.
  destruct (well_formed_page_inv fields first Hfirst)
    as (er & dd & conf & r & Her & Hdata & _).
  unfold merge_page_results. rewrite Hrun. simpl.
  rewrite Havg. simpl. rewrite Htext. simpl. rewrite Her. simpl.
  destruct er; try discriminate. simpl. eauto.
Qed.

End MergerReturns.

Lemma ref_set_iteration_members (xs : list json) (x : json) :
  In x (RefCodec.set_iteration xs) -> In x xs.
Proof.
  induction xs as [|y xs IH]; simpl; [tauto|].
  intros [->|H]; auto. apply filter_In in H as [H _]. auto.
Qed.

Lemma found_candidate_Some (p : json) (k : string) (v : json) (c : Z) :
  found_candidate p k = Some (v, c)
  <-> page_candidate p k = Ok (v, JNum c) /\ is_found v = true.
Proof.
  unfold found_candidate.
  destruct (page_candidate p k) as [[v' [| |c'| | |]]|];
    try (split; [discriminate | intros [H _]; discriminate]).
  destruct (is_found v') eqn:Hf.
  - split; [intros [= -> ->]; auto | intros [[= -> ->] _]; auto].
  - split; [discriminate | intros [[= -> ->] H]; congruence].
Qed.

Lemma slot_of_None (st : merge_state) (k : string) :
  state_ok st -> slot_of st k = None -> Dict.get k (merged_data st) = None.
Proof.
  intros Hok Hslot. apply DictFacts.mem_false_get.
  destruct (Dict.mem k (merged_data st)) eqn:Hmem; auto.
  destruct (slot_of_present st k Hok Hmem) as (w & d & _ & _ & H). congruence.
Qed.

Lemma slot_of_Some (st : merge_state) (k : string) (w : json) (d : Z) :
  slot_of st k = Some (w, d) ->
  Dict.get k (merged_data st) = Some w
  /\ Dict.get k (field_confidences st) = Some (JNum d).
Proof.
  unfold slot_of.
  destruct (Dict.get k (merged_data st)); [|discriminate].
  destruct (Dict.get k (field_confidences st)) as [[| |z| | |]|];
    try discriminate.
  now intros [= -> ->].
Qed.

Lemma result_field_merged (set_iteration : list json -> list json)
    (pages : list json) (fields : dict) (out : json) (st : merge_state)
    (k : string) :
  merge_page_results set_iteration pages fields = Ok out ->
  merge_loop pages fields = Ok st ->
  In k (Dict.keys fields) ->
  result_field k out
  = Some (match Dict.get k (merged_data st) with
          | Some w => w
          | None => JNull
          end).
Proof.
  intros Hout Hst Hk.
  apply merge_page_results_inv in Hout
    as (st' & avg & reasoning & first & rest & fr & add
        & Hst' & _ & _ & _ & _ & ->).
  assert (st' = st) by congruence. subst st'.
  unfold result_field. rewrite result_data_merged_record, fill_missing_get.
  destruct (Dict.get k (merged_data st)); auto.
  destruct (in_dec string_dec k (Dict.keys fields)); [reflexivity|contradiction].
Qed.

(** * The claims *)

(** C1.  For every schema and every sequence of page extractions, the
    data mapping of the merged output has exactly the keys of the schema,
    each once: every field of the schema appears, with a value or with
    null, and no other key appears.  This holds whenever the merger returns
    a record, and it returns one for every non-empty sequence of
    well-formed page extractions. *)
Theorem merged_data_keys_are_schema_keys
    (set_iteration : list json -> list json) (pages : list json)
    (fields : dict) :
  (forall out,
      merge_page_results set_iteration pages fields = Ok out ->
      exists data,
        result_data out = Some data
        /\ NoDup (Dict.keys data)
        /\ forall k, In k (Dict.keys data) <-> In k (Dict.keys fields))
  /\ ((forall xs x, In x (set_iteration xs) -> In x xs) ->
      pages <> [] ->
      Forall (fun p => well_formed_page fields p = true) pages ->
      exists out, merge_page_results set_iteration pages fields = Ok out).
Proof.
  split.
  - intros out Hout.
    apply merge_page_results_inv in Hout
      as (st & avg & reasoning & first & rest & fr & add
          & Hst & _ & _ & _ & _ & ->).
    destruct (merge_loop_keys _ _ _ Hst) as [Hincl Hnd].
    destruct (fill_missing_keys (Dict.keys fields) _ Hnd) as [Hnd' Hkeys].
    eexists. split; [apply result_data_merged_record|]. split; [exact Hnd'|].
    intros k. rewrite Hkeys. split; [intros [H|H]; auto | auto].
  - intros Hset Hne Hwf. destruct pages as [|first rest]; [congruence|].
    now apply merge_page_results_returns.
Qed.

Lemma merged_data_keys_are_schema_keys_witness :
  exists out data,
    merge_page_results RefCodec.set_iteration Samples.three_pages
      Samples.invoice_schema = Ok out
    /\ result_data out = Some data
    /\ forall k, In k (Dict.keys data)
                 <-> In k (Dict.keys Samples.invoice_schema).
Proof.
  destruct (merged_data_keys_are_schema_keys RefCodec.set_iteration
              Samples.three_pages Samples.invoice_schema) as [Hkeys Hret].
  destruct Hret as [out Hout].
  - exact ref_set_iteration_members.
  - discriminate.
  - repeat constructor.
  - destruct (Hkeys out Hout) as (data & Hdata & _ & Hiff).
    exists out, data. auto.
Defined.

(** C2.  For every field of the schema, the value the merger adopts comes
    from a page whose confidence for the field is greater than or equal to
    the confidence of every non-empty candidate for the field on any page,
    and among candidates of that same confidence it comes from the earliest
    page; the merged output carries that value.  A field with no non-empty
    candidate is left unadopted. *)
Theorem merge_adopts_earliest_greatest_confidence
    (pages : list json) (fields : dict) (k : string) :
  Forall (fun p => well_formed_page fields p = true) pages ->
  In k (Dict.keys fields) ->
  exists st,
    merge_loop pages fields = Ok st
    /\ (forall set_iteration out,
          merge_page_results set_iteration pages fields = Ok out ->
          result_field k out
          = Some (match Dict.get k (merged_data st) with
                  | Some w => w
                  | None => JNull
                  end))
    /\ match Dict.get k (merged_data st) with
       | Some w =>
           exists d j pj,
             Dict.get k (field_confidences st) = Some (JNum d)
             /\ nth_error pages j = Some pj
             /\ page_candidate pj k = Ok (w, JNum d)
             /\ is_found w = true
             /\ forall i p v c,
                  nth_error pages i = Some p ->
                  page_candidate p k = Ok (v, JNum c) ->
                  is_found v = true ->
                  c <= d /\ (c = d -> (j <= i)%nat)
       | None =>
           forall i p v c,
             nth_error pages i = Some p ->
             page_candidate p k = Ok (v, c) ->
             is_found v = false
       end.
Proof.
  intros Hwf Hk.
  destruct (merge_loop_slot fields pages Hwf) as (st & Hrun & Hok & Hslots).
  exists st. split; [exact Hrun|]. split.
  { intros set_iteration out Hout. eapply result_field_merged; eauto. }
  specialize (Hslots k Hk). pose proof (scan_spec pages k) as Hscan.
  rewrite <- Hslots in Hscan.
  destruct (slot_of st k) as [[w d]|] eqn:Hslot.
  - apply slot_of_Some in Hslot as [Hw Hd]. rewrite Hw.
    destruct Hscan as (j & (pj & Hj & Hpj) & Hbest).
    apply found_candidate_Some in Hpj as [Hpj Hfound].
    exists d, j, pj. repeat (split; [assumption|]).
    intros i p v c Hi Hp Hv. apply (Hbest i p v c Hi).
    now apply found_candidate_Some.
  - rewrite (slot_of_None st k Hok Hslot).
    intros i p v c Hi Hp.
    specialize (Hscan i p Hi).
    rewrite Forall_forall in Hwf.
    pose proof (Hwf p (nth_error_In _ _ Hi)) as Hwfp.
    destruct (well_formed_page_inv fields p Hwfp)
      as (er & dd & conf & r & _ & _ & _ & _ & Hpc & Hcands).
    destruct (Hcands k Hk) as (v' & c' & Hvc). rewrite <- Hpc in Hvc.
    rewrite Hp in Hvc. inversion Hvc; subst.
    unfold found_candidate in Hscan. rewrite Hp in Hscan.
    now destruct (is_found v').
Qed.

Lemma merge_adopts_earliest_greatest_confidence_witness :
  exists st,
    merge_loop Samples.three_pages Samples.invoice_schema = Ok st
    /\ Dict.get "invoice_id" (merged_data st) = Some (JStr "INV-1")
    /\ Dict.get "invoice_id" (field_confidences st) = Some (JNum 90).
Proof.
  destruct (merge_adopts_earliest_greatest_confidence Samples.three_pages
              Samples.invoice_schema "invoice_id")
    as (st & Hrun & _ & _).
  - repeat constructor.
  - simpl. auto.
  - exists st. split; [exact Hrun|].
    vm_compute in Hrun. inversion Hrun; subst st. split; reflexivity.
Defined.

(** C3.  The merger tests the word null with case, unlike none and not
    found: on two pages reading [NULL] with confidence 90 and then [INV-1]
    with confidence 50, the value [NULL] passes [is_found], is adopted and
    stays in the merged output although a non-empty candidate exists. *)
Theorem upper_case_null_is_adopted (set_iteration : list json -> list json) :
  is_found (JStr "NULL") = true
  /\ is_found (JStr "NONE") = false
  /\ is_found (JStr "Not Found") = false
  /\ found_candidate
       (nth 1 Samples.pages_with_upper_null JNull) "invoice_id"
     = Some (JStr "INV-1", 50)
  /\ exists out,
       merge_page_results set_iteration Samples.pages_with_upper_null
         [("invoice_id", JStr "Invoice number")] = Ok out
       /\ result_field "invoice_id" out = Some (JStr "NULL").
Proof.
  repeat split; try reflexivity.
  eexists. split; reflexivity.
Qed.

(** C9, as the code has it.  Merging exactly one well-formed page gives,
    for every field of the schema whose value on the page passes
    [is_found], that value and that confidence; every other field is null
    in the merged output and has no confidence recorded. *)
Theorem single_page_merge_keeps_found_fields
    (set_iteration : list json -> list json) (page : json) (fields : dict)
    (k : string) (v c : json) :
  (forall xs x, In x (set_iteration xs) -> In x xs) ->
  well_formed_page fields page = true ->
  In k (Dict.keys fields) ->
  page_candidate page k = Ok (v, c) ->
  exists out st,
    merge_page_results set_iteration [page] fields = Ok out
    /\ merge_loop [page] fields = Ok st
    /\ if is_found v
       then result_field k out = Some v
            /\ Dict.get k (field_confidences st) = Some c
       else result_field k out = Some JNull
            /\ Dict.get k (field_confidences st) = None.
Proof.
  intros Hset Hwf Hk Hcand.
  assert (Hwfs : Forall (fun p => well_formed_page fields p = true) [page])
    by (constructor; auto).
  destruct (merge_page_results_returns set_iteration Hset page [] fields Hwfs)
    as [out Hout].
  destruct (merge_loop_slot fields [page] Hwfs) as (st & Hrun & Hok & Hslots).
  exists out, st. split; [exact Hout|]. split; [exact Hrun|].
  rewrite (result_field_merged _ _ _ _ _ _ Hout Hrun Hk).
  specialize (Hslots k Hk). unfold scan in Hslots. simpl in Hslots.
  destruct (well_formed_page_inv fields page Hwf)
    as (er & dd & conf & r & _ & _ & _ & _ & Hpc & Hcands).
  destruct (Hcands k Hk) as (v' & c' & Hvc). rewrite <- Hpc, Hcand in Hvc.
  inversion Hvc; subst v' c.
  unfold found_candidate in Hslots. rewrite Hcand in Hslots.
  destruct (is_found v).
  - simpl in Hslots. apply slot_of_Some in Hslots as [Hw Hd].
    now rewrite Hw.
  - simpl in Hslots. pose proof (slot_of_None st k Hok Hslots) as Hnone.
    rewrite Hnone. split; [reflexivity|].
    apply DictFacts.mem_false_get. rewrite <- (ok_synced st Hok).
    now apply DictFacts.mem_false_get.
Qed.

Lemma single_page_merge_keeps_found_fields_witness :
  exists out st,
    merge_page_results RefCodec.set_iteration [Samples.page_with_none]
      Samples.invoice_schema = Ok out
    /\ merge_loop [Samples.page_with_none] Samples.invoice_schema = Ok st
    /\ result_field "invoice_id" out = Some (JStr "INV-1")
    /\ Dict.get "invoice_id" (field_confidences st) = Some (JNum 90).
Proof.
  destruct (single_page_merge_keeps_found_fields RefCodec.set_iteration
              Samples.page_with_none Samples.invoice_schema "invoice_id"
              (JStr "INV-1") (JNum 90))
    as (out & st & Hout & Hrun & Hfield).
  - exact ref_set_iteration_members.
  - reflexivity.
  - simpl. auto.
  - reflexivity.
  - exists out, st. simpl in Hfield. tauto.
Defined.

(** C9, as stated, fails: a single page whose total is the word none with
    confidence 80 merges to a null total with no confidence recorded. *)
Lemma single_page_merge_is_not_identity :
  page_candidate Samples.page_with_none "total" = Ok (JStr "none", JNum 80)
  /\ exists out st,
       merge_page_results RefCodec.set_iteration [Samples.page_with_none]
         Samples.invoice_schema = Ok out
       /\ merge_loop [Samples.page_with_none] Samples.invoice_schema = Ok st
       /\ result_field "total" out = Some JNull
       /\ result_field "total" out <> Some (JStr "none")
       /\ Dict.get "total" (field_confidences st) <> Some (JNum 80).
Proof.
  split; [reflexivity|].
  eexists. eexists. split; [reflexivity|]. split; [reflexivity|].
  split; [reflexivity|]. split; discriminate.
Qed.

(** C10.  For every non-empty sequence of page extractions, the
    additional_request_result of the merged output is the one of the first
    page of the sequence (null if that page has none), whatever the later
    pages hold; and the merger returns on well-formed pages. *)
Theorem additional_result_comes_from_first_page
    (set_iteration : list json -> list json) (first : json)
    (rest : list json) (fields : dict) :
  (forall out,
      merge_page_results set_iteration (first :: rest) fields = Ok out ->
      exists first_results additional,
        py_get first "extraction_results" (JObj []) = Ok first_results
        /\ py_get first_results "additional_request_result" JNull
           = Ok additional
        /\ result_entry "additional_request_result" out = Some additional)
  /\ ((forall xs x, In x (set_iteration xs) -> In x xs) ->
      Forall (fun p => well_formed_page fields p = true) (first :: rest) ->
      exists out,
        merge_page_results set_iteration (first :: rest) fields = Ok out).
Proof.
  split.
  - intros out Hout.
    apply merge_page_results_inv in Hout
      as (st & avg & reasoning & first' & rest' & fr & add
          & _ & _ & Hpages & Hfr & Hadd & ->).
    inversion Hpages; subst first' rest'.
    exists fr, add. repeat split; auto.
  - intros Hset Hwf. now apply merge_page_results_returns.
Qed.

Lemma additional_result_comes_from_first_page_witness :
  exists out,
    merge_page_results RefCodec.set_iteration Samples.three_pages
      Samples.invoice_schema = Ok out
    /\ result_entry "additional_request_result" out
       = Some (JStr "first answer").
Proof.
  destruct (additional_result_comes_from_first_page RefCodec.set_iteration
              (nth 0 Samples.three_pages JNull) (tl Samples.three_pages)
              Samples.invoice_schema) as [Hfirst Hret].
  destruct Hret as [out Hout].
  - exact ref_set_iteration_members.
  - repeat constructor.
  - destruct (Hfirst out Hout) as (fr & add & Hfr & Hadd & Hentry).
    exists out. split; [exact Hout|].
    vm_compute in Hfr. inversion Hfr; subst fr.
    vm_compute in Hadd. inversion Hadd; subst add. exact Hentry.
Defined.

(** ** Normalising a decoded response *)

Lemma py_lt_number (x : json) (n : Z) (b : bool) :
  py_lt x (JNum n) = Ok b -> exists z, as_number x = Some z.
Proof.
  unfold py_lt. destruct x as [|[|]|z|s|xs|kvs]; simpl; try discriminate; eauto.
Qed.

Lemma resolve_field_numbers (data : json) (acc acc' : dict * list json)
    (k : string) :
  Forall is_number (snd acc) ->
  resolve_field data acc k = Ok acc' ->
  Forall is_number (snd acc').
Proof.
  destruct acc as [processed confs]. simpl. intros Hacc Hrun.
  bind_inv Hrun. destruct (has_value_key a).
  - do 3 bind_inv Hrun. inversion Hrun; subst; simpl.
    apply Forall_app. split; auto. constructor; auto.
    eapply py_lt_number; eauto.
  - inversion Hrun; subst; simpl.
    apply Forall_app. split; auto. constructor; auto. now exists 50.
Qed.

Lemma resolve_fields_numbers (data : json) (fields : dict) (processed : dict)
    (confs : list json) :
  resolve_fields data fields = Ok (processed, confs) ->
  Forall is_number confs.
Proof.
  intros Hrun. unfold resolve_fields in Hrun.
  refine (foldM_invariant (fun acc => Forall is_number (snd acc))
            (resolve_field data) (Dict.keys fields) _
            ([], []) (processed, confs) _ Hrun).
  - intros s x s' _ Hs Hf. eapply resolve_field_numbers; eauto.
  - simpl. constructor.
Qed.

Lemma py_sum_from_numbers (vs : list json) (acc : Z) :
  Forall is_number vs -> exists total, py_sum_from acc vs = Ok total.
Proof.
  intros H. revert acc. induction H as [|v vs [z Hz] _ IH]; intros acc; simpl.
  - eauto.
  - rewrite Hz. apply IH.
Qed.

Lemma mean_confidence_numbers (confs : list json) :
  Forall is_number confs -> exists mean, mean_confidence confs = Ok mean.
Proof.
  intros H. destruct confs as [|c rest]; [simpl; eauto|].
  destruct (py_sum_from_numbers _ 0 H) as [total Ht].
  unfold mean_confidence, py_sum. rewrite Ht. simpl. eauto.
Qed.

Lemma normalise_result_envelope (d er : dict) (fields : dict) :
  Dict.get "extraction_results" d = Some (JObj er) ->
  normalise_result (JObj d) fields
  = (resolved <- resolve_fields (data_of er) fields ;;
     mean <- mean_confidence (snd resolved) ;;
     Ok (normalised d er (fst resolved) mean)).
Proof.
  intros Her.
  assert (Hpresent : Dict.mem "extraction_results" d = true)
    by (unfold Dict.mem; now rewrite Her).
  unfold normalise_result. cbn [py_in bind]. rewrite Hpresent.
  cbn [py_get bind]. rewrite Her. cbn [py_get bind]. fold (data_of er).
  destruct (resolve_fields (data_of er) fields) as [[processed confs]|e];
    [|reflexivity].
  cbn [bind fst snd].
  destruct (mean_confidence confs) as [mean|e]; [|reflexivity].
  cbn [bind py_in py_setitem py_get].
  unfold normalised, aggregate_confidence.
  destruct (Dict.mem "overall_confidence" er) eqn:Hmem;
    cbn [bind py_in py_setitem py_get].
  - unfold Dict.mem in Hmem.
    destruct (Dict.get "overall_confidence" er); [reflexivity|discriminate].
  - rewrite DictFacts.get_set_same.
    apply DictFacts.mem_false_get in Hmem. now rewrite Hmem.
Qed.

Lemma normalised_entries (d er processed : dict) (mean : Z) :
  result_entry "confidence_score" (normalised d er processed mean)
  = Some (aggregate_confidence er mean)
  /\ result_data (normalised d er processed mean) = Some processed.
Proof.
  unfold result_data, result_entry, extraction_results_of, normalised.
  rewrite !DictFacts.get_set_same.
  rewrite DictFacts.get_set_other by discriminate.
  now rewrite DictFacts.get_set_same.
Qed.

Lemma py_sum_from_scores (confs : list json) :
  forall (scores : list Z) (acc : Z),
    map as_number confs = map Some scores ->
    py_sum_from acc confs = Ok (acc + fold_right Z.add 0 scores).
Proof.
  induction confs as [|c rest IH]; intros [|z zs] acc H; simpl in H;
    try discriminate.
  - simpl. f_equal. lia.
  - inversion H as [[Hc Hrest]]. simpl. rewrite Hc.
    rewrite (IH zs _ Hrest). f_equal. lia.
Qed.

Lemma sum_of_percentages (scores : list Z) :
  Forall (fun c => 0 <= c <= 100) scores ->
  0 <= fold_right Z.add 0 scores <= 100 * Z.of_nat (List.length scores).
Proof.
  induction 1 as [|c rest Hc _ IH]; [simpl; lia|].
  cbn [fold_right]. rewrite length_cons, Nat2Z.inj_succ. lia.
Qed.

(** C4, as the code has it.  For a response in the documented envelope
    whose fields resolve to confidences between 0 and 100, the normalised
    result carries as aggregate confidence the overall confidence the
    response reported, whenever it reported one; only without it is the
    aggregate derived: the sum of the resolved field confidences divided by
    their number and truncated to an integer (0 without fields), which is
    again between 0 and 100. *)
Theorem aggregate_confidence_is_reported_else_mean
    (d er fields processed : dict) (confs : list json) (scores : list Z) :
  Dict.get "extraction_results" d = Some (JObj er) ->
  resolve_fields (data_of er) fields = Ok (processed, confs) ->
  map as_number confs = map Some scores ->
  Forall (fun c => 0 <= c <= 100) scores ->
  exists mean out,
    mean = match scores with
           | [] => 0
           | _ :: _ => Z.quot (fold_right Z.add 0 scores)
                              (Z.of_nat (List.length scores))
           end
    /\ 0 <= mean <= 100
    /\ normalise_result (JObj d) fields = Ok out
    /\ result_entry "confidence_score" out
       = Some (match Dict.get "overall_confidence" er with
               | Some reported => reported
               | None => JNum mean
               end)
    /\ result_data out = Some processed.
Proof.
  intros Her Hres Hnum Hrange.
  pose proof (sum_of_percentages scores Hrange) as Hsum.
  assert (Hlen : List.length confs = List.length scores).
  { apply (f_equal (@List.length _)) in Hnum. now rewrite !length_map in Hnum. }
  eexists. eexists (normalised d er processed _).
  split; [reflexivity|].
  assert (Hmean : mean_confidence confs
                  = Ok match scores with
                       | [] => 0
                       | _ :: _ => Z.quot (fold_right Z.add 0 scores)
                                          (Z.of_nat (List.length scores))
                       end).
  { destruct confs as [|c rest], scores as [|z zs]; try discriminate;
      [reflexivity|].
    unfold mean_confidence, py_sum.
    rewrite (py_sum_from_scores (c :: rest) (z :: zs) 0 Hnum).
    cbn [bind]. unfold int_mean. now rewrite Hlen, Z.add_0_l. }
  split.
  - destruct scores as [|z zs]; [lia|].
    remember (fold_right Z.add 0 (z :: zs)) as total.
    remember (Z.of_nat (List.length (z :: zs))) as n.
    assert (0 < n) by (subst n; rewrite length_cons; lia).
    rewrite Z.quot_div_nonneg by lia. split.
    + apply Z.div_pos; lia.
    + apply Z.div_le_upper_bound; lia.
  - rewrite (normalise_result_envelope d er fields Her), Hres. simpl.
    rewrite Hmean. simpl. split; [reflexivity|].
    apply normalised_entries.
Qed.

Lemma aggregate_confidence_is_reported_else_mean_witness :
  exists out,
    normalise_result (JObj Responses.unreported_response)
      Samples.dated_schema = Ok out
    /\ result_entry "confidence_score" out = Some (JNum 60).
Proof.
  destruct (aggregate_confidence_is_reported_else_mean
              Responses.unreported_response Responses.unreported_results
              Samples.dated_schema
              [("invoice_id", JStr "INV-1"); ("total", JStr "12.50");
               ("date", JStr "2024-05-01")]
              [JNum 90; JNum 60; JNum 31] [90; 60; 31])
    as (mean & out & Hmean & _ & Hout & Hscore & _).
  - reflexivity.
  - reflexivity.
  - reflexivity.
  - repeat constructor; lia.
  - exists out. split; [exact Hout|].
    vm_compute in Hmean. subst mean. exact Hscore.
Defined.

(** C4, as stated, fails: the response reports an overall confidence of 99,
    its fields resolve to confidences 10, 30 and 21, of sum 61 and of
    truncated mean 20, and the normalised result carries 99. *)
Lemma aggregate_confidence_follows_the_response :
  resolve_fields (data_of Responses.overruled_results) Samples.dated_schema
  = Ok ([("invoice_id", JStr "INV-1"); ("total", JStr "12.50");
         ("date", JStr "2024-05-01")],
        [JNum 10; JNum 30; JNum 21])
  /\ mean_confidence [JNum 10; JNum 30; JNum 21] = Ok 20
  /\ Z.quot (10 + 30 + 21) 3 = 20
  /\ exists out,
       normalise_result (JObj Responses.overruled_response)
         Samples.dated_schema = Ok out
       /\ result_entry "confidence_score" out = Some (JNum 99)
       /\ result_entry "confidence_score" out <> Some (JNum 20).
Proof.
  split; [reflexivity|]. split; [reflexivity|]. split; [reflexivity|].
  eexists. split; [reflexivity|]. split; [reflexivity|discriminate].
Qed.

(** ** Fields the response omits *)

Lemma resolve_field_omitted (data : dict) (p0 p1 : dict) (c0 c1 : list json)
    (k : string) :
  resolve_field (JObj data) (p0, c0) k = Ok (p1, c1) ->
  exists val x,
    p1 = Dict.set k val p0 /\ c1 = (c0 ++ [x])%list
    /\ (Dict.get k data = None -> val = JNull /\ x = JNum 50).
Proof.
  unfold resolve_field. cbn [py_get bind]. intros Hrun.
  destruct (Dict.get k data) as [fd|] eqn:Hget.
  - destruct (has_value_key fd).
    + do 3 bind_inv Hrun. inversion Hrun; subst.
      eexists. eexists. repeat split; discriminate.
    + inversion Hrun; subst.
      eexists. eexists. repeat split; discriminate.
  - cbn in Hrun. inversion Hrun; subst. exists JNull, (JNum 50). auto.
Qed.

Lemma resolve_fields_omitted (data : dict) (ks : list string) :
  forall (p0 : dict) (c0 : list json) (p : dict) (c : list json),
    foldM (resolve_field (JObj data)) ks (p0, c0) = Ok (p, c) ->
    (exists cs,
        c = (c0 ++ cs)%list
        /\ forall i k, nth_error ks i = Some k -> Dict.get k data = None ->
                       nth_error cs i = Some (JNum 50))
    /\ forall k, Dict.get k data = None ->
                 In k ks \/ Dict.get k p0 = Some JNull ->
                 Dict.get k p = Some JNull.
Proof.
  induction ks as [|k0 ks IH]; intros p0 c0 p c Hrun; simpl in Hrun.
  - inversion Hrun; subst. split.
    + exists []. split; [now rewrite app_nil_r|]. intros [|i] k H; discriminate.
    + intros k _ [[]|H]; exact H.
  - bind_inv Hrun. destruct a as [p1 c1].
    apply resolve_field_omitted in Ha as (val & x & -> & -> & Hom).
    destruct (IH _ _ _ _ Hrun) as [(cs & -> & Hcs) Hp]. split.
    + exists (x :: cs). split; [now rewrite <- app_assoc|].
      intros [|i] k Hi Hk; simpl in *.
      * inversion Hi; subst. now destruct (Hom Hk) as [_ ->].
      * eauto.
    + intros k Hk Hin. apply Hp; auto.
      destruct (string_dec k0 k) as [->|Hne].
      * right. rewrite DictFacts.get_set_same. now destruct (Hom Hk) as [-> _].
      * rewrite DictFacts.get_set_other by auto.
        destruct Hin as [[E|Hin]|Hin]; auto. contradiction.
Qed.

(** C5, as the code has it.  A schema field the response omits entirely is
    still represented in the parser's output, with value null; the
    confidence it resolves to, at the field's position among the resolved
    confidences, is the default 50 of a bare value. *)
Theorem omitted_field_is_null_with_default_confidence
    (d er data fields : dict) (out : json) (k : string) :
  Dict.get "extraction_results" d = Some (JObj er) ->
  data_of er = JObj data ->
  normalise_result (JObj d) fields = Ok out ->
  In k (Dict.keys fields) ->
  Dict.get k data = None ->
  result_field k out = Some JNull
  /\ exists processed confs,
       resolve_fields (JObj data) fields = Ok (processed, confs)
       /\ forall i, nth_error (Dict.keys fields) i = Some k ->
                    nth_error confs i = Some (JNum 50).
Proof.
  intros Her Hdata Hout Hk Hom.
  rewrite (normalise_result_envelope d er fields Her), Hdata in Hout.
  bind_inv Hout. destruct a as [processed confs]. bind_inv Hout.
  cbn [fst snd] in *. inversion Hout; subst out.
  pose proof Ha as Hres. unfold resolve_fields in Ha.
  apply resolve_fields_omitted in Ha as [(cs & Hcs & Hnth) Hp].
  simpl in Hcs. subst cs. split.
  - unfold result_field.
    rewrite (proj2 (normalised_entries _ _ _ _)). auto.
  - exists processed, confs. split; [exact Hres|].
    intros i Hi. eauto.
Qed.

Lemma omitted_field_is_null_with_default_confidence_witness :
  exists out,
    normalise_result (JObj Responses.partial_response) Samples.invoice_schema
    = Ok out
    /\ result_field "total" out = Some JNull.
Proof.
  eexists. split; [reflexivity|].
  refine (proj1 (omitted_field_is_null_with_default_confidence
                   Responses.partial_response Responses.partial_results
                   Responses.partial_data Samples.invoice_schema _ "total"
                   _ _ _ _ _)).
  - reflexivity.
  - reflexivity.
  - reflexivity.
  - simpl. auto.
  - reflexivity.
Defined.

(** C5, as stated, fails: for a response that omits the total, the
    confidence resolved for the total is 50, not 0, and it enters the
    aggregate confidence, the mean of 90 and 50. *)
Lemma omitted_field_confidence_is_not_zero :
  Dict.get "total" Responses.partial_data = None
  /\ resolve_fields (JObj Responses.partial_data) Samples.invoice_schema
     = Ok ([("invoice_id", JStr "INV-1"); ("total", JNull)],
           [JNum 90; JNum 50])
  /\ nth_error [JNum 90; JNum 50] 1 <> Some (JNum 0)
  /\ exists out,
       normalise_result (JObj Responses.partial_response)
         Samples.invoice_schema = Ok out
       /\ result_entry "confidence_score" out = Some (JNum 70).
Proof.
  split; [reflexivity|]. split; [reflexivity|]. split; [discriminate|].
  eexists. split; reflexivity.
Qed.

(** ** The degraded record *)

Lemma null_record_get (ks : list string) (d0 : dict) (k : string) :
  Dict.get k (fold_left (fun d k => Dict.set k JNull d) ks d0)
  = if in_dec string_dec k ks then Some JNull else Dict.get k d0.
Proof.
  revert d0. induction ks as [|k0 ks IH]; intros d0; simpl; auto.
  rewrite IH. destruct (in_dec string_dec k ks) as [Hin|Hout].
  - destruct (string_dec k0 k); auto.
  - destruct (string_dec k0 k) as [->|Hne].
    + apply DictFacts.get_set_same.
    + now apply DictFacts.get_set_other.
Qed.

Lemma null_record_spec (ks : list string) (k : string) :
  (In k (Dict.keys (null_record ks)) <-> In k ks)
  /\ (In k ks -> Dict.get k (null_record ks) = Some JNull).
Proof.
  unfold null_record. split.
  - rewrite <- DictFacts.get_in_keys, null_record_get.
    destruct (in_dec string_dec k ks); simpl; split; try tauto; congruence.
  - intros Hk. rewrite null_record_get.
    destruct (in_dec string_dec k ks); [reflexivity|contradiction].
Qed.

(** C7.  After the validation of the schema, the orchestrator returns in
    every case: either the result of its body, or, when the body raises an
    exception, a record that carries the error message, confidence 0, the
    error message as reasoning, and a data mapping with exactly the fields
    of the schema, each null. *)
Theorem orchestrator_never_raises
    (json_loads : string -> option json) (json_dumps : json -> string)
    (call_ollama_vision : string -> list string -> result string)
    (set_iteration : list json -> list json)
    (build_instruction : dict -> option string -> string)
    (document : document_content) (fields : dict)
    (additional : option string) :
  fields <> [] ->
  let body := extract_body json_loads json_dumps call_ollama_vision
                set_iteration build_instruction document fields additional in
  let out := extract_structured_data_with_ollama json_loads json_dumps
               call_ollama_vision set_iteration build_instruction
               document fields additional in
  (exists result, body = Ok result /\ out = result)
  \/ (exists e,
        body = Raise e
        /\ result_error out = Some (JStr ("Error calling Ollama: " ++ str_exn e))
        /\ result_entry "confidence_score" out = Some (JNum 0)
        /\ result_entry "reasoning" out = Some (JStr ("Error: " ++ str_exn e))
        /\ result_entry "additional_request_result" out = Some JNull
        /\ exists data,
             result_data out = Some data
             /\ (forall k, In k (Dict.keys data) <-> In k (Dict.keys fields))
             /\ forall k, In k (Dict.keys fields) ->
                          Dict.get k data = Some JNull).
Proof.
  intros Hne body out. subst body out.
  unfold extract_structured_data_with_ollama.
  destruct fields as [|kv fields]; [congruence|].
  destruct (extract_body _ _ _ _ _ _ _ _) as [result|e].
  - left. eauto.
  - right. exists e. repeat (split; [reflexivity|]).
    exists (null_record (Dict.keys (kv :: fields))).
    split; [reflexivity|]. split; intros k; apply null_record_spec.
Qed.

Lemma orchestrator_never_raises_witness :
  result_entry "confidence_score"
    (extract_structured_data_with_ollama RefCodec.json_loads
       RefCodec.json_dumps Servers.always_times_out RefCodec.set_iteration
       Servers.prompt (Image "scan") Samples.invoice_schema None)
  = Some (JNum 0).
Proof.
  destruct (orchestrator_never_raises RefCodec.json_loads RefCodec.json_dumps
              Servers.always_times_out RefCodec.set_iteration Servers.prompt
              (Image "scan") Samples.invoice_schema None)
    as [(result & Hbody & _)|(e & _ & _ & Hscore & _)].
  - discriminate.
  - discriminate Hbody.
  - exact Hscore.
Defined.

(** ** The pages of a multi-page document *)

Section Pages.

Variable json_loads : string -> option json.
Variable call_ollama_vision : string -> list string -> result string.
Variable instruction : string.
Variable num_pages : nat.

Lemma collect_pages_cons (i : nat) (page_image : string)
    (rest : list string) :
  collect_pages json_loads call_ollama_vision instruction num_pages i
    (page_image :: rest)
  = (option_list (page_attempt json_loads call_ollama_vision instruction
                    num_pages i page_image)
     ++ collect_pages json_loads call_ollama_vision instruction num_pages
          (S i) rest)%list.
Proof.
  simpl. unfold page_attempt.
  destruct (call_ollama_vision _ _) as [text|e]; [|reflexivity].
  destruct (json_loads text); reflexivity.
Qed.

Lemma collect_pages_app (i : nat) (before after : list string) :
  collect_pages json_loads call_ollama_vision instruction num_pages i
    (before ++ after)
  = (collect_pages json_loads call_ollama_vision instruction num_pages i
       before
     ++ collect_pages json_loads call_ollama_vision instruction num_pages
          (i + List.length before) after)%list.
Proof.
  revert i. induction before as [|b before IH]; intros i.
  - simpl. now rewrite Nat.add_0_r.
  - rewrite <- app_comm_cons, !collect_pages_cons, IH, <- app_assoc.
    simpl List.length. now rewrite Nat.add_succ_r.
Qed.

Lemma collect_pages_nil (i : nat) (pages : list string) :
  collect_pages json_loads call_ollama_vision instruction num_pages i pages
  = []
  <-> forall n page_image,
        nth_error pages n = Some page_image ->
        page_attempt json_loads call_ollama_vision instruction num_pages
          (i + n) page_image = None.
Proof.
  revert i. induction pages as [|p pages IH]; intros i.
  - split; [intros _ [|n] q H; discriminate | reflexivity].
  - rewrite collect_pages_cons. split.
    + intros H. apply app_eq_nil in H as [Hp Hrest].
      intros [|n] q Hn; simpl in Hn.
      * inversion Hn; subst. rewrite Nat.add_0_r.
        now destruct (page_attempt _ _ _ _ _ _).
      * rewrite Nat.add_succ_r. apply (proj1 (IH (S i)) Hrest n q Hn).
    + intros H. pose proof (H 0%nat p eq_refl) as Hp.
      rewrite Nat.add_0_r in Hp. rewrite Hp. simpl.
      apply IH. intros n q Hn. specialize (H (S n) q Hn).
      rewrite Nat.add_succ_r in H. exact H.
Qed.

End Pages.

(** C6, as the code has it.  In the multi-page flow each page is attempted
    in order and a page whose call raises or whose response does not decode
    adds nothing to the merge input, the other pages being kept; when some
    page succeeded and the merge and the normalisation return, the
    orchestrator returns the normalised merged record.  When every page
    fails, the aggregate error is raised inside the orchestrator and its
    handler returns the degraded record that carries the message. *)
Theorem multi_page_failures_are_isolated
    (json_loads : string -> option json) (json_dumps : json -> string)
    (call_ollama_vision : string -> list string -> result string)
    (set_iteration : list json -> list json)
    (build_instruction : dict -> option string -> string)
    (pages : list string) (fields : dict) (additional : option string) :
  fields <> [] ->
  List.length pages <> 1%nat ->
  let instruction := build_instruction fields additional in
  let collect := collect_pages json_loads call_ollama_vision instruction
                   (List.length pages) in
  let attempt := page_attempt json_loads call_ollama_vision instruction
                   (List.length pages) in
  let out := extract_structured_data_with_ollama json_loads json_dumps
               call_ollama_vision set_iteration build_instruction
               (Pdf pages) fields additional in
  (forall before page_image after,
      pages = (before ++ page_image :: after)%list ->
      collect 0%nat pages
      = (collect 0%nat before
         ++ option_list (attempt (List.length before) page_image)
         ++ collect (S (List.length before)) after)%list)
  /\ (collect 0%nat pages = []
      <-> forall n page_image,
            nth_error pages n = Some page_image ->
            attempt n page_image = None)
  /\ (collect 0%nat pages = [] ->
      out = degraded_result
              (Exception "Failed to process any page of the document") fields)
  /\ (forall merged result,
        collect 0%nat pages <> [] ->
        merge_page_results set_iteration (collect 0%nat pages) fields
        = Ok merged ->
        json_loads (json_dumps merged) = Some merged ->
        normalise_result merged fields = Ok result ->
        out = result).
Proof.
  intros Hfields Hlen instruction collect attempt out.
  split; [|split; [|split]].
  - intros before page_image after ->. subst collect attempt.
    rewrite collect_pages_app, collect_pages_cons. reflexivity.
  - subst collect attempt. apply collect_pages_nil.
  - intros Hnil. subst out collect.
    unfold extract_structured_data_with_ollama, extract_body, obtain_response.
    fold instruction.
    destruct fields as [|kv fields]; [congruence|].
    destruct pages as [|p1 [|p2 rest]]; [| simpl in Hlen; congruence |].
    + reflexivity.
    + rewrite Hnil. reflexivity.
  - intros merged result Hsome Hmerge Hround Hnorm. subst out collect.
    unfold extract_structured_data_with_ollama, extract_body, obtain_response.
    fold instruction.
    destruct fields as [|kv fields]; [congruence|].
    assert (Hdecode :
      decode_response json_loads (json_dumps merged) = Ok merged).
    { unfold decode_response. now rewrite Hround. }
    destruct pages as [|p1 [|p2 rest]]; [| simpl in Hlen; congruence |].
    + exfalso. now apply Hsome.
    + destruct (collect_pages _ _ _ _ _ _) as [|e es] eqn:Hcollect;
        [congruence|].
      rewrite Hmerge. cbn [bind]. rewrite Hdecode. cbn [bind].
      now rewrite Hnorm.
Qed.

Lemma multi_page_failures_are_isolated_witness :
  let out := extract_structured_data_with_ollama RefCodec.json_loads
               RefCodec.json_dumps Servers.reads_page RefCodec.set_iteration
               Servers.prompt (Pdf Servers.five_pages) Samples.invoice_schema
               None in
  result_error out = None
  /\ result_field "invoice_id" out = Some (JStr "INV-1")
  /\ result_field "total" out = Some (JStr "12.50").
Proof.
  intros out.
  destruct (multi_page_failures_are_isolated RefCodec.json_loads
              RefCodec.json_dumps Servers.reads_page RefCodec.set_iteration
              Servers.prompt Servers.five_pages Samples.invoice_schema None)
    as (_ & _ & _ & Hmerged).
  - discriminate.
  - discriminate.
  - eassert (Hout : out = _).
    { eapply Hmerged.
      - vm_compute. discriminate.
      - vm_compute. reflexivity.
      - vm_compute. reflexivity.
      - vm_compute. reflexivity. }
    rewrite Hout. repeat split; reflexivity.
Defined.

(** C6, as stated, fails: when every page of a two-page document times
    out, the orchestrator does not fail; it returns a record that holds,
    next to the error message, the degraded empty record: every field
    null, confidence 0. *)
Lemma all_pages_failing_returns_degraded_record :
  let out := extract_structured_data_with_ollama RefCodec.json_loads
               RefCodec.json_dumps Servers.always_times_out
               RefCodec.set_iteration Servers.prompt
               (Pdf ["page one"; "page two"]) Samples.invoice_schema None in
  result_error out
  = Some (JStr "Error calling Ollama: Failed to process any page of the document")
  /\ result_data out = Some [("invoice_id", JNull); ("total", JNull)]
  /\ result_entry "confidence_score" out = Some (JNum 0)
  /\ result_entry "reasoning" out
     = Some (JStr "Error: Failed to process any page of the document").
Proof. repeat split; reflexivity. Qed.

(** ** The brace-delimited match *)

Lemma append_assoc (a b c : string) : (a ++ b) ++ c = a ++ (b ++ c).
Proof. induction a as [|x a IH]; simpl; [reflexivity | now rewrite IH]. Qed.

Lemma has_char_app (c : ascii) (a b : string) :
  has_char c (a ++ b) = has_char c a || has_char c b.
Proof.
  induction a as [|x a IH]; simpl; [reflexivity|].
  now rewrite IH, orb_assoc.
Qed.

Lemma braced_app (mid post : string) :
  braced mid ++ post = String "{" (mid ++ String "}" post).
Proof. unfold braced. simpl. now rewrite append_assoc. Qed.

Lemma to_last_close_None (s : string) :
  to_last_close s = None <-> has_char "}" s = false.
Proof.
  induction s as [|c s IH]; simpl; [tauto|].
  destruct (to_last_close s) as [t|].
  - destruct (has_char "}" s).
    + rewrite orb_true_r. split; discriminate.
    + destruct IH as [_ IH]. discriminate IH. reflexivity.
  - rewrite (proj1 IH eq_refl), orb_false_r.
    destruct (Ascii.eqb c "}"); split; congruence.
Qed.

Lemma to_last_close_app (x post : string) :
  has_char "}" post = false ->
  to_last_close (x ++ String "}" post) = Some (x ++ String "}" EmptyString).
Proof.
  intros Hpost. induction x as [|c x IH]; simpl.
  - now rewrite (proj2 (to_last_close_None post) Hpost).
  - now rewrite IH.
Qed.

Lemma to_last_close_Some (t m : string) :
  to_last_close t = Some m ->
  exists x post,
    m = x ++ String "}" EmptyString
    /\ t = x ++ String "}" post
    /\ has_char "}" post = false.
Proof.
  revert m. induction t as [|c t IH]; intros m; simpl; [discriminate|].
  destruct (to_last_close t) as [m'|] eqn:Ht.
  - intros [= <-]. destruct (IH m' eq_refl) as (x & post & -> & -> & Hpost).
    exists (String c x), post. auto.
  - destruct (Ascii.eqb_spec c "}") as [->|Hne]; [|discriminate].
    intros [= <-]. exists EmptyString, t. repeat split.
    now apply to_last_close_None.
Qed.

Lemma from_first_open_app (pre rest : string) :
  has_char "{" pre = false ->
  from_first_open (pre ++ String "{" rest) = Some (String "{" rest).
Proof.
  induction pre as [|c pre IH]; simpl; [reflexivity|].
  intros H. apply orb_false_iff in H as [Hc Hpre].
  rewrite Hc. auto.
Qed.

Lemma from_first_open_Some (r t : string) :
  from_first_open r = Some t ->
  exists pre rest,
    r = pre ++ String "{" rest /\ t = String "{" rest
    /\ has_char "{" pre = false.
Proof.
  induction r as [|c r IH]; simpl; [discriminate|].
  destruct (Ascii.eqb_spec c "{") as [->|Hne].
  - intros [= <-]. exists EmptyString, r. auto.
  - intros H. destruct (IH H) as (pre & rest & -> & -> & Hpre).
    exists (String c pre), rest. repeat split. simpl.
    rewrite Hpre, orb_false_r. now apply Ascii.eqb_neq.
Qed.

Lemma from_first_open_keeps (c : ascii) (pre s : string) :
  exists t,
    from_first_open (pre ++ String "{" s) = Some t
    /\ (has_char c s = true -> has_char c t = true).
Proof.
  induction pre as [|x pre IH]; simpl.
  - exists (String "{" s). split; [reflexivity|]. simpl. intros ->.
    apply orb_true_r.
  - destruct (Ascii.eqb x "{"); [|exact IH].
    eexists. split; [reflexivity|]. intros H. simpl.
    rewrite has_char_app. simpl. rewrite H. now rewrite !orb_true_r.
Qed.

Lemma search_braces_outermost (pre mid post : string) :
  has_char "{" pre = false -> has_char "}" post = false ->
  search_braces (pre ++ braced mid ++ post) = Some (braced mid).
Proof.
  intros Hpre Hpost. unfold search_braces.
  rewrite braced_app, from_first_open_app by exact Hpre.
  exact (to_last_close_app (String "{" mid) post Hpost).
Qed.

Lemma search_braces_Some (r m : string) :
  search_braces r = Some m ->
  exists pre mid post,
    r = pre ++ braced mid ++ post /\ m = braced mid
    /\ has_char "{" pre = false /\ has_char "}" post = false.
Proof.
  unfold search_braces.
  destruct (from_first_open r) as [t|] eqn:Ht; [|discriminate].
  intros Hm. apply from_first_open_Some in Ht as (pre & rest & -> & -> & Hpre).
  apply to_last_close_Some in Hm as (x & post & -> & Hx & Hpost).
  destruct x as [|c mid]; simpl in Hx; [discriminate|].
  inversion Hx; subst. exists pre, mid, post.
  rewrite braced_app. auto.
Qed.

Lemma search_braces_None (r : string) :
  search_braces r = None <->
  forall pre mid post, r <> pre ++ braced mid ++ post.
Proof.
  split.
  - intros Hnone pre mid post ->. rewrite braced_app in Hnone.
    unfold search_braces in Hnone.
    destruct (from_first_open_keeps "}" pre (mid ++ String "}" post))
      as (t & Ht & Hkeep).
    rewrite Ht in Hnone. apply to_last_close_None in Hnone.
    rewrite Hkeep in Hnone; [discriminate|].
    rewrite has_char_app. simpl. apply orb_true_r.
  - intros Hno. destruct (search_braces r) as [m|] eqn:Hm; [|reflexivity].
    apply search_braces_Some in Hm as (pre & mid & post & Hr & _).
    now destruct (Hno pre mid post).
Qed.

(** C8, as the code has it.  A response that decodes directly is decoded
    as it is.  Otherwise the parser retries once, on the text from the
    first opening brace to the last closing brace: it succeeds exactly when
    that text decodes, and fails with an error carrying the first 200
    characters of the response when it does not, or when the response has
    no brace-delimited part. *)
Theorem decode_response_retries_on_outermost_braces
    (json_loads : string -> option json) (response : string) :
  (forall v, json_loads response = Some v ->
             decode_response json_loads response = Ok v)
  /\ (forall pre mid post,
        json_loads response = None ->
        response = pre ++ braced mid ++ post ->
        has_char "{" pre = false ->
        has_char "}" post = false ->
        decode_response json_loads response
        = match json_loads (braced mid) with
          | Some v => Ok v
          | None => Raise (Exception ("Could not parse JSON response. Raw: "
                                      ++ substring 0 200 response))
          end)
  /\ (json_loads response = None ->
      (forall pre mid post, response <> pre ++ braced mid ++ post) ->
      decode_response json_loads response
      = Raise (Exception ("No JSON found in response. Raw: "
                          ++ substring 0 200 response)))
  /\ ((exists pre mid post,
          response = pre ++ braced mid ++ post
          /\ has_char "{" pre = false /\ has_char "}" post = false)
      \/ forall pre mid post, response <> pre ++ braced mid ++ post).
Proof.
  split; [|split; [|split]].
  - intros v Hv. unfold decode_response. now rewrite Hv.
  - intros pre mid post Hnone Hr Hpre Hpost. unfold decode_response.
    rewrite Hnone. rewrite Hr at 1.
    now rewrite (search_braces_outermost pre mid post Hpre Hpost).
  - intros Hnone Hno. unfold decode_response. rewrite Hnone.
    now rewrite (proj2 (search_braces_None response) Hno).
  - destruct (search_braces response) as [m|] eqn:Hm.
    + left. apply search_braces_Some in Hm as (pre & mid & post & H & _ & H').
      now exists pre, mid, post.
    + right. now apply search_braces_None.
Qed.

Lemma decode_response_retries_on_outermost_braces_witness :
  decode_response RefCodec.json_loads "Here is the result: {} I hope it helps"
  = Ok (JObj []).
Proof.
  exact (proj1 (proj2 (decode_response_retries_on_outermost_braces
                         RefCodec.json_loads
                         "Here is the result: {} I hope it helps"))
               "Here is the result: " "" " I hope it helps"
               eq_refl eq_refl eq_refl eq_refl).
Defined.

(** C8, as stated, fails: the response holds the valid brace-delimited
    JSON text of an empty object, yet it is not parsed, because the text
    from its first opening brace to its last closing brace does not
    decode. *)
Lemma valid_braced_substring_is_not_enough :
  let response := "see {x} then {}" in
  (exists pre post,
      response = pre ++ braced "" ++ post
      /\ RefCodec.json_loads (braced "") = Some (JObj []))
  /\ search_braces response = Some "{x} then {}"
  /\ decode_response RefCodec.json_loads response
     = Raise (Exception
                "Could not parse JSON response. Raw: see {x} then {}").
Proof.
  split; [|split; reflexivity].
  exists "see {x} then ", "". split; reflexivity.
Qed.

(** * Further properties of the merger *)

Lemma foldM_raises {A S : Type} (f : S -> A -> result S) (xs : list A)
    (x : A) :
  In x xs -> (forall s, exists e, f s x = Raise e) ->
  forall s, exists e, foldM f xs s = Raise e.
Proof.
  intros Hin Hx. induction xs as [|y xs IH]; intros s; [contradiction|].
  simpl. destruct Hin as [->|Hin].
  - destruct (Hx s) as [e ->]. simpl. eauto.
  - destruct (f s y) as [s'|e]; simpl; [apply IH; exact Hin | eauto].
Qed.

Lemma merge_page_raises_on_non_dict (fields : dict) (st : merge_state)
    (page : json) :
  is_dict page = false ->
  merge_page fields st page
  = Raise (AttributeError
             ("'" ++ type_name page ++ "' object has no attribute 'get'")).
Proof. destruct page; simpl; intros H; try reflexivity; discriminate. Qed.

Lemma merge_page_results_raises_on_non_dict
    (set_iteration : list json -> list json) (pages : list json)
    (fields : dict) (page : json) :
  In page pages -> is_dict page = false ->
  exists e, merge_page_results set_iteration pages fields = Raise e.
Proof.
  intros Hin Hpage.
  destruct (foldM_raises (merge_page fields) pages page Hin) with (s := merge_init)
    as [e He].
  - intros s. rewrite merge_page_raises_on_non_dict by exact Hpage. eauto.
  - exists e. unfold merge_page_results, merge_loop. now rewrite He.
Qed.

Lemma collect_pages_In (json_loads : string -> option json)
    (call : string -> list string -> result string) (instruction : string)
    (num_pages : nat) (pages : list string) (i n : nat) (image : string)
    (v : json) :
  nth_error pages n = Some image ->
  page_attempt json_loads call instruction num_pages (i + n) image = Some v ->
  In v (collect_pages json_loads call instruction num_pages i pages).
Proof.
  revert i n. induction pages as [|p pages IH]; intros i n Hn Hv.
  - destruct n; discriminate.
  - rewrite collect_pages_cons. apply in_or_app. destruct n as [|n]; simpl in Hn.
    + inversion Hn; subst. rewrite Nat.add_0_r in Hv. rewrite Hv.
      left. simpl. auto.
    + right. apply (IH (S i) n Hn). rewrite Nat.add_succ_r in Hv. exact Hv.
Qed.

(** The multi-page flow of the orchestrator, from the collected pages on. *)
Lemma multi_page_result
    (json_loads : string -> option json) (json_dumps : json -> string)
    (call : string -> list string -> result string)
    (set_iteration : list json -> list json)
    (build_instruction : dict -> option string -> string)
    (pages : list string) (fields : dict) (additional : option string) :
  fields <> [] ->
  List.length pages <> 1%nat ->
  let collected := collect_pages json_loads call
                     (build_instruction fields additional)
                     (List.length pages) 0 pages in
  collected <> [] ->
  extract_body json_loads json_dumps call set_iteration build_instruction
    (Pdf pages) fields additional
  = (merged <- merge_page_results set_iteration collected fields ;;
     decoded <- decode_response json_loads (json_dumps merged) ;;
     normalise_result decoded fields).
Proof.
  intros Hfields Hlen collected Hsome. subst collected.
  unfold extract_body, obtain_response.
  destruct pages as [|p1 [|p2 rest]]; [| simpl in Hlen; congruence |].
  - exfalso. now apply Hsome.
  - destruct (collect_pages _ _ _ _ _ _) as [|e es] eqn:Hcollect;
      [congruence|].
    destruct (merge_page_results set_iteration (e :: es) fields); reflexivity.
Qed.

(** X1.  A page whose response decodes to JSON that is not an object (a
    list, a number, a string) is not dropped like a failed page: the merger
    raises on it, and the orchestrator returns the degraded record of its
    handler although other pages succeeded. *)
Theorem non_object_page_degrades_the_request
    (json_loads : string -> option json) (json_dumps : json -> string)
    (call : string -> list string -> result string)
    (set_iteration : list json -> list json)
    (build_instruction : dict -> option string -> string)
    (pages : list string) (fields : dict) (additional : option string)
    (n : nat) (image : string) (v : json) :
  fields <> [] ->
  List.length pages <> 1%nat ->
  nth_error pages n = Some image ->
  page_attempt json_loads call (build_instruction fields additional)
    (List.length pages) n image = Some v ->
  is_dict v = false ->
  exists e,
    merge_page_results set_iteration
      (collect_pages json_loads call (build_instruction fields additional)
         (List.length pages) 0 pages) fields = Raise e
    /\ extract_structured_data_with_ollama json_loads json_dumps call
         set_iteration build_instruction (Pdf pages) fields additional
       = degraded_result e fields.
Proof.
  intros Hfields Hlen Hn Hv Hdict.
  pose proof (collect_pages_In json_loads call
                (build_instruction fields additional) (List.length pages)
                pages 0 n image v Hn Hv) as Hin.
  destruct (merge_page_results_raises_on_non_dict set_iteration _ fields v
              Hin Hdict) as [e He].
  exists e. split; [exact He|].
  unfold extract_structured_data_with_ollama.
  destruct fields as [|kv fields]; [congruence|].
  rewrite multi_page_result; try assumption.
  - rewrite He. reflexivity.
  - intros Hnil. rewrite Hnil in Hin. contradiction.
Qed.

Lemma non_object_page_degrades_the_request_witness :
  result_error
    (extract_structured_data_with_ollama RefCodec.json_loads
       RefCodec.json_dumps Servers.reads_page RefCodec.set_iteration
       Servers.prompt
       (Pdf [RefCodec.json_dumps (nth 0 Samples.three_pages JNull); "[]"])
       Samples.invoice_schema None)
  = Some (JStr "Error calling Ollama: 'list' object has no attribute 'get'").
Proof.
  destruct (non_object_page_degrades_the_request RefCodec.json_loads
              RefCodec.json_dumps Servers.reads_page RefCodec.set_iteration
              Servers.prompt
              [RefCodec.json_dumps (nth 0 Samples.three_pages JNull); "[]"]
              Samples.invoice_schema None 1 "[]" (JArr []))
    as (e & He & Hout).
  - discriminate.
  - discriminate.
  - reflexivity.
  - reflexivity.
  - reflexivity.
  - rewrite Hout. vm_compute in He. inversion He; subst e. reflexivity.
Defined.

Lemma slot_of_None_confidence (st : merge_state) (k : string) :
  state_ok st -> slot_of st k = None ->
  Dict.get k (field_confidences st) = None.
Proof.
  intros Hok Hslot. apply DictFacts.mem_false_get.
  rewrite <- (ok_synced st Hok). apply DictFacts.mem_false_get.
  now apply slot_of_None.
Qed.

Lemma scan_all_None (pages : list json) (k : string) :
  (forall p, In p pages -> found_candidate p k = None) ->
  scan pages k None = None.
Proof.
  intros H. pose proof (scan_spec pages k) as Hscan.
  destruct (scan pages k None) as [[w d]|]; [|reflexivity].
  destruct Hscan as (j & (pj & Hj & Hpj) & _).
  rewrite (H pj (nth_error_In _ _ Hj)) in Hpj. discriminate.
Qed.

Lemma dict_without_members (d : dict) :
  (forall k, Dict.mem k d = false) -> d = [].
Proof.
  destruct d as [|[k v] d]; [reflexivity|].
  intros H. specialize (H k). unfold Dict.mem in H. simpl in H.
  rewrite String.eqb_refl in H. discriminate.
Qed.

Lemma fill_missing_empty_get (ks : list string) (k : string) :
  In k ks -> Dict.get k (fill_missing ks []) = Some JNull.
Proof.
  intros Hk. rewrite fill_missing_get. simpl.
  destruct (in_dec string_dec k ks); [reflexivity|contradiction].
Qed.

(** X2.  When no page holds a non-empty value for any field of the schema,
    the merger adopts nothing: every field of the merged data is null and
    the merged confidence is 0. *)
Theorem merge_without_candidates_is_null_with_confidence_zero
    (set_iteration : list json -> list json) (first : json)
    (rest : list json) (fields : dict) :
  (forall xs x, In x (set_iteration xs) -> In x xs) ->
  Forall (fun p => well_formed_page fields p = true) (first :: rest) ->
  (forall p k, In p (first :: rest) -> In k (Dict.keys fields) ->
               found_candidate p k = None) ->
  exists out,
    merge_page_results set_iteration (first :: rest) fields = Ok out
    /\ result_entry "confidence_score" out = Some (JNum 0)
    /\ forall k, In k (Dict.keys fields) -> result_field k out = Some JNull.
Proof.
  intros Hset Hwf Hnone.
  destruct (merge_page_results_returns set_iteration Hset first rest fields Hwf)
    as [out Hout].
  exists out. split; [exact Hout|].
  destruct (merge_loop_slot fields (first :: rest) Hwf)
    as (st & Hrun & Hok & Hslots).
  assert (Hmerged : merged_data st = []).
  { apply dict_without_members. intros k.
    destruct (Dict.mem k (merged_data st)) eqn:Hmem; [|reflexivity].
    destruct (merge_loop_keys _ _ _ Hrun) as [Hincl _].
    assert (Hk : In k (Dict.keys fields))
      by (apply Hincl; now apply DictFacts.mem_in_keys).
    destruct (slot_of_present st k Hok Hmem) as (w & d & _ & _ & Hslot).
    rewrite (Hslots k Hk), scan_all_None in Hslot; [discriminate|].
    intros p Hp. now apply Hnone. }
  assert (Hconfs : field_confidences st = []).
  { apply dict_without_members. intros k.
    rewrite <- (ok_synced st Hok), Hmerged. reflexivity. }
  apply merge_page_results_inv in Hout
    as (st' & avg & reasoning & f & r & fr & add
        & Hrun' & Havg & _ & _ & _ & ->).
  assert (st' = st) by congruence. subst st'.
  rewrite Hconfs in Havg. simpl in Havg. inversion Havg; subst avg.
  split; [reflexivity|].
  intros k Hk. unfold result_field.
  rewrite result_data_merged_record, Hmerged.
  now apply fill_missing_empty_get.
Qed.

Lemma merge_without_candidates_is_null_with_confidence_zero_witness :
  exists out,
    merge_page_results RefCodec.set_iteration
      [nth 2 Samples.three_pages JNull] Samples.invoice_schema = Ok out
    /\ result_entry "confidence_score" out = Some (JNum 0)
    /\ result_field "invoice_id" out = Some JNull.
Proof.
  destruct (merge_without_candidates_is_null_with_confidence_zero
              RefCodec.set_iteration (nth 2 Samples.three_pages JNull) []
              Samples.invoice_schema) as (out & Hout & Hscore & Hnull).
  - exact ref_set_iteration_members.
  - repeat constructor.
  - intros p k [<-|[]] [<-|[<-|[]]]; reflexivity.
  - exists out. split; [exact Hout|]. split; [exact Hscore|].
    apply Hnull. simpl. auto.
Defined.

(** Candidates of a permuted list of pages. *)
Lemma leftmost_best_In (pages : list json) (k : string) (w : json) (d : Z)
    (j : nat) :
  leftmost_best pages k w d j ->
  (exists p, In p pages /\ found_candidate p k = Some (w, d))
  /\ forall p v c, In p pages -> found_candidate p k = Some (v, c) -> c <= d.
Proof.
  intros [(pj & Hj & Hpj) Hbest]. split.
  - exists pj. split; [eapply nth_error_In; eauto | exact Hpj].
  - intros p v c Hp Hc. apply In_nth_error in Hp as [i Hi].
    now destruct (Hbest i p v c Hi Hc).
Qed.

Lemma scan_confidence_permutation (pages pages' : list json) (k : string) :
  Permutation.Permutation pages pages' ->
  option_map snd (scan pages k None) = option_map snd (scan pages' k None).
Proof.
  intros Hperm.
  pose proof (scan_spec pages k) as H1. pose proof (scan_spec pages' k) as H2.
  destruct (scan pages k None) as [[w d]|];
    destruct (scan pages' k None) as [[w' d']|]; simpl; auto.
  - destruct H1 as [j H1]. destruct H2 as [j' H2].
    apply leftmost_best_In in H1 as [(p & Hp & Hpc) Hmax].
    apply leftmost_best_In in H2 as [(p' & Hp' & Hpc') Hmax'].
    assert (d <= d').
    { apply (Hmax' p w d); auto. eapply Permutation.Permutation_in; eauto. }
    assert (d' <= d).
    { apply (Hmax p' w' d'); auto.
      eapply Permutation.Permutation_in; [apply Permutation.Permutation_sym|];
        eauto. }
    f_equal. lia.
  - destruct H1 as [j H1]. apply leftmost_best_In in H1 as [(p & Hp & Hpc) _].
    apply (Permutation.Permutation_in _ Hperm) in Hp.
    apply In_nth_error in Hp as [i Hi]. rewrite (H2 i p Hi) in Hpc.
    discriminate.
  - destruct H2 as [j H2]. apply leftmost_best_In in H2 as [(p & Hp & Hpc) _].
    apply (Permutation.Permutation_in _ (Permutation.Permutation_sym Hperm))
      in Hp.
    apply In_nth_error in Hp as [i Hi]. rewrite (H1 i p Hi) in Hpc.
    discriminate.
Qed.

Lemma slot_confidence (st : merge_state) (k : string) :
  state_ok st ->
  Dict.get k (field_confidences st)
  = option_map (fun wd => JNum (snd wd)) (slot_of st k).
Proof.
  intros Hok. destruct (slot_of st k) as [[w d]|] eqn:Hslot; simpl.
  - now apply slot_of_Some in Hslot as [_ ->].
  - now apply slot_of_None_confidence.
Qed.

(** X3.  The confidence the merger adopts for a field does not depend on
    the order of the pages: merging a permutation of the pages adopts, for
    every field of the schema, the same confidence, and leaves unadopted
    the same fields. *)
Theorem adopted_confidence_ignores_page_order
    (pages pages' : list json) (fields : dict) (k : string) :
  Permutation.Permutation pages pages' ->
  Forall (fun p => well_formed_page fields p = true) pages ->
  In k (Dict.keys fields) ->
  exists st st',
    merge_loop pages fields = Ok st
    /\ merge_loop pages' fields = Ok st'
    /\ Dict.get k (field_confidences st) = Dict.get k (field_confidences st').
Proof.
  intros Hperm Hwf Hk.
  assert (Hwf' : Forall (fun p => well_formed_page fields p = true) pages').
  { rewrite Forall_forall in *. intros p Hp. apply Hwf.
    eapply Permutation.Permutation_in;
      [apply Permutation.Permutation_sym|]; eauto. }
  destruct (merge_loop_slot fields pages Hwf) as (st & Hrun & Hok & Hs).
  destruct (merge_loop_slot fields pages' Hwf') as (st' & Hrun' & Hok' & Hs').
  exists st, st'. split; [exact Hrun|]. split; [exact Hrun'|].
  rewrite (slot_confidence st k Hok), (slot_confidence st' k Hok').
  rewrite (Hs k Hk), (Hs' k Hk).
  pose proof (scan_confidence_permutation pages pages' k Hperm) as H.
  destruct (scan pages k None) as [[w d]|];
    destruct (scan pages' k None) as [[w' d']|]; simpl in *; congruence.
Qed.

Lemma adopted_confidence_ignores_page_order_witness :
  exists st st',
    merge_loop Samples.three_pages Samples.invoice_schema = Ok st
    /\ merge_loop (rev Samples.three_pages) Samples.invoice_schema = Ok st'
    /\ Dict.get "invoice_id" (field_confidences st)
       = Dict.get "invoice_id" (field_confidences st').
Proof.
  apply (adopted_confidence_ignores_page_order Samples.three_pages
           (rev Samples.three_pages) Samples.invoice_schema "invoice_id").
  - apply Permutation.Permutation_rev.
  - repeat constructor.
  - simpl. auto.
Defined.

(** X4.  A further page can only raise what the merger has adopted for a
    field: after one more page the adopted confidence is at least what it
    was, a field once adopted stays adopted, and the adopted value changes
    only for a candidate of that page with strictly greater confidence. *)
Theorem one_more_page_never_lowers_a_field
    (pages : list json) (page : json) (fields : dict) (k : string) :
  Forall (fun p => well_formed_page fields p = true) (pages ++ [page]) ->
  In k (Dict.keys fields) ->
  exists st st',
    merge_loop pages fields = Ok st
    /\ merge_loop (pages ++ [page]) fields = Ok st'
    /\ match slot_of st k with
       | Some (w, d) =>
           exists w' d',
             slot_of st' k = Some (w', d')
             /\ d <= d'
             /\ ((w' = w /\ d' = d)
                 \/ (d < d' /\ found_candidate page k = Some (w', d')))
       | None => slot_of st' k = found_candidate page k
       end.
Proof.
  intros Hwf Hk.
  assert (Hwf0 : Forall (fun p => well_formed_page fields p = true) pages).
  { apply Forall_app in Hwf. tauto. }
  destruct (merge_loop_slot fields pages Hwf0) as (st & Hrun & Hok & Hs).
  destruct (merge_loop_slot fields _ Hwf) as (st' & Hrun' & Hok' & Hs').
  exists st, st'. split; [exact Hrun|]. split; [exact Hrun'|].
  rewrite (Hs k Hk), (Hs' k Hk), scan_snoc.
  destruct (scan pages k None) as [[w d]|];
    destruct (found_candidate page k) as [[v c]|]; simpl; auto.
  - destruct (d <? c) eqn:Hlt.
    + apply Z.ltb_lt in Hlt. exists v, c. repeat split; auto; lia.
    + exists w, d. repeat split; auto; lia.
  - exists w, d. repeat split; auto; lia.
Qed.

Lemma one_more_page_never_lowers_a_field_witness :
  exists st st',
    merge_loop (firstn 1 Samples.three_pages) Samples.invoice_schema = Ok st
    /\ merge_loop (firstn 2 Samples.three_pages) Samples.invoice_schema
       = Ok st'
    /\ slot_of st "invoice_id" = Some (JStr "INV-7", 40)
    /\ slot_of st' "invoice_id" = Some (JStr "INV-1", 90).
Proof.
  destruct (one_more_page_never_lowers_a_field
              (firstn 1 Samples.three_pages) (nth 1 Samples.three_pages JNull)
              Samples.invoice_schema "invoice_id")
    as (st & st' & Hrun & Hrun' & _).
  - repeat constructor.
  - simpl. auto.
  - exists st, st'. split; [exact Hrun|]. split; [exact Hrun'|].
    vm_compute in Hrun. inversion Hrun; subst st.
    vm_compute in Hrun'. inversion Hrun'; subst st'.
    split; reflexivity.
Defined.

(** ** Bounds on the merged confidence *)

Lemma merge_field_within (lo hi : Z) (page_data page_confidence : json)
    (st st' : merge_state) (k : string) :
  confidences_within lo hi st ->
  (forall v c, field_candidate page_data page_confidence k = Ok (v, c) ->
               is_found v = true -> exists z, c = JNum z /\ lo <= z <= hi) ->
  merge_field page_data page_confidence st k = Ok st' ->
  confidences_within lo hi st'.
Proof.
  intros Hst Hcand Hrun. unfold merge_field in Hrun.
  bind_inv Hrun. destruct a as [value confidence].
  destruct (is_found value) eqn:Hfound.
  - bind_inv Hrun. destruct a; inversion Hrun; subst; auto.
    unfold confidences_within. simpl.
    apply values_set_Forall; auto. eapply Hcand; eauto.
  - now inversion Hrun; subst.
Qed.

Lemma merge_page_within (lo hi : Z) (fields : dict) (st st' : merge_state)
    (page : json) :
  well_formed_page fields page = true ->
  (forall k v c, In k (Dict.keys fields) ->
                 found_candidate page k = Some (v, c) -> lo <= c <= hi) ->
  confidences_within lo hi st ->
  merge_page fields st page = Ok st' ->
  confidences_within lo hi st'.
Proof.
  intros Hwf Hrange Hst Hrun.
  destruct (well_formed_page_inv fields page Hwf)
    as (er & dd & conf & r & Her & Hdata & Hconf & Hreason & Hpc & Hcands).
  unfold merge_page in Hrun. rewrite Her in Hrun. cbn [bind] in Hrun.
  rewrite Hdata in Hrun. cbn [bind] in Hrun.
  rewrite Hconf in Hrun. cbn [bind] in Hrun.
  rewrite Hreason in Hrun. cbn [bind] in Hrun.
  refine (foldM_invariant (confidences_within lo hi)
            (merge_field (JObj dd) conf) (Dict.keys fields) _ _ st' _ Hrun).
  - intros s k s' Hk Hs Hf.
    eapply merge_field_within; [exact Hs | | exact Hf].
    intros v c Hvc Hfound.
    destruct (Hcands k Hk) as (v' & z & Hvz). rewrite Hvc in Hvz.
    inversion Hvz; subst v' c. exists z. split; [reflexivity|].
    apply (Hrange k v z Hk). unfold found_candidate.
    now rewrite Hpc, Hvc, Hfound.
  - destruct (truthy (JStr r)); exact Hst.
Qed.

Lemma merge_loop_within (lo hi : Z) (fields : dict) (pages : list json)
    (st : merge_state) :
  Forall (fun p => well_formed_page fields p = true) pages ->
  (forall p k v c, In p pages -> In k (Dict.keys fields) ->
                   found_candidate p k = Some (v, c) -> lo <= c <= hi) ->
  merge_loop pages fields = Ok st ->
  confidences_within lo hi st.
Proof.
  intros Hwf Hrange Hrun. unfold merge_loop in Hrun.
  refine (foldM_invariant (confidences_within lo hi) (merge_page fields)
            pages _ merge_init st _ Hrun).
  - intros s p s' Hp Hs Hf. rewrite Forall_forall in Hwf.
    eapply merge_page_within; [apply Hwf; exact Hp | | exact Hs | exact Hf].
    intros k v c. now apply Hrange.
  - constructor.
Qed.

Lemma py_sum_from_within (lo hi : Z) (vs : list json) (acc : Z) :
  Forall (fun v => exists z, v = JNum z /\ lo <= z <= hi) vs ->
  exists total,
    py_sum_from acc vs = Ok total
    /\ acc + lo * Z.of_nat (List.length vs) <= total
       <= acc + hi * Z.of_nat (List.length vs).
Proof.
  intros H. revert acc.
  induction H as [|v vs (z & -> & Hz) _ IH]; intros acc.
  - exists acc. simpl. split; [reflexivity|lia].
  - destruct (IH (acc + z)) as (total & Ht & Hb).
    exists total. split; [exact Ht|].
    change (List.length (JNum z :: vs)) with (S (List.length vs)).
    rewrite Nat2Z.inj_succ. nia.
Qed.

Lemma average_confidence_within (hi : Z) (confidences : dict) (avg : Z) :
  0 <= hi ->
  Forall (fun v => exists z, v = JNum z /\ 0 <= z <= hi)
         (Dict.values confidences) ->
  average_confidence confidences = Ok avg ->
  0 <= avg <= hi.
Proof.
  intros Hhi H Havg. destruct confidences as [|kv rest].
  - simpl in Havg. inversion Havg; subst. lia.
  - destruct (py_sum_from_within 0 hi _ 0 H) as (total & Ht & Hb).
    unfold average_confidence, py_sum in Havg. rewrite Ht in Havg.
    cbn [bind] in Havg. inversion Havg; subst avg. unfold int_mean.
    unfold Dict.values in Hb. rewrite length_map in Hb.
    simpl List.length in Hb |- *.
    remember (Z.of_nat (S (List.length rest))) as n eqn:En.
    assert (Hn : 0 < n) by (subst n; lia).
    rewrite Z.quot_div_nonneg by lia. split.
    + apply Z.div_pos; lia.
    + apply Z.div_le_upper_bound; lia.
Qed.

(** X5.  When every non-empty candidate of the pages has a confidence
    between 0 and 100, so has the confidence of the merged record. *)
Theorem merged_confidence_stays_within_bounds
    (set_iteration : list json -> list json) (first : json)
    (rest : list json) (fields : dict) :
  (forall xs x, In x (set_iteration xs) -> In x xs) ->
  Forall (fun p => well_formed_page fields p = true) (first :: rest) ->
  (forall p k v c, In p (first :: rest) -> In k (Dict.keys fields) ->
                   found_candidate p k = Some (v, c) -> 0 <= c <= 100) ->
  exists out avg,
    merge_page_results set_iteration (first :: rest) fields = Ok out
    /\ result_entry "confidence_score" out = Some (JNum avg)
    /\ 0 <= avg <= 100.
Proof.
  intros Hset Hwf Hrange.
  destruct (merge_page_results_returns set_iteration Hset first rest fields Hwf)
    as [out Hout].
  pose proof Hout as Hinv.
  apply merge_page_results_inv in Hinv
    as (st & avg & reasoning & f & r & fr & add
        & Hrun & Havg & _ & _ & _ & ->).
  exists (merged_record avg reasoning
            (fill_missing (Dict.keys fields) (merged_data st)) add), avg.
  split; [exact Hout|]. split; [reflexivity|].
  apply (average_confidence_within 100 (field_confidences st)); [lia| |exact Havg].
  exact (merge_loop_within 0 100 fields (first :: rest) st Hwf Hrange Hrun).
Qed.

Lemma merged_confidence_stays_within_bounds_witness :
  exists out,
    merge_page_results RefCodec.set_iteration Samples.three_pages
      Samples.invoice_schema = Ok out
    /\ result_entry "confidence_score" out = Some (JNum 80).
Proof.
  destruct (merged_confidence_stays_within_bounds RefCodec.set_iteration
              (nth 0 Samples.three_pages JNull) (tl Samples.three_pages)
              Samples.invoice_schema) as (out & avg & Hout & Hscore & _).
  - exact ref_set_iteration_members.
  - repeat constructor.
  - intros p k v c Hp Hk Hc.
    simpl in Hp, Hk.
    destruct Hp as [<-|[<-|[<-|[]]]]; destruct Hk as [<-|[<-|[]]];
      vm_compute in Hc; inversion Hc; subst; lia.
  - exists out. split; [exact Hout|].
    vm_compute in Hout. inversion Hout; subst out. reflexivity.
Defined.

(** * Further properties of the normaliser *)

Lemma normalise_result_unwrapped (decoded : json) (fields : dict) :
  py_in "extraction_results" decoded = Ok false ->
  normalise_result decoded fields
  = normalise_result
      (JObj [("extraction_results", JObj (wrapped_response decoded))]) fields.
Proof.
  intros H. unfold normalise_result at 1. rewrite H. reflexivity.
Qed.

Lemma normalise_result_inv (decoded : json) (fields : dict) (out : json) :
  normalise_result decoded fields = Ok out ->
  exists d er processed confs mean,
    (decoded = JObj d /\ Dict.get "extraction_results" d = Some (JObj er)
     \/ py_in "extraction_results" decoded = Ok false
        /\ d = [("extraction_results", JObj (wrapped_response decoded))]
        /\ er = wrapped_response decoded)
    /\ resolve_fields (data_of er) fields = Ok (processed, confs)
    /\ mean_confidence confs = Ok mean
    /\ out = normalised d er processed mean.
Proof.
  intros Hrun.
  assert (Henv : forall d er,
             Dict.get "extraction_results" d = Some (JObj er) ->
             normalise_result (JObj d) fields = Ok out ->
             exists processed confs mean,
               resolve_fields (data_of er) fields = Ok (processed, confs)
               /\ mean_confidence confs = Ok mean
               /\ out = normalised d er processed mean).
  { intros d er Her H. rewrite (normalise_result_envelope d er fields Her) in H.
    bind_inv H. destruct a as [processed confs]. bind_inv H.
    cbn [fst snd] in *. inversion H; subst out. eauto 6. }
  destruct (py_in "extraction_results" decoded) as [[|]|e] eqn:Hin.
  - destruct decoded as [| | | s | xs | d].
    + discriminate.
    + discriminate.
    + discriminate.
    + unfold normalise_result in Hrun. rewrite Hin in Hrun. discriminate.
    + unfold normalise_result in Hrun. rewrite Hin in Hrun. discriminate.
    + assert (Hmem : Dict.mem "extraction_results" d = true)
        by (simpl in Hin; congruence).
      clear Hin. pose proof Hmem as Hget. unfold Dict.mem in Hget.
      destruct (Dict.get "extraction_results" d) as [x|] eqn:Hx;
        [|discriminate].
      assert (Hx' : exists er, x = JObj er).
      { unfold normalise_result in Hrun. cbn [py_in bind] in Hrun.
        rewrite Hmem in Hrun. cbn [py_get bind] in Hrun.
        rewrite Hx in Hrun. destruct x; try discriminate Hrun. eauto. }
      destruct Hx' as [er ->].
      destruct (Henv d er Hx Hrun) as (processed & confs & mean & H).
      exists d, er, processed, confs, mean. split; [left; auto | exact H].
  - rewrite normalise_result_unwrapped in Hrun by exact Hin.
    destruct (Henv [("extraction_results", JObj (wrapped_response decoded))]
                (wrapped_response decoded) eq_refl Hrun)
      as (processed & confs & mean & H).
    eexists. exists (wrapped_response decoded), processed, confs, mean.
    split; [right; repeat split | exact H].
  - unfold normalise_result in Hrun. rewrite Hin in Hrun. discriminate.
Qed.

Lemma resolve_field_shape (data : json) (p0 p1 : dict) (c0 c1 : list json)
    (k : string) :
  resolve_field data (p0, c0) k = Ok (p1, c1) ->
  exists val x, p1 = Dict.set k val p0 /\ c1 = (c0 ++ [x])%list.
Proof.
  unfold resolve_field. intros Hrun. bind_inv Hrun.
  destruct (has_value_key a).
  - do 3 bind_inv Hrun. inversion Hrun; subst. eauto.
  - inversion Hrun; subst. eauto.
Qed.

Lemma resolve_fields_keys (data : json) (ks : list string) :
  forall (p0 : dict) (c0 : list json) (p : dict) (c : list json),
    foldM (resolve_field data) ks (p0, c0) = Ok (p, c) ->
    NoDup (Dict.keys p0) ->
    NoDup (Dict.keys p)
    /\ (forall k, In k (Dict.keys p) <-> In k (Dict.keys p0) \/ In k ks)
    /\ List.length c = (List.length c0 + List.length ks)%nat.
Proof.
  induction ks as [|k0 ks IH]; intros p0 c0 p c Hrun Hnd; simpl in Hrun.
  - inversion Hrun; subst. split; [exact Hnd|]. split.
    + intros k. simpl. tauto.
    + simpl. now rewrite Nat.add_0_r.
  - bind_inv Hrun. destruct a as [p1 c1].
    apply resolve_field_shape in Ha as (val & x & -> & ->).
    destruct (IH _ _ _ _ Hrun) as (Hnd' & Hkeys & Hlen).
    { now apply DictFacts.NoDup_keys_set. }
    split; [exact Hnd'|]. split.
    + intros k. rewrite Hkeys, DictFacts.keys_set. simpl.
      split; [intros [[->|H]|H] | intros [H|[<-|H]]]; auto.
    + rewrite Hlen, length_app. simpl. lia.
Qed.

(** X6.  Whatever the decoded response holds, the data of a normalised
    result has exactly the keys of the schema, each once: keys the model
    added are dropped and every field of the schema is present. *)
Theorem normalised_data_keys_are_schema_keys
    (decoded : json) (fields : dict) (out : json) :
  normalise_result decoded fields = Ok out ->
  exists data,
    result_data out = Some data
    /\ NoDup (Dict.keys data)
    /\ forall k, In k (Dict.keys data) <-> In k (Dict.keys fields).
Proof.
  intros Hrun.
  apply normalise_result_inv in Hrun
    as (d & er & processed & confs & mean & _ & Hres & _ & ->).
  exists processed. split; [apply normalised_entries|].
  unfold resolve_fields in Hres.
  apply resolve_fields_keys in Hres as (Hnd & Hkeys & _); [|constructor].
  split; [exact Hnd|]. intros k. rewrite Hkeys. simpl. tauto.
Qed.

Lemma normalised_data_keys_are_schema_keys_witness :
  exists data,
    result_data
      (normalised Responses.reported_response Responses.reported_results
         [("invoice_id", JStr "INV-1"); ("total", JStr "12.50")] 20)
    = Some data
    /\ Dict.keys data = ["invoice_id"; "total"].
Proof.
  destruct (normalised_data_keys_are_schema_keys
              (JObj Responses.reported_response) Samples.invoice_schema
              (normalised Responses.reported_response
                 Responses.reported_results
                 [("invoice_id", JStr "INV-1"); ("total", JStr "12.50")] 20))
    as (data & Hdata & _).
  - reflexivity.
  - exists data. split; [exact Hdata|].
    vm_compute in Hdata. inversion Hdata; subst data. reflexivity.
Defined.



Lemma py_lt_not_number (x : json) (n : Z) :
  as_number x = None -> exists e, py_lt x (JNum n) = Raise e.
Proof.
  unfold py_lt. destruct x as [|[|]|z|s|xs|kvs]; simpl; intros H;
    try discriminate; eauto.
Qed.

Lemma resolve_field_raises (data : dict) (acc : dict * list json)
    (k : string) (fd : dict) :
  Dict.get k data = Some (JObj fd) ->
  Dict.mem "value" fd = true ->
  as_number (scored_confidence fd) = None ->
  exists e, resolve_field (JObj data) acc k = Raise e.
Proof.
  intros Hk Hvalue Hconf. destruct acc as [processed confs].
  unfold resolve_field. cbn [py_get bind]. rewrite Hk.
  cbn [has_value_key]. rewrite Hvalue. cbn [py_get bind].
  fold (scored_confidence fd).
  destruct (py_lt_not_number _ 50 Hconf) as [e ->]. simpl. eauto.
Qed.

(** X8.  A field in the scored form whose confidence is not a number (a
    string, null, a list) makes the normalisation raise, whatever the other
    fields hold; for a single image the orchestrator then returns the
    degraded record of its handler instead of the fields it decoded. *)
Theorem non_numeric_confidence_degrades_the_request
    (json_loads : string -> option json) (json_dumps : json -> string)
    (call : string -> list string -> result string)
    (set_iteration : list json -> list json)
    (build_instruction : dict -> option string -> string)
    (image : string) (fields : dict) (additional : option string)
    (text : string) (d er data fd : dict) (k : string) :
  fields <> [] ->
  call (build_instruction fields additional) [image] = Ok text ->
  json_loads text = Some (JObj d) ->
  Dict.get "extraction_results" d = Some (JObj er) ->
  data_of er = JObj data ->
  In k (Dict.keys fields) ->
  Dict.get k data = Some (JObj fd) ->
  Dict.mem "value" fd = true ->
  as_number (scored_confidence fd) = None ->
  exists e,
    normalise_result (JObj d) fields = Raise e
    /\ extract_structured_data_with_ollama json_loads json_dumps call
         set_iteration build_instruction (Image image) fields additional
       = degraded_result e fields.
Proof.
  intros Hfields Hcall Hloads Her Hdata Hk Hfd Hvalue Hconf.
  assert (Hraise : exists e, resolve_fields (JObj data) fields = Raise e).
  { unfold resolve_fields. apply (foldM_raises _ _ k Hk).
    intros s. eapply resolve_field_raises; eauto. }
  destruct Hraise as [e He]. exists e.
  assert (Hnorm : normalise_result (JObj d) fields = Raise e).
  { rewrite (normalise_result_envelope d er fields Her), Hdata, He.
    reflexivity. }
  split; [exact Hnorm|].
  unfold extract_structured_data_with_ollama.
  destruct fields as [|kv fields]; [congruence|].
  unfold extract_body, obtain_response. rewrite Hcall. cbn [bind].
  unfold decode_response. rewrite Hloads. cbn [bind]. now rewrite Hnorm.
Qed.

Lemma non_numeric_confidence_degrades_the_request_witness :
  let response :=
    [("extraction_results",
      JObj [("data",
             JObj [("invoice_id",
                    JObj [("value", JStr "INV-1");
                          ("confidence", JStr "high")])])])] in
  result_error
    (extract_structured_data_with_ollama RefCodec.json_loads
       RefCodec.json_dumps Servers.reads_page RefCodec.set_iteration
       Servers.prompt (Image (RefCodec.json_dumps (JObj response)))
       Samples.invoice_schema None)
  = Some (JStr "Error calling Ollama: '<' not supported between instances of 'str' and 'int'").
Proof.
  intros response.
  destruct (non_numeric_confidence_degrades_the_request RefCodec.json_loads
              RefCodec.json_dumps Servers.reads_page RefCodec.set_iteration
              Servers.prompt (RefCodec.json_dumps (JObj response))
              Samples.invoice_schema None
              (RefCodec.json_dumps (JObj response)) response
              [("data",
                JObj [("invoice_id",
                       JObj [("value", JStr "INV-1");
                             ("confidence", JStr "high")])])]
              [("invoice_id",
                JObj [("value", JStr "INV-1"); ("confidence", JStr "high")])]
              [("value", JStr "INV-1"); ("confidence", JStr "high")]
              "invoice_id")
    as (e & He & Hout);
    [discriminate | reflexivity | reflexivity | reflexivity | reflexivity
    | simpl; auto | reflexivity | reflexivity | reflexivity |].
  rewrite Hout. vm_compute in He. inversion He; subst e. reflexivity.
Defined.

(** ** The confidence of a merged document *)

Lemma resolve_fields_keep (data : json) (ks : list string) :
  forall (p1 : dict) (c1 : list json) (p' : dict) (c' : list json),
    foldM (resolve_field data) ks (p1, c1) = Ok (p', c') ->
    forall k, ~ In k ks -> Dict.get k p' = Dict.get k p1.
Proof.
  induction ks as [|k1 ks IH]; intros p1 c1 p' c' H k Hout; cbn [foldM] in H.
  - now inversion H.
  - bind_inv H. destruct a as [p2 c2].
    apply resolve_field_shape in Ha as (val & x & -> & ->).
    rewrite (IH _ _ _ _ H k) by (simpl in Hout; tauto).
    apply DictFacts.get_set_other. simpl in Hout. tauto.
Qed.

Lemma resolve_fields_plain (data : dict) (ks : list string) :
  (forall k, In k ks -> has_value_key (value_or_null data k) = false) ->
  forall (p0 : dict) (c0 : list json),
  exists p,
    foldM (resolve_field (JObj data)) ks (p0, c0)
    = Ok (p, (c0 ++ repeat (JNum 50) (List.length ks))%list)
    /\ forall k, In k ks -> Dict.get k p = Some (value_or_null data k).
Proof.
  induction ks as [|k0 ks IH]; intros Hplain p0 c0.
  - exists p0. simpl. rewrite app_nil_r. split; [reflexivity|tauto].
  - destruct (IH (fun k Hk => Hplain k (or_intror Hk))
                (Dict.set k0 (value_or_null data k0) p0)
                (c0 ++ [JNum 50])%list) as (p & Hrun & Hget).
    assert (Hstep : resolve_field (JObj data) (p0, c0) k0
                    = Ok (Dict.set k0 (value_or_null data k0) p0,
                          (c0 ++ [JNum 50])%list)).
    { unfold resolve_field. cbn [py_get bind].
      fold (value_or_null data k0).
      now rewrite (Hplain k0 (or_introl eq_refl)). }
    exists p. split.
    + cbn [foldM]. rewrite Hstep. cbn [bind]. rewrite Hrun.
      cbn [List.length repeat]. now rewrite <- app_assoc.
    + intros k [<-|Hk]; [|now apply Hget].
      destruct (in_dec string_dec k0 ks) as [Hin|Hout]; [now apply Hget|].
      rewrite (resolve_fields_keep _ _ _ _ _ _ Hrun k0 Hout).
      apply DictFacts.get_set_same.
Qed.

Lemma py_sum_from_fifties (n : nat) (acc : Z) :
  py_sum_from acc (repeat (JNum 50) n) = Ok (acc + 50 * Z.of_nat n).
Proof.
  revert acc. induction n as [|n IH]; intros acc.
  - simpl. f_equal. lia.
  - simpl repeat. simpl py_sum_from. rewrite IH. f_equal. lia.
Qed.

Lemma mean_confidence_fifties (n : nat) :
  mean_confidence (repeat (JNum 50) (S n)) = Ok 50.
Proof.
  unfold mean_confidence. simpl repeat. unfold py_sum.
  change (JNum 50 :: repeat (JNum 50) n) with (repeat (JNum 50) (S n)).
  rewrite py_sum_from_fifties. cbn [bind]. rewrite repeat_length.
  unfold int_mean. f_equal. rewrite Z.add_0_l. apply Z.quot_mul. lia.
Qed.

Lemma normalise_merged_record (avg : Z) (reasoning : string) (merged : dict)
    (additional : json) (fields : dict) :
  fields <> [] ->
  (forall k, In k (Dict.keys fields) ->
             has_value_key (value_or_null merged k) = false) ->
  exists out,
    normalise_result (merged_record avg reasoning merged additional) fields
    = Ok out
    /\ result_entry "confidence_score" out = Some (JNum 50)
    /\ result_entry "reasoning" out = Some (JStr reasoning)
    /\ result_entry "additional_request_result" out = Some additional
    /\ result_error out = None
    /\ forall k, In k (Dict.keys fields) ->
                 result_field k out = Some (value_or_null merged k).
Proof.
  intros Hfields Hplain.
  destruct (resolve_fields_plain merged (Dict.keys fields) Hplain [] [])
    as (p & Hres & Hget).
  assert (Hmean : mean_confidence
                    (repeat (JNum 50) (List.length (Dict.keys fields)))
                  = Ok 50).
  { destruct fields as [|kv fields]; [congruence|].
    apply mean_confidence_fifties. }
  set (er := [("confidence_score", JNum avg);
              ("reasoning", JStr reasoning);
              ("data", JObj merged);
              ("additional_request_result", additional)]).
  exists (normalised [("extraction_results", JObj er)] er p 50).
  split.
  - unfold merged_record. fold er.
    rewrite (normalise_result_envelope [("extraction_results", JObj er)] er
               fields eq_refl).
    change (data_of er) with (JObj merged).
    assert (Hres' : resolve_fields (JObj merged) fields
                    = Ok (p, repeat (JNum 50)
                               (List.length (Dict.keys fields))))
      by exact Hres.
    rewrite Hres'. cbn [bind fst snd]. rewrite Hmean. reflexivity.
  - split; [reflexivity|]. split; [reflexivity|]. split; [reflexivity|].
    split; [reflexivity|].
    intros k Hk. unfold result_field.
    rewrite (proj2 (normalised_entries _ _ _ _)). now apply Hget.
Qed.

(** X9.  In the multi-page flow the confidence the orchestrator returns is
    not the one the merger computed: the merged record is normalised like a
    model response whose values are bare, so, when no merged value is
    itself a dictionary with a key [value], every field resolves to the
    default 50 and the returned confidence is 50 whatever the pages
    reported; the merged values, the reasoning and the additional result
    are returned unchanged. *)
Theorem multi_page_confidence_is_the_default
    (json_loads : string -> option json) (json_dumps : json -> string)
    (call : string -> list string -> result string)
    (set_iteration : list json -> list json)
    (build_instruction : dict -> option string -> string)
    (pages : list string) (fields : dict) (additional : option string)
    (merged : json) :
  fields <> [] ->
  List.length pages <> 1%nat ->
  merge_page_results set_iteration
    (collect_pages json_loads call (build_instruction fields additional)
       (List.length pages) 0 pages) fields = Ok merged ->
  json_loads (json_dumps merged) = Some merged ->
  (forall k v, In k (Dict.keys fields) -> result_field k merged = Some v ->
               has_value_key v = false) ->
  let out := extract_structured_data_with_ollama json_loads json_dumps call
               set_iteration build_instruction (Pdf pages) fields
               additional in
  result_entry "confidence_score" out = Some (JNum 50)
  /\ result_error out = None
  /\ result_entry "reasoning" out = result_entry "reasoning" merged
  /\ result_entry "additional_request_result" out
     = result_entry "additional_request_result" merged
  /\ forall k, In k (Dict.keys fields) ->
               result_field k out = result_field k merged.
Proof.
  intros Hfields Hlen Hmerge Hround Hplain out. subst out.
  pose proof Hmerge as Hinv.
  apply merge_page_results_inv in Hinv
    as (st & avg & reasoning & f & r & fr & add
        & Hrun & _ & Hpages & _ & _ & ->).
  set (m := fill_missing (Dict.keys fields) (merged_data st)) in *.
  assert (Hm : forall k, In k (Dict.keys fields) ->
                         Dict.get k m = Some (value_or_null m k)).
  { intros k Hk. unfold value_or_null.
    destruct (Dict.get k m) eqn:Hget; [reflexivity|].
    subst m. rewrite fill_missing_get in Hget.
    destruct (Dict.get k (merged_data st)); [discriminate|].
    destruct (in_dec string_dec k (Dict.keys fields));
      [discriminate|contradiction]. }
  destruct (normalise_merged_record avg reasoning m add fields Hfields)
    as (out & Hnorm & Hscore & Hreason & Hadd & Herr & Hvalues).
  { intros k Hk. apply (Hplain k); [exact Hk|].
    unfold result_field. rewrite result_data_merged_record. now apply Hm. }
  unfold extract_structured_data_with_ollama.
  destruct fields as [|kv fields]; [congruence|].
  rewrite multi_page_result; try assumption.
  - rewrite Hmerge. cbn [bind]. unfold decode_response. rewrite Hround.
    cbn [bind]. rewrite Hnorm.
    split; [exact Hscore|]. split; [exact Herr|].
    split; [exact Hreason|]. split; [exact Hadd|].
    intros k Hk. rewrite (Hvalues k Hk). unfold result_field.
    rewrite result_data_merged_record. symmetry. now apply Hm.
  - intros Hnil. rewrite Hnil in Hpages. discriminate.
Qed.

Lemma multi_page_confidence_is_the_default_witness :
  let out := extract_structured_data_with_ollama RefCodec.json_loads
               RefCodec.json_dumps Servers.reads_page RefCodec.set_iteration
               Servers.prompt (Pdf Servers.five_pages) Samples.invoice_schema
               None in
  result_entry "confidence_score" out = Some (JNum 50)
  /\ result_error out = None.
Proof.
  intros out.
  eassert (Hmerge : merge_page_results RefCodec.set_iteration
                      (collect_pages RefCodec.json_loads Servers.reads_page
                         (Servers.prompt Samples.invoice_schema None)
                         (List.length Servers.five_pages) 0
                         Servers.five_pages) Samples.invoice_schema = Ok _).
  { vm_compute. reflexivity. }
  destruct (multi_page_confidence_is_the_default RefCodec.json_loads
              RefCodec.json_dumps Servers.reads_page RefCodec.set_iteration
              Servers.prompt Servers.five_pages Samples.invoice_schema None
              _ ltac:(discriminate) ltac:(discriminate) Hmerge)
    as (Hscore & Herr & _).
  - vm_compute. reflexivity.
  - intros k v [<-|[<-|[]]] Hv; vm_compute in Hv; inversion Hv; reflexivity.
  - split; assumption.
Defined.

(** * The model server *)

Ltac bind_named H x :=
  let Hx := fresh "H" x in
  apply bind_Ok in H as (x & Hx & H).

Lemma judge_listed_false (model_name : string) (m : json) :
  judge_listed model_name m = Ok false ->
  has_vision_keyword model_name = false.
Proof.
  unfold judge_listed. intros H. do 4 bind_inv H.
  bind_named H clip. destruct clip; [discriminate|].
  bind_named H known. destruct known; [discriminate|].
  destruct (has_vision_keyword model_name); [discriminate|reflexivity].
Qed.

Lemma scan_models_false (model_name : string) (models : list json) :
  scan_models model_name models = Ok false ->
  exists m name,
    In m models
    /\ py_get m "name" JNull = Ok name
    /\ py_eq name (JStr model_name) = true
    /\ judge_listed model_name m = Ok false.
Proof.
  induction models as [|m rest IH]; simpl; [discriminate|].
  intros H. bind_inv H.
  destruct (py_eq a (JStr model_name)) eqn:Hname.
  - exists m, a. auto.
  - destruct (IH H) as (m' & name & Hin & Hrest). exists m', name. auto.
Qed.

Section ClientFacts.

Variable json_loads : string -> option json.
Variable decode_error : string -> string.
Variable http_error : http_response -> string.
Variable show : string -> request_outcome.
Variable tags : request_outcome.
Variable generate : string -> string -> list string -> request_outcome.

Lemma received_Ok (outcome : request_outcome) (response : http_response) :
  received outcome = Ok response -> outcome = Responded response.
Proof. destruct outcome; simpl; intros H; inversion H; reflexivity. Qed.

Lemma response_json_Ok (response : http_response) (v : json) :
  response_json json_loads decode_error response = Ok v ->
  json_loads (text response) = Some v.
Proof.
  unfold response_json. destruct (json_loads (text response));
    intros H; inversion H; reflexivity.
Qed.

Lemma is_vision_model_body_false (model_name : string) :
  is_vision_model_body json_loads decode_error show tags model_name
  = Ok false ->
  exists tags_response data models listed m name,
    tags = Responded tags_response
    /\ status_code tags_response = 200
    /\ json_loads (text tags_response) = Some data
    /\ py_get data "models" (JArr []) = Ok models
    /\ py_iter models = Ok listed
    /\ In m listed
    /\ py_get m "name" JNull = Ok name
    /\ py_eq name (JStr model_name) = true
    /\ judge_listed model_name m = Ok false.
Proof.
  unfold is_vision_model_body. intros H.
  bind_named H show_response. bind_named H marked.
  destruct marked; [discriminate|]. bind_named H tags_response.
  destruct (status_code tags_response =? 200) eqn:Hstatus;
    [|discriminate]. cbn [negb] in H.
  bind_named H data. bind_named H models. bind_named H listed.
  apply scan_models_false in H as (m & name & Hin & Hname & Heq & Hjudge).
  exists tags_response, data, models, listed, m, name.
  split; [now apply received_Ok|].
  split; [now apply Z.eqb_eq|].
  split; [now apply response_json_Ok|]. auto 10.
Qed.

(** X10.  The capability check rejects a model only on positive evidence:
    [/api/tags] answered with status 200 and a list that holds the model
    under its exact name, and the test of that entry found no marker; in
    particular the name holds none of the words vision, llava and bakllava.
    Whenever the check is inconclusive (a request fails, [/api/tags]
    answers another status, the model is not listed, anything raises) the
    model is taken to support vision. *)
Theorem vision_check_rejects_only_listed_models (model_name : string) :
  is_vision_model json_loads decode_error show tags model_name = false ->
  has_vision_keyword model_name = false
  /\ exists tags_response data models listed m name,
       tags = Responded tags_response
       /\ status_code tags_response = 200
       /\ json_loads (text tags_response) = Some data
       /\ py_get data "models" (JArr []) = Ok models
       /\ py_iter models = Ok listed
       /\ In m listed
       /\ py_get m "name" JNull = Ok name
       /\ py_eq name (JStr model_name) = true
       /\ judge_listed model_name m = Ok false.
Proof.
  unfold is_vision_model. intros H.
  destruct (is_vision_model_body json_loads decode_error show tags model_name)
    as [[|]|e] eqn:Hbody; try discriminate.
  pose proof (is_vision_model_body_false model_name Hbody) as Hwhy.
  split; [|exact Hwhy].
  destruct Hwhy as (_ & _ & _ & _ & m & _ & _ & _ & _ & _ & _ & _ & _ & _ & Hj).
  now apply judge_listed_false in Hj.
Qed.

(** X11.  A model whose name holds one of the words vision, llava and
    bakllava, in any case, passes the capability check whatever the server
    answers. *)
Theorem vision_keyword_always_passes (model_name : string) :
  has_vision_keyword model_name = true ->
  is_vision_model json_loads decode_error show tags model_name = true.
Proof.
  intros Hkey.
  destruct (is_vision_model json_loads decode_error show tags model_name)
    eqn:Hcheck; [reflexivity|].
  unfold is_vision_model in Hcheck.
  destruct (is_vision_model_body json_loads decode_error show tags model_name)
    as [[|]|e] eqn:Hbody; try discriminate.
  destruct (is_vision_model_body_false model_name Hbody)
    as (_ & _ & _ & _ & m & _ & _ & _ & _ & _ & _ & _ & _ & _ & Hj).
  apply judge_listed_false in Hj. congruence.
Qed.

(** X12.  When [/api/show] answers with status 200 and a JSON object that
    has the key [projector_info], the model passes the capability check,
    whatever else the object holds and whatever [/api/tags] answers. *)
Theorem projector_info_always_passes (model_name : string)
    (show_response : http_response) (show_data : dict) :
  show model_name = Responded show_response ->
  status_code show_response = 200 ->
  json_loads (text show_response) = Some (JObj show_data) ->
  Dict.mem "projector_info" show_data = true ->
  is_vision_model json_loads decode_error show tags model_name = true.
Proof.
  intros Hshow Hstatus Hjson Hmark.
  unfold is_vision_model, is_vision_model_body.
  rewrite Hshow. cbn [received bind].
  unfold probe_show, response_json. rewrite Hstatus, Hjson. cbn [Z.eqb bind].
  change (200 =? 200) with true. cbv iota.
  cbn [py_get bind].
  destruct (py_get match Dict.get "details" show_data with
                   | Some v => v
                   | None => JObj []
                   end "families" (JArr [])) as [families|e];
    [|reflexivity].
  cbn [bind]. destruct (py_in "clip" families) as [[|]|e]; try reflexivity.
  cbn [bind py_in]. rewrite Hmark. reflexivity.
Qed.

End ClientFacts.

Lemma vision_check_rejects_only_listed_models_witness :
  is_vision_model RefCodec.json_loads Probes.no_text Probes.show_unknown
    Probes.tags_text_only "mistral:7b" = false
  /\ has_vision_keyword "mistral:7b" = false.
Proof.
  split; [reflexivity|].
  exact (proj1 (vision_check_rejects_only_listed_models RefCodec.json_loads
                  Probes.no_text Probes.show_unknown Probes.tags_text_only
                  "mistral:7b" eq_refl)).
Defined.

Lemma vision_keyword_always_passes_witness :
  is_vision_model RefCodec.json_loads Probes.no_text Probes.show_unknown
    Probes.tags_text_only "LLaVA-custom:7b" = true.
Proof.
  exact (vision_keyword_always_passes RefCodec.json_loads Probes.no_text
           Probes.show_unknown Probes.tags_text_only "LLaVA-custom:7b"
           eq_refl).
Defined.

Lemma projector_info_always_passes_witness :
  is_vision_model RefCodec.json_loads Probes.no_text Probes.show_projector
    Probes.tags_text_only "mistral:7b" = true.
Proof.
  eapply (projector_info_always_passes RefCodec.json_loads Probes.no_text
            Probes.show_projector Probes.tags_text_only "mistral:7b").
  - reflexivity.
  - reflexivity.
  - vm_compute. reflexivity.
  - reflexivity.
Defined.

Section CallFacts.

Variable json_loads : string -> option json.
Variable decode_error : string -> string.
Variable http_error : http_response -> string.
Variable show : string -> request_outcome.
Variable tags : request_outcome.
Variable generate : string -> string -> list string -> request_outcome.

(** X13.  [call_ollama_vision] returns a value only when the model passed
    the capability check and the server answered the generation with a
    status outside 400 to 599 and a JSON object; what it returns is the
    [response] entry of that object, or the text of an empty JSON object
    when the entry is missing or empty: it never returns an empty value,
    nor a number or a truth value. *)
Theorem call_returns_only_a_non_empty_response
    (model prompt : string) (images : list string) (returned : json) :
  call_ollama_vision json_loads decode_error http_error show tags generate
    model prompt images = Ok returned ->
  truthy returned = true
  /\ py_len returned = Ok tt
  /\ is_vision_model json_loads decode_error show tags model = true
  /\ exists response result response_text,
       generate model prompt images = Responded response
       /\ is_error_status (status_code response) = false
       /\ json_loads (text response) = Some result
       /\ py_get result "response" (JStr "") = Ok response_text
       /\ returned = (if truthy response_text then response_text
                      else JStr "{}").
Proof.
  unfold call_ollama_vision. intros H.
  destruct (is_vision_model json_loads decode_error show tags model);
    [|discriminate]. cbn [negb] in H. unfold read_generation in H.
  destruct (generate model prompt images) as [response|msg|msg [r|]|e];
    try discriminate.
  destruct (is_error_status (status_code response)) eqn:Hstatus;
    [discriminate|].
  bind_named H body. rename body into result.
  bind_named H response_text. apply response_json_Ok in Hbody.
  assert (Hret : returned = (if truthy response_text then response_text
                             else JStr "{}")
                 /\ py_len returned = Ok tt).
  { destruct (truthy response_text).
    - bind_named H measured. destruct measured.
      inversion H; subst returned. auto.
    - inversion H; subst returned. auto. }
  destruct Hret as [Hret Hlen]. split; [|split; [exact Hlen|]].
  - rewrite Hret. destruct (truthy response_text) eqn:Ht; [exact Ht|reflexivity].
  - split; [reflexivity|].
    exists response, result, response_text. auto.
Qed.

(** X14.  A generation the server answers with a status from 400 to 599 is
    never returned as text: the call raises.  For the statuses 413 and 500
    the message is a fixed advice, for 400 one of two fixed advices, and for
    every other status it is the message of the HTTP error itself. *)
Theorem error_status_raises_with_advice
    (model prompt : string) (images : list string)
    (response : http_response) :
  is_vision_model json_loads decode_error show tags model = true ->
  generate model prompt images = Responded response ->
  is_error_status (status_code response) = true ->
  exists msg,
    call_ollama_vision json_loads decode_error http_error show tags generate
      model prompt images = Raise (Exception msg)
    /\ (status_code response = 413 -> msg = payload_message)
    /\ (status_code response = 500 -> msg = server_error_message)
    /\ (status_code response = 400 ->
        msg = not_vision_message model \/ msg = bad_request_message)
    /\ (status_code response <> 400 -> status_code response <> 413 ->
        status_code response <> 500 -> msg = http_error response).
Proof.
  intros Hvision Hgen Hstatus. unfold call_ollama_vision.
  rewrite Hvision. cbn [negb]. unfold read_generation.
  rewrite Hgen, Hstatus. unfold explain_failure.
  destruct (Z.eqb_spec (status_code response) 400) as [E400|N400].
  - destruct (_ || _); eexists; (split; [reflexivity|]);
      repeat split; intros; try lia; auto.
  - destruct (Z.eqb_spec (status_code response) 413) as [E413|N413].
    + eexists. split; [reflexivity|]. repeat split; intros; try lia; auto.
    + destruct (Z.eqb_spec (status_code response) 500) as [E500|N500].
      * eexists. split; [reflexivity|]. repeat split; intros; try lia; auto.
      * eexists. split; [reflexivity|]. repeat split; intros; try lia; auto.
Qed.

End CallFacts.

Lemma call_returns_only_a_non_empty_response_witness :
  call_ollama_vision RefCodec.json_loads Probes.no_text Probes.status_line
    Probes.show_projector Probes.tags_down Probes.generate_nothing
    "gemma3:4b" "Extract the fields." ["scan"] = Ok (JStr "{}")
  /\ truthy (JStr "{}") = true.
Proof.
  split; [vm_compute; reflexivity|].
  eapply (proj1 (call_returns_only_a_non_empty_response RefCodec.json_loads
            Probes.no_text Probes.status_line Probes.show_projector
            Probes.tags_down Probes.generate_nothing "gemma3:4b"
            "Extract the fields." ["scan"] (JStr "{}") _)).
  Unshelve. vm_compute. reflexivity.
Defined.

Lemma error_status_raises_with_advice_witness :
  call_ollama_vision RefCodec.json_loads Probes.no_text Probes.status_line
    Probes.show_projector Probes.tags_down Probes.generate_too_large
    "gemma3:4b" "Extract the fields." ["scan"]
  = Raise (Exception payload_message).
Proof.
  destruct (error_status_raises_with_advice RefCodec.json_loads
              Probes.no_text Probes.status_line Probes.show_projector
              Probes.tags_down Probes.generate_too_large "gemma3:4b"
              "Extract the fields." ["scan"]
              {| status_code := 413; text := "request body too large" |})
    as (msg & Hcall & H413 & _).
  - vm_compute. reflexivity.
  - reflexivity.
  - reflexivity.
  - rewrite Hcall, (H413 eq_refl). reflexivity.
Defined.

(** * The orchestrator on the model server *)

Lemma normalise_empty_object (fields : dict) :
  exists out,
    normalise_result (JObj []) fields = Ok out
    /\ result_error out = None
    /\ result_entry "confidence_score" out = Some (JNum 0)
    /\ result_entry "reasoning" out
       = Some (JStr "Response format was unexpected")
    /\ forall k, In k (Dict.keys fields) -> result_field k out = Some JNull.
Proof.
  destruct (resolve_fields_plain [] (Dict.keys fields)
              (fun k _ => eq_refl) [] []) as (p & Hres & Hget).
  assert (Hres' : resolve_fields (JObj []) fields
                  = Ok (p, repeat (JNum 50) (List.length (Dict.keys fields))))
    by exact Hres.
  destruct (mean_confidence_numbers
              (repeat (JNum 50) (List.length (Dict.keys fields))))
    as [mean Hmean].
  { eapply resolve_fields_numbers; eauto. }
  rewrite (normalise_result_unwrapped (JObj []) fields eq_refl).
  rewrite (normalise_result_envelope
             [("extraction_results", JObj (wrapped_response (JObj [])))]
             (wrapped_response (JObj [])) fields eq_refl).
  change (data_of (wrapped_response (JObj []))) with (JObj []).
  rewrite Hres'. cbn [bind fst snd]. rewrite Hmean. cbn [bind].
  eexists. split; [reflexivity|]. repeat (split; [reflexivity|]).
  intros k Hk. unfold result_field.
  rewrite (proj2 (normalised_entries _ _ _ _)). now apply Hget.
Qed.

Section OrchestratorOnServer.

Variable json_loads : string -> option json.
Variable json_dumps : json -> string.
Variable decode_error : string -> string.
Variable http_error : http_response -> string.
Variable show : string -> request_outcome.
Variable tags : request_outcome.
Variable generate : string -> string -> list string -> request_outcome.
Variable set_iteration : list json -> list json.
Variable build_instruction : dict -> option string -> string.
Variable model : string.

(** X15.  When the server answers the generation for an image with an
    empty response text, the extraction does not fail: the client hands
    the text of an empty JSON object to the orchestrator, which returns a
    record without error where every field of the schema is null, the
    confidence is 0 and the reasoning is [Response format was
    unexpected]. *)
Theorem empty_response_gives_null_fields
    (image : string) (fields : dict) (additional : option string)
    (response : http_response) (body response_text : json) :
  fields <> [] ->
  json_loads "{}" = Some (JObj []) ->
  is_vision_model json_loads decode_error show tags model = true ->
  generate model (build_instruction fields additional) [image]
  = Responded response ->
  is_error_status (status_code response) = false ->
  json_loads (text response) = Some body ->
  py_get body "response" (JStr "") = Ok response_text ->
  truthy response_text = false ->
  let out := extract_structured_data_with_ollama json_loads json_dumps
               (ollama_client json_loads decode_error http_error show tags
                  generate model)
               set_iteration build_instruction (Image image) fields
               additional in
  result_error out = None
  /\ result_entry "confidence_score" out = Some (JNum 0)
  /\ result_entry "reasoning" out
     = Some (JStr "Response format was unexpected")
  /\ forall k, In k (Dict.keys fields) -> result_field k out = Some JNull.
Proof.
  intros Hfields Hempty Hvision Hgen Hstatus Hbody Htext Hfalsy out.
  subst out. unfold extract_structured_data_with_ollama.
  destruct fields as [|kv fields]; [congruence|].
  unfold extract_body, obtain_response, ollama_client, call_ollama_vision.
  rewrite Hvision. cbn [negb]. unfold read_generation.
  rewrite Hgen, Hstatus. unfold response_json. rewrite Hbody. cbn [bind].
  rewrite Htext. cbn [bind]. rewrite Hfalsy. cbn [response_text_of bind].
  unfold decode_response. rewrite Hempty. cbn [bind].
  destruct (normalise_empty_object (kv :: fields)) as (out & -> & H).
  exact H.
Qed.


End OrchestratorOnServer.

Lemma empty_response_gives_null_fields_witness :
  result_field "invoice_id"
    (extract_structured_data_with_ollama RefCodec.json_loads
       RefCodec.json_dumps
       (ollama_client RefCodec.json_loads Probes.no_text Probes.status_line
          Probes.show_projector Probes.tags_down Probes.generate_nothing
          "gemma3:4b")
       RefCodec.set_iteration Servers.prompt (Image "scan")
       Samples.invoice_schema None)
  = Some JNull.
Proof.
  eapply (empty_response_gives_null_fields RefCodec.json_loads
            RefCodec.json_dumps Probes.no_text Probes.status_line
            Probes.show_projector Probes.tags_down Probes.generate_nothing
            RefCodec.set_iteration Servers.prompt "gemma3:4b" "scan"
            Samples.invoice_schema None).
  - discriminate.
  - reflexivity.
  - vm_compute. reflexivity.
  - reflexivity.
  - reflexivity.
  - vm_compute. reflexivity.
  - reflexivity.
  - reflexivity.
  - simpl. auto.
Defined.


(** * The file-name filter *)

Lemma split_last_dot_None (s : string) :
  split_last_dot s = None <-> has_char "." s = false.
Proof.
  induction s as [|c s IH]; simpl; [tauto|].
  destruct (split_last_dot s) as [[h t]|].
  - destruct (has_char "." s).
    + rewrite orb_true_r. split; discriminate.
    + destruct IH as [_ IH]. discriminate IH. reflexivity.
  - rewrite (proj1 IH eq_refl), orb_false_r.
    destruct (Ascii.eqb c "."); split; congruence.
Qed.

Lemma split_last_dot_app (stem ext : string) :
  has_char "." ext = false ->
  split_last_dot (stem ++ String "." ext) = Some (stem, ext).
Proof.
  intros Hext. induction stem as [|c stem IH]; simpl.
  - now rewrite (proj2 (split_last_dot_None ext) Hext).
  - now rewrite IH.
Qed.

Lemma split_last_dot_Some (s head tail : string) :
  split_last_dot s = Some (head, tail) ->
  s = head ++ String "." tail /\ has_char "." tail = false.
Proof.
  revert head. induction s as [|c s IH]; intros head; simpl; [discriminate|].
  destruct (split_last_dot s) as [[h t]|] eqn:Hs.
  - intros [= <- <-]. destruct (IH h eq_refl) as [-> Ht]. auto.
  - destruct (Ascii.eqb_spec c ".") as [->|Hne]; [|discriminate].
    intros [= <- <-]. split; [reflexivity|].
    now apply split_last_dot_None.
Qed.

Lemma allowed_file_extension (stem ext : string) :
  has_char "." ext = false ->
  allowed_file (stem ++ String "." ext)
  = existsb (String.eqb (lower ext)) ALLOWED_EXTENSIONS.
Proof.
  intros Hext. unfold allowed_file, rsplit_dot.
  rewrite (split_last_dot_app stem ext Hext), has_char_app. simpl has_char.
  now rewrite orb_true_r.
Qed.

Lemma existsb_eqb_In (x : string) (xs : list string) :
  existsb (String.eqb x) xs = true <-> In x xs.
Proof.
  rewrite existsb_exists. split.
  - intros (y & Hy & Heq). apply String.eqb_eq in Heq. now subst.
  - intros H. exists x. split; [exact H | apply String.eqb_refl].
Qed.

(** X17.  A file name is accepted exactly when it has a dot and the text
    after its last dot is, in any case, one of png, jpg, jpeg and pdf: only
    the last extension counts, and a name without a dot is refused. *)
Theorem allowed_file_looks_at_the_last_extension (filename : string) :
  allowed_file filename = true <->
  exists stem ext,
    filename = stem ++ String "." ext
    /\ has_char "." ext = false
    /\ In (lower ext) ALLOWED_EXTENSIONS.
Proof.
  split.
  - unfold allowed_file, rsplit_dot. intros H.
    apply andb_true_iff in H as [Hdot H].
    destruct (split_last_dot filename) as [[stem ext]|] eqn:Hsplit.
    + apply split_last_dot_Some in Hsplit as [-> Hext].
      exists stem, ext. repeat split; auto.
      now apply existsb_eqb_In.
    + simpl in H. discriminate.
  - intros (stem & ext & -> & Hext & Hin).
    rewrite (allowed_file_extension stem ext Hext).
    now apply existsb_eqb_In.
Qed.

Lemma allowed_file_looks_at_the_last_extension_witness :
  allowed_file "scan.v2.PDF" = true /\ allowed_file "scan.pdf.exe" = false.
Proof.
  split.
  - apply (proj2 (allowed_file_looks_at_the_last_extension "scan.v2.PDF")).
    exists "scan.v2", "PDF". repeat split. simpl. auto.
  - reflexivity.
Defined.

Lemma lower_ascii_dot (c : ascii) :
  Ascii.eqb (lower_ascii c) "." = Ascii.eqb c ".".
Proof.
  destruct c as [[] [] [] [] [] [] [] []]; reflexivity.
Qed.

Lemma lower_ascii_idem (c : ascii) :
  lower_ascii (lower_ascii c) = lower_ascii c.
Proof.
  destruct c as [[] [] [] [] [] [] [] []]; reflexivity.
Qed.

Lemma lower_idem (s : string) : lower (lower s) = lower s.
Proof.
  induction s as [|c s IH]; simpl; [reflexivity|].
  now rewrite lower_ascii_idem, IH.
Qed.

Lemma has_dot_lower (s : string) : has_char "." (lower s) = has_char "." s.
Proof.
  induction s as [|c s IH]; simpl; [reflexivity|].
  now rewrite lower_ascii_dot, IH.
Qed.

Lemma split_last_dot_lower (s : string) :
  split_last_dot (lower s)
  = option_map (fun ht => (lower (fst ht), lower (snd ht))) (split_last_dot s).
Proof.
  induction s as [|c s IH]; simpl; [reflexivity|].
  rewrite IH. destruct (split_last_dot s) as [[h t]|]; simpl; [reflexivity|].
  rewrite lower_ascii_dot. now destruct (Ascii.eqb c ".").
Qed.

(** X18.  The filter ignores the case of the file name: a name is accepted
    exactly when its lower-case form is. *)
Theorem allowed_file_ignores_case (filename : string) :
  allowed_file (lower filename) = allowed_file filename.
Proof.
  unfold allowed_file, rsplit_dot.
  rewrite has_dot_lower, split_last_dot_lower.
  destruct (split_last_dot filename) as [[h t]|]; simpl; [|reflexivity].
  now rewrite lower_idem.
Qed.

(** * The model catalogue *)

Ltac vram_cases v :=
  unfold Catalogue.get_recommended_models_by_vram;
  destruct (Z.eqb_spec v 0);
  [|destruct (Z.leb_spec v 4);
    [|destruct (Z.leb_spec v 6);
      [|destruct (Z.leb_spec v 8);
        [|destruct (Z.leb_spec v 12);
          [|destruct (Z.leb_spec v 16);
            [|destruct (Z.leb_spec v 24)]]]]]].

(** X19.  For every whole number of gigabytes of video memory the
    recommendation exists, and every model it recommends is in the
    catalogue, in the category the recommendation names. *)
Theorem recommended_models_are_in_their_category (vram_gb : Z) :
  exists recommended category_name names models listed,
    Catalogue.get_recommended_models_by_vram vram_gb = Some recommended
    /\ py_get recommended "category" JNull = Ok (JStr category_name)
    /\ py_get recommended "recommended_models" JNull = Ok (JArr names)
    /\ Catalogue.get_models_by_category category_name = Ok (JArr models)
    /\ Catalogue.model_names models = Some listed
    /\ names <> []
    /\ incl names listed.
Proof.
  vram_cases vram_gb;
    (eexists; eexists; eexists; eexists; eexists;
     split; [reflexivity|]; split; [reflexivity|]; split; [reflexivity|];
     split; [reflexivity|]; split; [reflexivity|];
     split; [discriminate|];
     intros x Hx; simpl in Hx; simpl; intuition).
Qed.

Lemma recommendation_rank (vram_gb : Z) :
  exists recommended category_name,
    Catalogue.get_recommended_models_by_vram vram_gb = Some recommended
    /\ py_get recommended "category" JNull = Ok category_name
    /\ Catalogue.category_rank category_name
       = if vram_gb <=? 4 then 0%nat
         else if vram_gb <=? 8 then 1%nat
         else if vram_gb <=? 16 then 2%nat else 3%nat.
Proof.
  vram_cases vram_gb;
    (eexists; eexists; split; [reflexivity|]; split; [reflexivity|];
     repeat match goal with
            | |- context [?a <=? ?b] => destruct (Z.leb_spec a b); try lia
            end; reflexivity).
Qed.

(** X20.  More video memory never gives a recommendation of a lower
    category: the category recommended for a whole number of gigabytes
    is, in the order lightweight, medium, large, professional, at most the
    one recommended for any greater number. *)
Theorem more_vram_never_lowers_the_category (vram_gb more : Z) :
  vram_gb <= more ->
  exists first second category_first category_second,
    Catalogue.get_recommended_models_by_vram vram_gb = Some first
    /\ Catalogue.get_recommended_models_by_vram more = Some second
    /\ py_get first "category" JNull = Ok category_first
    /\ py_get second "category" JNull = Ok category_second
    /\ (Catalogue.category_rank category_first
        <= Catalogue.category_rank category_second)%nat.
Proof.
  intros Hle.
  destruct (recommendation_rank vram_gb) as (r1 & c1 & H1 & Hc1 & Hr1).
  destruct (recommendation_rank more) as (r2 & c2 & H2 & Hc2 & Hr2).
  exists r1, r2, c1, c2. repeat (split; [assumption|]).
  rewrite Hr1, Hr2.
  repeat match goal with
         | |- context [?a <=? ?b] => destruct (Z.leb_spec a b); try lia
         end.
Qed.

Lemma more_vram_never_lowers_the_category_witness :
  exists first second,
    Catalogue.get_recommended_models_by_vram 6 = Some first
    /\ Catalogue.get_recommended_models_by_vram 24 = Some second
    /\ py_get first "category" JNull = Ok (JStr "medium")
    /\ py_get second "category" JNull = Ok (JStr "professional").
Proof.
  destruct (more_vram_never_lowers_the_category 6 24)
    as (first & second & c1 & c2 & H1 & H2 & Hc1 & Hc2 & _); [lia|].
  exists first, second. split; [exact H1|]. split; [exact H2|].
  vm_compute in H1. inversion H1; subst first.
  vm_compute in H2. inversion H2; subst second.
  split; reflexivity.
Defined.

(** X21.  [get_models_by_category] never fails: it returns the list of
    the models of a category of the catalogue, which is never empty, and
    the empty list for any other name. *)
Theorem unknown_category_has_no_models (category_name : string) :
  exists models,
    Catalogue.get_models_by_category category_name = Ok (JArr models)
    /\ (models = [] <->
        ~ In category_name (Dict.keys Catalogue.VISION_MODELS)).
Proof.
  unfold Catalogue.get_models_by_category, Catalogue.VISION_MODELS.
  cbn [py_get Dict.get bind Dict.keys map fst].
  destruct (String.eqb_spec category_name "lightweight") as [->|N1];
    [eexists; split; [reflexivity|];
     split; [discriminate|intros H; exfalso; apply H; simpl; auto]|].
  destruct (String.eqb_spec category_name "medium") as [->|N2];
    [eexists; split; [reflexivity|];
     split; [discriminate|intros H; exfalso; apply H; simpl; auto]|].
  destruct (String.eqb_spec category_name "large") as [->|N3];
    [eexists; split; [reflexivity|];
     split; [discriminate|intros H; exfalso; apply H; simpl; auto]|].
  destruct (String.eqb_spec category_name "professional") as [->|N4];
    [eexists; split; [reflexivity|];
     split; [discriminate|intros H; exfalso; apply H; simpl; auto 6]|].
  exists []. split; [reflexivity|]. split; [|reflexivity].
  intros _ [H|[H|[H|[H|[]]]]]; congruence.
Qed.

(** * The document loader *)

Section LoaderFacts.

Variable picture : Type.
Variable picture_width : picture -> Z.
Variable resize : picture -> Z -> Z -> picture.
Variable scaled_height : picture -> Z.
Variable convert_from_path : string -> result (list picture).
Variable encode_page : string -> nat -> picture -> result string.
Variable read_base64 : string -> result string.

Lemma encode_pages_spec (pdf_path : string) (images : list picture) :
  forall (i : nat) (pages : list string),
    encode_pages picture picture_width resize scaled_height encode_page
      pdf_path i images = Ok pages ->
    List.length pages = List.length images
    /\ forall n image,
         nth_error images n = Some image ->
         exists page,
           nth_error pages n = Some page
           /\ encode_page pdf_path (i + n)
                (fit_width picture picture_width resize scaled_height image)
              = Ok page.
Proof.
  induction images as [|image rest IH]; intros i pages H; cbn [encode_pages] in H.
  - inversion H; subst. split; [reflexivity|]. intros [|n] x Hx; discriminate.
  - bind_named H page. bind_named H later. inversion H; subst pages.
    destruct (IH (S i) later Hlater) as [Hlen Hnth]. split.
    + simpl. now rewrite Hlen.
    + intros [|n] x Hx; simpl in Hx.
      * inversion Hx; subst x. exists page. rewrite Nat.add_0_r. auto.
      * destruct (Hnth n x Hx) as (p & Hp & Henc). exists p.
        rewrite Nat.add_succ_r. auto.
Qed.

(** What [process_pdf] has done when it returns. *)
Lemma process_pdf_inv (pdf_path : string) (pages : list string) :
  process_pdf picture picture_width resize scaled_height convert_from_path
    encode_page pdf_path = Ok (Pdf pages) ->
  exists images,
    convert_from_path pdf_path = Ok images
    /\ encode_pages picture picture_width resize scaled_height encode_page
         pdf_path 0
         (if (MAX_PAGES <? List.length images)%nat
          then firstn MAX_PAGES images else images) = Ok pages.
Proof.
  unfold process_pdf. intros H. bind_named H images. bind_named H encoded.
  inversion H; subst encoded. exists images. split; [exact Himages|].
  exact Hencoded.
Qed.

(** X22.  A PDF gives at most ten pages: [process_pdf] returns the pages
    of the first ten images of the conversion, in order, each the encoding
    of its image fitted to the maximal width; the images after the tenth
    are dropped without error. *)
Theorem process_pdf_keeps_the_first_ten_pages
    (pdf_path : string) (pages : list string) :
  process_pdf picture picture_width resize scaled_height convert_from_path
    encode_page pdf_path = Ok (Pdf pages) ->
  exists images,
    convert_from_path pdf_path = Ok images
    /\ List.length pages = Nat.min (List.length images) MAX_PAGES
    /\ forall n image,
         (n < MAX_PAGES)%nat ->
         nth_error images n = Some image ->
         exists page,
           nth_error pages n = Some page
           /\ encode_page pdf_path n
                (fit_width picture picture_width resize scaled_height image)
              = Ok page.
Proof.
  intros H. apply process_pdf_inv in H as (images & Himages & Hencoded).
  exists images. split; [exact Himages|].
  apply encode_pages_spec in Hencoded as [Hlen Hnth].
  destruct (Nat.ltb_spec MAX_PAGES (List.length images)) as [Hlong|Hshort].
  - split.
    + rewrite Hlen, length_firstn. lia.
    + intros n image Hn Himage. apply (Hnth n image).
      rewrite nth_error_firstn.
      destruct (Nat.ltb_spec n MAX_PAGES); [exact Himage|lia].
  - split.
    + rewrite Hlen. lia.
    + intros n image _ Himage. exact (Hnth n image Himage).
Qed.

(** X23.  [process_document] chooses the loader by the media type alone:
    it returns an image only for a type that starts with [image/], a list
    of pages, at most ten, only for the type [application/pdf] exactly, and
    for every other type it fails with the message that names the type,
    whatever the file holds. *)
Theorem process_document_dispatches_on_the_media_type
    (filepath mime_type : string) :
  let load := process_document picture picture_width resize scaled_height
                convert_from_path encode_page read_base64 filepath
                mime_type in
  (forall data, load = inr (Image data) ->
                String.prefix "image/" mime_type = true
                /\ read_base64 filepath = Ok data)
  /\ (forall pages, load = inr (Pdf pages) ->
                    mime_type = "application/pdf"
                    /\ (List.length pages <= MAX_PAGES)%nat)
  /\ (String.prefix "image/" mime_type = false ->
      mime_type <> "application/pdf" ->
      load = inl (UnsupportedFileType
                    ("Unsupported file type: " ++ mime_type))).
Proof.
  intros load. subst load. unfold process_document.
  destruct (String.prefix "image/" mime_type) eqn:Himage.
  - split; [|split].
    + intros data H. split; [reflexivity|].
      unfold process_image in H.
      destruct (read_base64 filepath) as [d|e]; simpl in H;
        inversion H; reflexivity.
    + intros pages H. unfold process_image in H.
      destruct (read_base64 filepath); simpl in H; discriminate.
    + discriminate.
  - destruct (String.eqb_spec mime_type "application/pdf") as [->|Hne].
    + split; [|split].
      * intros data H. unfold loaded in H.
        destruct (process_pdf _ _ _ _ _ _ _) as [doc|e] eqn:Hpdf;
          [|discriminate].
        inversion H; subst doc. unfold process_pdf in Hpdf.
        bind_named Hpdf images. bind_named Hpdf encoded. discriminate.
      * intros pages H. split; [reflexivity|]. unfold loaded in H.
        destruct (process_pdf _ _ _ _ _ _ _) as [doc|e] eqn:Hpdf;
          [|discriminate].
        inversion H; subst doc.
        apply process_pdf_inv in Hpdf as (images & _ & Hencoded).
        apply encode_pages_spec in Hencoded as [Hlen _]. rewrite Hlen.
        destruct (Nat.ltb_spec MAX_PAGES (List.length images));
          [rewrite length_firstn|]; lia.
      * congruence.
    + split; [|split]; try discriminate. reflexivity.
Qed.

Hypothesis resize_width :
  forall image width height,
    picture_width (resize image width height) = width.

(** X24.  No page is saved wider than 1344 pixels: a wider image is scaled
    to that width, and an image that is not wider is saved as it is. *)
Theorem saved_pages_are_at_most_the_maximal_width (image : picture) :
  picture_width
    (fit_width picture picture_width resize scaled_height image) <= MAX_WIDTH
  /\ (picture_width image <= MAX_WIDTH ->
      fit_width picture picture_width resize scaled_height image = image).
Proof.
  unfold fit_width.
  destruct (Z.ltb_spec MAX_WIDTH (picture_width image)) as [Hwide|Hfits].
  - rewrite resize_width. split; [lia|]. lia.
  - split; [exact Hfits|reflexivity].
Qed.

End LoaderFacts.

Lemma process_pdf_keeps_the_first_ten_pages_witness :
  exists images,
    Scans.convert_from_path "scan.pdf" = Ok images
    /\ List.length Scans.encoded = Nat.min (List.length images) MAX_PAGES
    /\ forall n image,
         (n < MAX_PAGES)%nat ->
         nth_error images n = Some image ->
         exists page,
           nth_error Scans.encoded n = Some page
           /\ Scans.encode_page "scan.pdf" n
                (fit_width Scans.picture fst Scans.resize Scans.scaled_height
                   image)
              = Ok page.
Proof.
  apply (process_pdf_keeps_the_first_ten_pages Scans.picture fst Scans.resize
           Scans.scaled_height Scans.convert_from_path Scans.encode_page
           "scan.pdf" Scans.encoded).
  vm_compute. reflexivity.
Defined.

Lemma process_document_dispatches_on_the_media_type_witness :
  (String.prefix "image/" "image/png" = true
   /\ Scans.read_base64 "photo.png" = Ok "aGk=")
  /\ ("application/pdf" = "application/pdf"
      /\ (List.length Scans.encoded <= MAX_PAGES)%nat)
  /\ process_document Scans.picture fst Scans.resize Scans.scaled_height
       Scans.convert_from_path Scans.encode_page Scans.read_base64
       "notes.txt" "text/plain"
     = inl (UnsupportedFileType "Unsupported file type: text/plain").
Proof.
  split; [|split].
  - apply (proj1 (process_document_dispatches_on_the_media_type
                    Scans.picture fst Scans.resize Scans.scaled_height
                    Scans.convert_from_path Scans.encode_page
                    Scans.read_base64 "photo.png" "image/png") "aGk=").
    vm_compute. reflexivity.
  - apply (proj1 (proj2 (process_document_dispatches_on_the_media_type
                    Scans.picture fst Scans.resize Scans.scaled_height
                    Scans.convert_from_path Scans.encode_page
                    Scans.read_base64 "scan.pdf" "application/pdf"))
             Scans.encoded).
    vm_compute. reflexivity.
  - apply (proj2 (proj2 (process_document_dispatches_on_the_media_type
                    Scans.picture fst Scans.resize Scans.scaled_height
                    Scans.convert_from_path Scans.encode_page
                    Scans.read_base64 "notes.txt" "text/plain"))).
    + reflexivity.
    + discriminate.
Defined.

Lemma saved_pages_are_at_most_the_maximal_width_witness :
  fst (fit_width Scans.picture fst Scans.resize Scans.scaled_height
         (2067, 2923)) <= MAX_WIDTH
  /\ (fst (1240, 1754) <= MAX_WIDTH ->
      fit_width Scans.picture fst Scans.resize Scans.scaled_height
        (1240, 1754) = (1240, 1754)).
Proof.
  split.
  - apply (saved_pages_are_at_most_the_maximal_width Scans.picture fst
             Scans.resize Scans.scaled_height
             (fun image width height => eq_refl) (2067, 2923)).
  - apply (saved_pages_are_at_most_the_maximal_width Scans.picture fst
             Scans.resize Scans.scaled_height
             (fun image width height => eq_refl) (1240, 1754)).
Defined.
